(** * The physics converter of the Godot exporter for Blender

    A shallow embedding of [io_scene_godot/converters/physics.py]: the
    hierarchy walk that finds the physics root of an object, the generation
    and caching of collision shapes, the export of the body node and of the
    collision-shape node, and the orchestrating [export_physics_properties].

    Python floats are binary64 numbers and are modelled by Rocq's primitive
    floats; Python integers by [Z]; dictionaries with string keys by [gmap];
    the resource table, whose keys are compared with the keys' own [__eq__],
    by an association list. *)

From Stdlib Require Import ZArith String List Lia Bool.
From Stdlib Require Import PrimFloat SpecFloat FloatOps FloatAxioms.
From Stdlib Require Import Decimal DecimalString.
From stdpp Require Import gmap strings.
Import ListNotations.

Local Open Scope string_scope.
Local Open Scope list_scope.

(** ** Python values *)

(** [max(a, b)] keeps its first argument unless the second is strictly
    greater; [min(a, b)] keeps its first argument unless the second is
    strictly smaller. *)
Definition py_max (a b : float) : float := if PrimFloat.ltb a b then b else a.
Definition py_min (a b : float) : float := if PrimFloat.ltb b a then b else a.

(** [max(iterable)]: [None] stands for the [ValueError] on an empty one. *)
Definition py_max_list (l : list float) : option float :=
  match l with
  | [] => None
  | a :: rest => Some (fold_left py_max rest a)
  end.

(** [str(n)] for a non-negative integer. *)
Definition str_of_nat (n : nat) : string := NilEmpty.string_of_uint (Nat.to_uint n).

(** ** Exceptions and effects

    A function of the converter reads and changes the session (the output
    document and the log) and may raise. *)

Inductive PyExn : Type :=
| AttributeError
| IndexError
| ValueError
| AssertionError.

Inductive Result (A : Type) : Type :=
| Ok (a : A)
| Raise (e : PyExn).
Arguments Ok {A} a.
Arguments Raise {A} e.

Definition Export (S A : Type) : Type := S -> Result (A * S).

Definition ret {S A : Type} (a : A) : Export S A := fun s => Ok (a, s).

Definition bind {S A B : Type} (c : Export S A) (k : A -> Export S B)
    : Export S B :=
  fun s =>
    match c s with
    | Ok (a, s') => k a s'
    | Raise e => Raise e
    end.

Definition lift {S A : Type} (r : Result A) : Export S A :=
  fun s =>
    match r with
    | Ok a => Ok (a, s)
    | Raise e => Raise e
    end.

(** [o.attribute] on an [o] that may be [None]. *)
Definition attr {S A : Type} (o : option A) : Export S A :=
  lift (match o with Some a => Ok a | None => Raise AttributeError end).

Declare Scope export_scope.
Delimit Scope export_scope with export.
Notation "x <- c ;; k" := (bind c (fun x => k))
  (at level 100, c at next level, right associativity) : export_scope.
Notation "c ;; k" := (bind c (fun _ => k))
  (at level 100, right associativity) : export_scope.

(** [enumerate(l)], counting from [start]. *)
Fixpoint enumerate_from {A : Type} (start : Z) (l : list A) : list (Z * A) :=
  match l with
  | [] => []
  | a :: rest => (start, a) :: enumerate_from (start + 1) rest
  end.

Definition enumerate {A : Type} (l : list A) : list (Z * A) := enumerate_from 0 l.

(** Two binary64 numbers that [==] holds equal: the same number, the two
    zeros included, and never a NaN. *)
Definition SFsame (x y : spec_float) : Prop :=
  match x, y with
  | S754_zero _, S754_zero _ => True
  | S754_infinity s1, S754_infinity s2 => s1 = s2
  | S754_finite s1 m1 e1, S754_finite s2 m2 e2 => s1 = s2 /\ m1 = m2 /\ e1 = e2
  | _, _ => False
  end.

(** ** mathutils

    [mathutils] is Blender's own library.  A vector is its three components,
    read and written as Python floats.  The library keeps them in single
    precision, so its arithmetic on whole vectors is not that of Python
    floats: it stays an interface, as do the matrices. *)

Module Vector.
Record t : Type := mk { x : float; y : float; z : float }.
(** [list(v)] *)
Definition to_list (v : t) : list float := [x v; y v; z v].
End Vector.

Class Mathutils : Type := {
  Matrix : Type;
  (* mathutils.Matrix.Identity(n) *)
  Matrix_Identity : nat -> Matrix;
  (* a @ b *)
  matmul : Matrix -> Matrix -> Matrix;
  (* m.inverted_safe() *)
  inverted_safe : Matrix -> Matrix;
  (* a - b on vectors *)
  Vector_sub : Vector.t -> Vector.t -> Vector.t;
  (* v / s *)
  Vector_div : Vector.t -> float -> Vector.t
}.

(** ** Blender objects *)

(** [bpy.types.RigidBodyObject].  Blender compares and hashes such a struct
    by the address it wraps, [as_pointer]. *)
Record RigidBodyObject : Type := {
  as_pointer : N;
  collision_shape : string;
  type : string;
  kinematic : bool;
  use_margin : bool;
  collision_margin : float;
  friction : float;
  restitution : float;
  use_deactivation : bool;
  use_start_deactivated : bool;
  linear_damping : float;
  angular_damping : float;
  collision_collections : list bool
}.

(** [bpy.types.Mesh] as the converter reads it: the positions [vert.co] of
    its vertices, its polygons, and the vertex indices of the triangles that
    [calc_loop_triangles] computes. *)
Record Mesh : Type := {
  mesh_name : string;
  vertices : list Vector.t;
  polygons : list (list nat);
  loop_triangles : list (nat * nat * nat)
}.

Section Model.
Context `{MU : Mathutils}.

#[local] Unset Elimination Schemes.
(** [bpy.types.Object], with the attributes the converter reads. *)
Inductive BlObject : Type := mkBlObject {
  name : string;
  parent : option BlObject;
  rigid_body : option RigidBodyObject;
  bound_box : list Vector.t;
  matrix_world : Matrix;
  matrix_local : Matrix
}.
#[local] Set Elimination Schemes.

(** *** HierarchyResolver *)

Definition has_physics (node : BlObject) : bool :=
  match rigid_body node with Some _ => true | None => false end.

(** The loop of [get_physics_root]; it ends because the chain of parents
    is finite. *)
Fixpoint get_physics_root_loop (parent_rbd : option BlObject)
    (current_node : BlObject) : option BlObject :=
  match parent current_node with
  | None => parent_rbd
  | Some p =>
      get_physics_root_loop
        (match rigid_body p with Some _ => Some p | None => parent_rbd end) p
  end.

Definition get_physics_root (node : BlObject) : option BlObject :=
  get_physics_root_loop None node.

Definition is_physics_root (node : BlObject) : bool :=
  match get_physics_root node with None => true | Some _ => false end.

(** The ancestors of a node, from its immediate parent to the top. *)
Fixpoint ancestors (node : BlObject) : list BlObject :=
  match parent node with
  | None => []
  | Some p => p :: ancestors p
  end.

(** The nearest ancestor that carries physics, for comparison. *)
Definition nearest_physics_ancestor (node : BlObject) : option BlObject :=
  List.find has_physics (ancestors node).

(** *** Output structures

    [structures.py] and [utils.py] are not part of the sources at hand; what
    the converter needs of them is written down from the specification. *)

(** Modelled from the spec: [Array] of [structures.py], a constructor prefix
    such as ["PoolVector3Array("] with the values it wraps. *)
Record Array : Type := {
  array_prefix : string;
  array_values : list Vector.t
}.

(** What a property of a node or of a resource can hold. *)
Inductive Value : Type :=
| VMatrix (m : Matrix)
| VVector (v : Vector.t)
| VFloat (f : float)
| VInt (n : Z)
| VBool (b : bool)
| VStr (s : string)
| VArray (a : Array).

#[local] Unset Elimination Schemes.
(** Modelled from the spec: [NodeTemplate] of [structures.py], "constructible
    with (name, type-tag, parent), exposes settable named properties and a
    queryable type-tag and parent reference". *)
Inductive NodeTemplate : Type := mkNodeTemplate {
  get_name : string;
  get_type : string;
  get_parent : option NodeTemplate;
  node_properties : gmap string Value
}.
#[local] Set Elimination Schemes.

(** [NodeTemplate(name, type, parent_node)] *)
Definition NodeTemplate_init (name : string) (type : string)
    (parent_node : option NodeTemplate) : NodeTemplate :=
  mkNodeTemplate name type parent_node ∅.

(** [node[key] = value] *)
Definition node_setitem (node : NodeTemplate) (key : string) (value : Value)
    : NodeTemplate :=
  mkNodeTemplate (get_name node) (get_type node) (get_parent node)
    (<[key := value]> (node_properties node)).

(** [node[key]], [None] when the property is not set. *)
Definition node_getitem (node : NodeTemplate) (key : string) : option Value :=
  node_properties node !! key.

(** Modelled from the spec: [InternalResource] of [structures.py], a resource
    of the output document with a type, a name and named properties. *)
Record InternalResource : Type := {
  resource_type : string;
  resource_name : string;
  resource_properties : gmap string Value
}.

(** [InternalResource(type, name)] *)
Definition InternalResource_init (rtype rname : string) : InternalResource :=
  {| resource_type := rtype; resource_name := rname; resource_properties := ∅ |}.

(** [resource[key] = value] *)
Definition resource_setitem (rsc : InternalResource) (key : string)
    (value : Value) : InternalResource :=
  {| resource_type := resource_type rsc;
     resource_name := resource_name rsc;
     resource_properties := <[key := value]> (resource_properties rsc) |}.

Definition resource_getitem (rsc : InternalResource) (key : string)
    : option Value :=
  resource_properties rsc !! key.

(** *** Resource keys *)

(** Modelled from the spec: [MeshResourceKey] of [utils.py]; the key names
    the kind of resource and a geometry identity that "uniquely identifies
    the source mesh data plus relevant export options". *)
Record MeshResourceKey : Type := {
  rsc_type : string;
  geometry : positive
}.

Definition MeshResourceKey_eq (a b : MeshResourceKey) : bool :=
  String.eqb (rsc_type a) (rsc_type b) && Pos.eqb (geometry a) (geometry b).

(** [MeshCollisionShapeKey._data], the tuple [(margin, mesh_data_key)]. *)
Record MeshCollisionShapeKey : Type := {
  _data : float * MeshResourceKey
}.

(** [MeshCollisionShapeKey.__eq__] between two instances of the class: the
    tuples are compared component by component, the margins as Python
    compares floats (a NaN differs from itself, the two zeros are equal). *)
Definition MeshCollisionShapeKey_eq (self other : MeshCollisionShapeKey) : bool :=
  PrimFloat.eqb (fst (_data self)) (fst (_data other))
  && MeshResourceKey_eq (snd (_data self)) (snd (_data other)).

(** The keys the converter hands to the resource table: an instance of
    [MeshCollisionShapeKey], or a rigid body descriptor itself. *)
Inductive Hashable : Type :=
| KeyMeshCollisionShape (key : MeshCollisionShapeKey)
| KeyRigidBody (rbd : RigidBodyObject).

(** [a == b] on keys: instances of different classes differ; two rigid
    body descriptors are equal when they wrap the same address. *)
Definition Hashable_eq (a b : Hashable) : bool :=
  match a, b with
  | KeyMeshCollisionShape ka, KeyMeshCollisionShape kb =>
      MeshCollisionShapeKey_eq ka kb
  | KeyRigidBody ra, KeyRigidBody rb => N.eqb (as_pointer ra) (as_pointer rb)
  | _, _ => false
  end.

(** *** The output document *)

(** Modelled from the spec: [ESCNFile] of [structures.py], the resource table
    and node registration of section 6.  The spec leaves the ids open; here
    a resource gets the number of resources registered so far, itself
    included. *)
Record ESCNFile : Type := {
  nodes : list NodeTemplate;
  internal_resources : list InternalResource;
  _internal_hashes : list (Hashable * nat)
}.

Definition ESCNFile_init : ESCNFile :=
  {| nodes := []; internal_resources := []; _internal_hashes := [] |}.

(** Modelled from the spec: [get_internal_resource(key) -> Option<id>],
    "lookup without creating". *)
Definition get_internal_resource (escn_file : ESCNFile) (hashable : Hashable)
    : option nat :=
  match List.find (fun entry => Hashable_eq (fst entry) hashable)
          (_internal_hashes escn_file) with
  | Some entry => Some (snd entry)
  | None => None
  end.

(** Modelled from the spec: [force_add_internal_resource(resource) -> id],
    "always creates a new entry, no dedup". *)
Definition force_add_internal_resource (escn_file : ESCNFile)
    (item : InternalResource) : nat * ESCNFile :=
  let resources := internal_resources escn_file ++ [item] in
  (length resources,
   {| nodes := nodes escn_file;
      internal_resources := resources;
      _internal_hashes := _internal_hashes escn_file |}).

(** Modelled from the spec: [add_internal_resource(resource, key) -> id],
    "register under a cache key, idempotent on repeated equal keys". *)
Definition add_internal_resource (escn_file : ESCNFile)
    (item : InternalResource) (hashable : Hashable) : nat * ESCNFile :=
  match get_internal_resource escn_file hashable with
  | Some index => (index, escn_file)
  | None =>
      let resources := internal_resources escn_file ++ [item] in
      (length resources,
       {| nodes := nodes escn_file;
          internal_resources := resources;
          _internal_hashes :=
            _internal_hashes escn_file ++ [(hashable, length resources)] |})
  end.

(** Modelled from the spec: [add_node(node)], "registers a node into the
    output graph". *)
Definition add_node (escn_file : ESCNFile) (item : NodeTemplate) : ESCNFile :=
  {| nodes := nodes escn_file ++ [item];
     internal_resources := internal_resources escn_file;
     _internal_hashes := _internal_hashes escn_file |}.

(** The resource with a given id. *)
Definition resource_at (escn_file : ESCNFile) (rid : nat)
    : option InternalResource :=
  match rid with
  | O => None
  | S i => internal_resources escn_file !! i
  end.

(** [resource[key] = value] on the resource registered under [rid].  The
    table holds the object itself, so an assignment made after the
    registration shows in the table. *)
Definition registered_setitem (escn_file : ESCNFile) (rid : nat)
    (key : string) (value : Value) : ESCNFile :=
  {| nodes := nodes escn_file;
     internal_resources :=
       match rid with
       | O => internal_resources escn_file
       | S i =>
           alter (fun rsc => resource_setitem rsc key value) i
             (internal_resources escn_file)
       end;
     _internal_hashes := _internal_hashes escn_file |}.

(** The session: the output document and the warnings logged so far. *)
Record Session : Type := {
  escn_file : ESCNFile;
  warnings : list string
}.

Definition Session_init : Session :=
  {| escn_file := ESCNFile_init; warnings := [] |}.

(** A method of the document that returns a value. *)
Definition call {A : Type} (method : ESCNFile -> A * ESCNFile)
    : Export Session A :=
  fun s =>
    let (a, escn') := method (escn_file s) in
    Ok (a, {| escn_file := escn'; warnings := warnings s |}).

(** A method of the document that returns nothing. *)
Definition call_ (method : ESCNFile -> ESCNFile) : Export Session unit :=
  call (fun escn => (tt, method escn)).

(** [logging.warning(msg)] *)
Definition logging_warning (msg : string) : Export Session unit :=
  fun s => Ok (tt, {| escn_file := escn_file s; warnings := warnings s ++ [msg] |}).

(** *** Collaborators

    [_AXIS_CORRECT] of [structures.py], the export settings, and the mesh
    converter of [utils.py], whose [to_mesh] answers with triangulated
    geometry or with [None]. *)
Class Collaborators : Type := {
  ExportSettings : Type;
  _AXIS_CORRECT : Matrix;
  (* MeshConverter(bl_object, export_settings)
       .to_mesh(preserve_vertex_groups, calculate_tangents) *)
  to_mesh : BlObject -> ExportSettings -> bool -> bool -> option Mesh;
  (* what MeshResourceKey reads of the object and the settings *)
  geometry_identity : BlObject -> ExportSettings -> positive
}.

Context {CO : Collaborators}.

(** Modelled from the spec: the constructor of [MeshResourceKey] in
    [utils.py]; the key holds the resource type and the geometry identity of
    the object under the export settings. *)
Definition MeshResourceKey_init (rsc_type : string) (obj : BlObject)
    (export_settings : ExportSettings) : MeshResourceKey :=
  {| rsc_type := rsc_type; geometry := geometry_identity obj export_settings |}.

Local Open Scope export_scope.

(** *** physics.py *)

Definition PHYSICS_TYPES : list string :=
  ["KinematicBody"; "RigidBody"; "StaticBody"].

(** [s in strings] *)
Definition str_in (s : string) (strings : list string) : bool :=
  existsb (String.eqb s) strings.

(** [get_extents]: the total size of the bounding box along X, Y and Z. *)
Definition get_extents (node : BlObject) : Result Vector.t :=
  let raw := bound_box node in
  let vecs := raw in
  match vecs with
  | [] => Raise IndexError
  | v0 :: _ =>
      let step (acc : Vector.t * Vector.t) (vec : Vector.t) :=
        let (mins, maxs) := acc in
        (Vector.mk (py_min (Vector.x vec) (Vector.x mins))
                   (py_min (Vector.y vec) (Vector.y mins))
                   (py_min (Vector.z vec) (Vector.z mins)),
         Vector.mk (py_max (Vector.x vec) (Vector.x maxs))
                   (py_max (Vector.y vec) (Vector.y maxs))
                   (py_max (Vector.z vec) (Vector.z maxs))) in
      let (mins, maxs) := fold_left step vecs (v0, v0) in
      Ok (Vector_sub maxs mins)
  end.

(** ["SubResource({})".format(shape_id)], also of a [shape_id] that is
    [None]. *)
Definition format_SubResource (shape_id : option nat) : string :=
  "SubResource("
  +:+ match shape_id with Some index => str_of_nat index | None => "None" end
  +:+ ")".

(** The margin of a key: [0] unless the descriptor uses its margin. *)
Definition key_margin (rbd : RigidBodyObject) : float :=
  if use_margin rbd then collision_margin rbd else 0%float.

(** [MeshCollisionShapeKey(shape_type, bl_object, export_settings)] *)
Definition MeshCollisionShapeKey_init (shape_type : string)
    (bl_object : BlObject) (export_settings : ExportSettings)
    : Result MeshCollisionShapeKey :=
  if negb (str_in shape_type ["ConvexPolygonShape"; "ConcavePolygonShape"])
  then Raise AssertionError
  else
    let mesh_data_key := MeshResourceKey_init shape_type bl_object export_settings in
    match rigid_body bl_object with
    | None => Raise AttributeError
    | Some rbd =>
        let margin := key_margin rbd in
        Ok {| _data := (margin, mesh_data_key) |}
    end.

(** [generate_convex_shape] *)
Definition generate_convex_shape (export_settings : ExportSettings)
    (bl_object : BlObject) : Export Session (option nat) :=
  shape_rsc_key <-
    lift (MeshCollisionShapeKey_init "ConvexPolygonShape" bl_object export_settings) ;;
  shape_id <-
    call (fun escn =>
            (get_internal_resource escn (KeyMeshCollisionShape shape_rsc_key), escn)) ;;
  match shape_id with
  | Some _ => ret shape_id
  | None =>
      let mesh := to_mesh bl_object export_settings false false in
      match mesh with
      | Some mesh =>
          let vert_array := vertices mesh in
          let col_shape := InternalResource_init "ConvexPolygonShape" (mesh_name mesh) in
          let col_shape :=
            resource_setitem col_shape "points"
              (VArray {| array_prefix := "PoolVector3Array(";
                         array_values := vert_array |}) in
          rbd <- attr (rigid_body bl_object) ;;
          let col_shape :=
            if use_margin rbd
            then resource_setitem col_shape "margin" (VFloat (collision_margin rbd))
            else col_shape in
          shape_id <-
            call (fun escn =>
                    add_internal_resource escn col_shape
                      (KeyMeshCollisionShape shape_rsc_key)) ;;
          ret (Some shape_id)
      | None => ret None
      end
  end.

(** The vertex positions of the triangles, each triangle in reversed
    order; an index outside [mesh.vertices] raises. *)
Fixpoint concave_vert_array (mesh : Mesh) (triangles : list (nat * nat * nat))
    : Result (list Vector.t) :=
  match triangles with
  | [] => Ok []
  | (a, b, c) :: rest =>
      match vertices mesh !! c, vertices mesh !! b, vertices mesh !! a with
      | Some vc, Some vb, Some va =>
          match concave_vert_array mesh rest with
          | Ok vert_array => Ok (vc :: vb :: va :: vert_array)
          | Raise e => Raise e
          end
      | _, _, _ => Raise IndexError
      end
  end.

(** [generate_concave_shape] *)
Definition generate_concave_shape (export_settings : ExportSettings)
    (bl_object : BlObject) : Export Session (option nat) :=
  shape_rsc_key <-
    lift (MeshCollisionShapeKey_init "ConcavePolygonShape" bl_object export_settings) ;;
  shape_id <-
    call (fun escn =>
            (get_internal_resource escn (KeyMeshCollisionShape shape_rsc_key), escn)) ;;
  match shape_id with
  | Some _ => ret shape_id
  | None =>
      let mesh := to_mesh bl_object export_settings false false in
      match mesh with
      | Some mesh =>
          match polygons mesh with
          | [] => ret None
          | _ :: _ =>
              vert_array <- lift (concave_vert_array mesh (loop_triangles mesh)) ;;
              let col_shape :=
                InternalResource_init "ConcavePolygonShape" (mesh_name mesh) in
              let col_shape :=
                resource_setitem col_shape "data"
                  (VArray {| array_prefix := "PoolVector3Array(";
                             array_values := vert_array |}) in
              rbd <- attr (rigid_body bl_object) ;;
              let col_shape :=
                if use_margin rbd
                then resource_setitem col_shape "margin"
                       (VFloat (collision_margin rbd))
                else col_shape in
              shape_id <-
                call (fun escn =>
                        add_internal_resource escn col_shape
                          (KeyMeshCollisionShape shape_rsc_key)) ;;
              ret (Some shape_id)
          end
      | None => ret None
      end
  end.

(** The primitive shapes of [export_collision_shape]: the resource built
    from the bounding box and the id it was registered under, or nothing
    and a warning for any other kind of shape. *)
Definition primitive_shape (node : BlObject) (rbd : RigidBodyObject)
    (col_name : string) (bounds : Vector.t)
    : Export Session (option InternalResource * option nat) :=
  if String.eqb (collision_shape rbd) "BOX" then
    let col_shape := InternalResource_init "BoxShape" col_name in
    let col_shape :=
      resource_setitem col_shape "extents" (VVector (Vector_div bounds 2%float)) in
    shape_id <- call (fun escn => add_internal_resource escn col_shape (KeyRigidBody rbd)) ;;
    ret (Some col_shape, Some shape_id)
  else if String.eqb (collision_shape rbd) "SPHERE" then
    let col_shape := InternalResource_init "SphereShape" col_name in
    largest <-
      lift (match py_max_list (Vector.to_list bounds) with
            | Some m => Ok m
            | None => Raise ValueError
            end) ;;
    let col_shape :=
      resource_setitem col_shape "radius" (VFloat (largest / 2)%float) in
    shape_id <- call (fun escn => add_internal_resource escn col_shape (KeyRigidBody rbd)) ;;
    ret (Some col_shape, Some shape_id)
  else if String.eqb (collision_shape rbd) "CAPSULE" then
    let col_shape := InternalResource_init "CapsuleShape" col_name in
    let radius := (py_max (Vector.x bounds) (Vector.y bounds) / 2)%float in
    let col_shape := resource_setitem col_shape "radius" (VFloat radius) in
    let col_shape :=
      resource_setitem col_shape "height"
        (VFloat (Vector.z bounds - radius * 2)%float) in
    shape_id <- call (fun escn => add_internal_resource escn col_shape (KeyRigidBody rbd)) ;;
    ret (Some col_shape, Some shape_id)
  else
    logging_warning ("Unable to export physics shape for " +:+ name node) ;;
    ret (None, None).

(** [export_collision_shape] *)
Definition export_collision_shape (export_settings : ExportSettings)
    (node : BlObject) (parent_gd_node : NodeTemplate)
    (parent_override : option BlObject) : Export Session NodeTemplate :=
  let col_name := name node +:+ "Collision" in
  let col_node := NodeTemplate_init col_name "CollisionShape" (Some parent_gd_node) in
  let transform :=
    match parent_override with
    | None => Matrix_Identity 4
    | Some parent_override =>
        let parent_to_world := inverted_safe (matrix_world parent_override) in
        matmul parent_to_world (matrix_world node)
    end in
  let col_node := node_setitem col_node "transform" (VMatrix transform) in
  let col_node :=
    node_setitem col_node "transform" (VMatrix (matmul transform _AXIS_CORRECT)) in
  rbd <- attr (rigid_body node) ;;
  col_node <-
    (if str_in (collision_shape rbd) ["CONVEX_HULL"; "MESH"] then
       shape_id <-
         (if String.eqb (collision_shape rbd) "CONVEX_HULL"
          then generate_convex_shape export_settings node
          else generate_concave_shape export_settings node) ;;
       match shape_id with
       | Some _ =>
           ret (node_setitem col_node "shape" (VStr (format_SubResource shape_id)))
       | None => ret col_node
       end
     else
       bounds <- lift (get_extents node) ;;
       shape <- primitive_shape node rbd col_name bounds ;;
       let (col_shape, shape_id) := shape in
       let col_node :=
         node_setitem col_node "shape" (VStr (format_SubResource shape_id)) in
       match col_shape, shape_id with
       | Some _, Some rid =>
           (if use_margin rbd
            then call_ (fun escn =>
                          registered_setitem escn rid "margin"
                            (VFloat (collision_margin rbd)))
            else ret tt) ;;
           ret col_node
       | _, _ => ret col_node
       end) ;;
  call_ (fun escn => add_node escn col_node) ;;
  ret col_node.

(** The loop of [export_physics_controller] over the collision
    collections. *)
Definition collision_groups (flags : list bool) : Z :=
  fold_left
    (fun col_groups entry =>
       let '(offset, flag) := entry in
       col_groups + Z.shiftl (if flag : bool then 1 else 0) offset)%Z
    (enumerate flags) 0%Z.

(** [export_physics_controller] *)
Definition export_physics_controller (export_settings : ExportSettings)
    (node : BlObject) (parent_gd_node : NodeTemplate)
    : Export Session NodeTemplate :=
  let phys_name := name node +:+ "Physics" in
  rbd <- attr (rigid_body node) ;;
  let phys_controller :=
    if String.eqb (type rbd) "ACTIVE"
    then (if kinematic rbd then "KinematicBody" else "RigidBody")
    else "StaticBody" in
  let phys_obj := NodeTemplate_init phys_name phys_controller (Some parent_gd_node) in
  phys_obj <-
    (if negb (String.eqb phys_controller "KinematicBody") then
       let physics_mat :=
         InternalResource_init "PhysicsMaterial" (name node +:+ "PhysicsMaterial") in
       let physics_mat := resource_setitem physics_mat "friction" (VFloat (friction rbd)) in
       let physics_mat := resource_setitem physics_mat "bounce" (VFloat (restitution rbd)) in
       rid <- call (fun escn => force_add_internal_resource escn physics_mat) ;;
       ret (node_setitem phys_obj "physics_material_override"
              (VStr (format_SubResource (Some rid))))
     else ret phys_obj) ;;
  let col_groups := collision_groups (collision_collections rbd) in
  let phys_obj := node_setitem phys_obj "transform" (VMatrix (matrix_local node)) in
  let phys_obj := node_setitem phys_obj "collision_layer" (VInt col_groups) in
  let phys_obj := node_setitem phys_obj "collision_mask" (VInt col_groups) in
  let phys_obj :=
    if String.eqb phys_controller "RigidBody" then
      let phys_obj := node_setitem phys_obj "can_sleep" (VBool (use_deactivation rbd)) in
      let phys_obj := node_setitem phys_obj "linear_damp" (VFloat (linear_damping rbd)) in
      let phys_obj := node_setitem phys_obj "angular_damp" (VFloat (angular_damping rbd)) in
      node_setitem phys_obj "sleeping" (VBool (use_start_deactivated rbd))
    else phys_obj in
  call_ (fun escn => add_node escn phys_obj) ;;
  ret phys_obj.

(** The second loop of [export_physics_properties]: up the output nodes to
    the closest physics node.  Reading [get_type] of a parent that is
    [None] raises. *)
Fixpoint closest_physics_node (gd_node_ptr : NodeTemplate) : Result NodeTemplate :=
  if str_in (get_type gd_node_ptr) PHYSICS_TYPES then Ok gd_node_ptr
  else
    match get_parent gd_node_ptr with
    | Some up => closest_physics_node up
    | None => Raise AttributeError
    end.

(** [export_physics_properties] *)
Definition export_physics_properties (export_settings : ExportSettings)
    (node : BlObject) (parent_gd_node : NodeTemplate)
    : Export Session NodeTemplate :=
  let parent_rbd := get_physics_root node in
  parent_gd_node <-
    match parent_rbd with
    | None => export_physics_controller export_settings node parent_gd_node
    | Some _ => ret parent_gd_node
    end ;;
  physics_gd_node <- lift (closest_physics_node parent_gd_node) ;;
  export_collision_shape export_settings node physics_gd_node parent_rbd.

(** *** Auxiliary definitions for the properties *)

(** One turn of the loop: the candidate is overwritten when the ancestor
    carries physics. *)
Definition overwrite (candidate : option BlObject) (ancestor : BlObject)
    : option BlObject :=
  if has_physics ancestor then Some ancestor else candidate.

(** The value of the loop over the collision collections. *)
Fixpoint bits_value (flags : list bool) : Z :=
  match flags with
  | [] => 0
  | flag :: rest => 2 * bits_value rest + Z.b2z flag
  end.

(** No two entries of a table have equal keys, as in a dictionary. *)
Fixpoint distinct_keys (entries : list (Hashable * nat)) : Prop :=
  match entries with
  | [] => True
  | entry :: rest =>
      Forall (fun later => Hashable_eq (fst entry) (fst later) = false) rest
      /\ distinct_keys rest
  end.

(** The table of a document is well formed: its keys are distinct, its ids
    are those of registered resources, and no id is registered twice. *)
Definition ESCNFile_wf (escn : ESCNFile) : Prop :=
  distinct_keys (_internal_hashes escn) /\
  NoDup (map snd (_internal_hashes escn)) /\
  Forall (fun entry => 1 <= snd entry <= length (internal_resources escn))
         (_internal_hashes escn).

(** A rigid body descriptor with Blender's default settings. *)
Definition default_rigid_body (address : N) (shape : string) : RigidBodyObject :=
  {| as_pointer := address;
     collision_shape := shape;
     type := "ACTIVE";
     kinematic := false;
     use_margin := false;
     collision_margin := 0.0625%float;
     friction := 0.5%float;
     restitution := 0%float;
     use_deactivation := true;
     use_start_deactivated := false;
     linear_damping := 0.0625%float;
     angular_damping := 0.125%float;
     collision_collections := [true] |}.

(** An object at the origin. *)
Definition object_at_origin (name : string) (parent : option BlObject)
    (rigid_body : option RigidBodyObject) : BlObject :=
  mkBlObject name parent rigid_body [] (Matrix_Identity 4) (Matrix_Identity 4).

(** An output node followed by its ancestors, up to the top. *)
Fixpoint gd_chain (gd_node : NodeTemplate) : list NodeTemplate :=
  gd_node ::
  match get_parent gd_node with
  | Some up => gd_chain up
  | None => []
  end.

(** [gd_node.get_type() in PHYSICS_TYPES] *)
Definition is_physics_node (gd_node : NodeTemplate) : bool :=
  str_in (get_type gd_node) PHYSICS_TYPES.

(** [preserves R c]: whenever [c] returns, the session it leaves is
    related by [R] to the one it started in. *)
Definition preserves {A : Type} (R : Session -> Session -> Prop)
    (c : Export Session A) : Prop :=
  forall s a s', c s = Ok (a, s') -> R s s'.

Class Frame (R : Session -> Session -> Prop) : Prop := {
  frame_refl : forall s, R s s;
  frame_trans : forall s1 s2 s3, R s1 s2 -> R s2 s3 -> R s1 s3
}.

Definition same_nodes (s s' : Session) : Prop :=
  nodes (escn_file s') = nodes (escn_file s).

Definition keeps_wf (s s' : Session) : Prop :=
  ESCNFile_wf (escn_file s) -> ESCNFile_wf (escn_file s').

(** The table only grows: entries and resources are added, none is removed
    or renumbered. *)
Definition table_grows (s s' : Session) : Prop :=
  (exists more,
      _internal_hashes (escn_file s') = _internal_hashes (escn_file s) ++ more)
  /\ length (internal_resources (escn_file s))
     <= length (internal_resources (escn_file s')).

(** A step from [s] to [s'] served the id [index] for [key]: it found the
    key in the table, or it registered a new resource under it. *)
Definition served (key : Hashable) (index : nat) (s s' : Session) : Prop :=
  (get_internal_resource (escn_file s) key = Some index /\
   _internal_hashes (escn_file s') = _internal_hashes (escn_file s) /\
   length (internal_resources (escn_file s'))
   = length (internal_resources (escn_file s)))
  \/
  (get_internal_resource (escn_file s) key = None /\
   index = S (length (internal_resources (escn_file s))) /\
   _internal_hashes (escn_file s')
   = _internal_hashes (escn_file s) ++ [(key, index)] /\
   length (internal_resources (escn_file s')) = index).

(** The key of a mesh-derived shape of an object with descriptor [rbd]. *)
Definition shape_key (shape_type : string) (bl_object : BlObject)
    (export_settings : ExportSettings) (rbd : RigidBodyObject) : Hashable :=
  KeyMeshCollisionShape
    {| _data := (key_margin rbd,
                 MeshResourceKey_init shape_type bl_object export_settings) |}.

End Model.

(** ** A sample scene

    An instance of the interfaces on which the definitions above run: the
    matrices are kept as the expressions that build them, the vector
    arithmetic is done component by component, and the mesh converter knows
    three objects by name. *)

Module Sample.

Inductive matrix : Type :=
| Identity (n : nat)
| AxisCorrect
| World (object_name : string)
| Local (object_name : string)
| Matmul (a b : matrix)
| InvertedSafe (a : matrix).

#[export] Instance mathutils : Mathutils := {|
  Matrix := matrix;
  Matrix_Identity := Identity;
  matmul := Matmul;
  inverted_safe := InvertedSafe;
  Vector_sub := fun a b =>
    Vector.mk (Vector.x a - Vector.x b) (Vector.y a - Vector.y b)
              (Vector.z a - Vector.z b);
  Vector_div := fun v s =>
    Vector.mk (Vector.x v / s) (Vector.y v / s) (Vector.z v / s)
|}.

(** The eight corners of the box from [lo] to [hi]. *)
Definition corners (lo hi : Vector.t) : list Vector.t :=
  [Vector.mk (Vector.x lo) (Vector.y lo) (Vector.z lo);
   Vector.mk (Vector.x lo) (Vector.y lo) (Vector.z hi);
   Vector.mk (Vector.x lo) (Vector.y hi) (Vector.z hi);
   Vector.mk (Vector.x lo) (Vector.y hi) (Vector.z lo);
   Vector.mk (Vector.x hi) (Vector.y lo) (Vector.z lo);
   Vector.mk (Vector.x hi) (Vector.y lo) (Vector.z hi);
   Vector.mk (Vector.x hi) (Vector.y hi) (Vector.z hi);
   Vector.mk (Vector.x hi) (Vector.y hi) (Vector.z lo)].

(** An object of the scene: its bounding box spans 2 x 2 x 4. *)
Definition object (name : string) (parent : option BlObject)
    (rigid_body : option RigidBodyObject) : BlObject :=
  mkBlObject name parent rigid_body
    (corners (Vector.mk (-1) (-1) (-2)) (Vector.mk 1 1 2))
    (World name) (Local name).

(** A single triangle. *)
Definition triangle : Mesh :=
  {| mesh_name := "Triangle";
     vertices := [Vector.mk 0 0 0; Vector.mk 1 0 0; Vector.mk 0 1 0];
     polygons := [[0; 1; 2]];
     loop_triangles := [(0, 1, 2)] |}.

(** A mesh without any geometry. *)
Definition no_geometry : Mesh :=
  {| mesh_name := "Nothing";
     vertices := [];
     polygons := [];
     loop_triangles := [] |}.

(** The converter has no mesh for an object called ["Lamp"], a mesh without
    geometry for one called ["Empty"], and the triangle for any other; the
    objects that share the triangle share their mesh data. *)
#[export] Instance collaborators : Collaborators := {|
  ExportSettings := unit;
  _AXIS_CORRECT := AxisCorrect;
  to_mesh := fun bl_object _ _ _ =>
    if String.eqb (name bl_object) "Lamp" then None
    else if String.eqb (name bl_object) "Empty" then Some no_geometry
    else Some triangle;
  geometry_identity := fun bl_object _ =>
    if String.eqb (name bl_object) "Lamp" then 1%positive
    else if String.eqb (name bl_object) "Empty" then 2%positive
    else 3%positive
|}.

Definition settings : @ExportSettings mathutils collaborators := tt.

(** The root node of the output scene. *)
Definition scene_root : NodeTemplate := NodeTemplate_init "Scene" "Spatial" None.

(** The objects of the scene. *)
Definition cube : BlObject := object "Cube" None (Some (default_rigid_body 1 "BOX")).
Definition pill : BlObject := object "Pill" None (Some (default_rigid_body 2 "CAPSULE")).
Definition cone : BlObject := object "Cone" None (Some (default_rigid_body 3 "CONE")).
Definition rock : BlObject := object "Rock" None (Some (default_rigid_body 4 "CONVEX_HULL")).
Definition pebble : BlObject :=
  object "Pebble" None (Some (default_rigid_body 5 "CONVEX_HULL")).
Definition lamp : BlObject := object "Lamp" None (Some (default_rigid_body 6 "MESH")).
Definition empty_hull : BlObject :=
  object "Empty" None (Some (default_rigid_body 7 "CONVEX_HULL")).

(** A child of the cube, with a rigid body of its own, and a grandchild. *)
Definition child : BlObject :=
  object "Child" (Some cube) (Some (default_rigid_body 8 "BOX")).
Definition grandchild : BlObject :=
  object "Grandchild" (Some child) (Some (default_rigid_body 9 "SPHERE")).

(** The same child below a parent without physics. *)
Definition orphan : BlObject :=
  object "Orphan" (Some (object "Group" None None))
    (Some (default_rigid_body 10 "BOX")).

Definition orphan_child : BlObject :=
  object "OrphanChild" (Some orphan) (Some (default_rigid_body 11 "BOX")).

(** A body node of the output scene and a plain node below it. *)
Definition body : NodeTemplate :=
  NodeTemplate_init "CubePhysics" "RigidBody" (Some scene_root).
Definition holder : NodeTemplate :=
  NodeTemplate_init "Holder" "Spatial" (Some body).

(** What an export returned and the session it left. *)
Definition returned {A : Type} (default : A) (r : Result (A * Session)) : A :=
  match r with Ok (a, _) => a | Raise _ => default end.

Definition session_after {A : Type} (r : Result (A * Session)) : Session :=
  match r with Ok (_, s) => s | Raise _ => Session_init end.

(** The cube exported as a physics root into the empty document, and its
    collision shape alone, followed by that of the pill. *)
Definition cube_properties : Result (NodeTemplate * Session) :=
  export_physics_properties settings cube scene_root Session_init.

Definition cube_shape : Result (NodeTemplate * Session) :=
  export_collision_shape settings cube body None Session_init.

Definition pill_shape : Result (NodeTemplate * Session) :=
  export_collision_shape settings pill body None (session_after cube_shape).

(** The collision shape of the object whose mesh has no geometry. *)
Definition empty_hull_shape : Result (NodeTemplate * Session) :=
  export_collision_shape settings empty_hull body None Session_init.

(** The convex hull of the rock, generated in the empty document. *)
Definition rock_hull : Result (option nat * Session) :=
  generate_convex_shape settings rock Session_init.

End Sample.

(** ** Auxiliary definitions for the further properties *)

(** The place of a binary64 number on the line: its class (the infinities,
    the negative numbers, zero, the positive numbers), then its exponent
    and its mantissa. *)
Definition SFplace (x : spec_float) : Z * Z * Z :=
  match x with
  | S754_zero _ => (0, 0, 0)
  | S754_infinity true => (-2, 0, 0)
  | S754_infinity false => (2, 0, 0)
  | S754_nan => (0, 0, 0)
  | S754_finite true m e => (-1, - e, - Zpos m)
  | S754_finite false m e => (1, e, Zpos m)
  end%Z.

Definition SFnumber (x : spec_float) : bool :=
  match x with S754_nan => false | _ => true end.

(** The lexicographic order of the places. *)
Definition before (p q : Z * Z * Z) : Prop :=
  let '(c1, a1, b1) := p in
  let '(c2, a2, b2) := q in
  (c1 < c2 \/ (c1 = c2 /\ (a1 < a2 \/ (a1 = a2 /\ b1 < b2))))%Z.

(** [x == x]: a float that is not a NaN. *)
Definition is_number (x : float) : bool := PrimFloat.eqb x x.

(** A vector without a NaN among its components. *)
Definition no_nan (v : Vector.t) : bool :=
  is_number (Vector.x v) && is_number (Vector.y v) && is_number (Vector.z v).

(** [v] lies in the box from [mins] to [maxs]: on no axis is it below [mins]
    or above [maxs]. *)
Definition within (mins maxs v : Vector.t) : Prop :=
  PrimFloat.ltb (Vector.x v) (Vector.x mins) = false /\
  PrimFloat.ltb (Vector.x maxs) (Vector.x v) = false /\
  PrimFloat.ltb (Vector.y v) (Vector.y mins) = false /\
  PrimFloat.ltb (Vector.y maxs) (Vector.y v) = false /\
  PrimFloat.ltb (Vector.z v) (Vector.z mins) = false /\
  PrimFloat.ltb (Vector.z maxs) (Vector.z v) = false.

(** A triangle whose three vertex indices are all within [count]. *)
Definition triangle_in_range (count : nat) (tri : nat * nat * nat) : Prop :=
  let '(a, b, c) := tri in a < count /\ b < count /\ c < count.

(** The corners of a triangle in reversed order, as positions of the mesh
    when the indices are in range. *)
Definition reversed_corners (mesh : Mesh) (tri : nat * nat * nat)
    : list (option Vector.t) :=
  let '(a, b, c) := tri in
  [vertices mesh !! c; vertices mesh !! b; vertices mesh !! a].

Section ExtraModel.
Context {MU : Mathutils}.

(** The log stays as it is. *)
Definition same_log (s s' : Session) : Prop := warnings s' = warnings s.

(** Nodes and warnings are only added, after those already there. *)
Definition output_grows (s s' : Session) : Prop :=
  (exists added, nodes (escn_file s') = nodes (escn_file s) ++ added) /\
  (exists logged, warnings s' = warnings s ++ logged).

(** The kinds of shape that the converter exports. *)
Definition SUPPORTED_SHAPES : list string :=
  ["BOX"; "SPHERE"; "CAPSULE"; "CONVEX_HULL"; "MESH"].

End ExtraModel.


(** ** More of the sample scene *)

Module Scene.
Import Sample.

(** A group without physics. *)
Definition group : BlObject := object "Group" None None.

(** A sphere at the top of the scene. *)
Definition ball : BlObject :=
  object "Ball" None (Some (default_rigid_body 12 "SPHERE")).

(** A descriptor that uses its collision margin. *)
Definition padded_body (address : N) (shape : string) : RigidBodyObject :=
  {| as_pointer := address;
     collision_shape := shape;
     type := "ACTIVE";
     kinematic := false;
     use_margin := true;
     collision_margin := 0.25%float;
     friction := 0.5%float;
     restitution := 0%float;
     use_deactivation := true;
     use_start_deactivated := false;
     linear_damping := 0.0625%float;
     angular_damping := 0.125%float;
     collision_collections := [true] |}.

Definition crate : BlObject := object "Crate" None (Some (padded_body 13 "BOX")).

(** A kinematic body. *)
Definition moving_body (address : N) (shape : string) : RigidBodyObject :=
  {| as_pointer := address;
     collision_shape := shape;
     type := "ACTIVE";
     kinematic := true;
     use_margin := false;
     collision_margin := 0.0625%float;
     friction := 0.5%float;
     restitution := 0%float;
     use_deactivation := true;
     use_start_deactivated := false;
     linear_damping := 0.0625%float;
     angular_damping := 0.125%float;
     collision_collections := [true; true] |}.

Definition platform : BlObject :=
  object "Platform" None (Some (moving_body 14 "BOX")).

(** An object with a concave shape; its mesh is the triangle. *)
Definition terrain : BlObject :=
  object "Terrain" None (Some (default_rigid_body 15 "MESH")).

(** A triangle whose last corner names a vertex that the mesh does not
    have, and a converter that answers with it. *)
Definition torn_triangle : Mesh :=
  {| mesh_name := "Torn";
     vertices := [Vector.mk 0 0 0; Vector.mk 1 0 0; Vector.mk 0 1 0];
     polygons := [[0; 1; 2]];
     loop_triangles := [(0, 1, 3)] |}.

Definition torn_converter : @Collaborators mathutils := {|
  ExportSettings := unit;
  _AXIS_CORRECT := AxisCorrect;
  to_mesh := fun _ _ _ _ => Some torn_triangle;
  geometry_identity := fun _ _ => 1%positive
|}.

(** The child of the cube exported below a plain node of the cube's body,
    and the cone exported as a physics root. *)
Definition child_properties : Result (NodeTemplate * Session) :=
  export_physics_properties settings child holder Session_init.

Definition cone_properties : Result (NodeTemplate * Session) :=
  export_physics_properties settings cone scene_root Session_init.

End Scene.
(** * Properties *)

Section HierarchyResolver.
Context `{MU : Mathutils}.

Lemma ancestors_parent (node : BlObject) :
  ancestors node =
  match parent node with None => [] | Some p => p :: ancestors p end.
Proof. destruct node as [nm [p|] rb bb mw ml]; reflexivity. Qed.

Lemma get_physics_root_loop_parent (acc : option BlObject) (node : BlObject) :
  get_physics_root_loop acc node =
  match parent node with
  | None => acc
  | Some p => get_physics_root_loop (if has_physics p then Some p else acc) p
  end.
Proof.
  destruct node as [nm [p|] rb bb mw ml]; simpl; [|reflexivity].
  unfold has_physics. destruct (rigid_body p); reflexivity.
Qed.


(** The loop folds [overwrite] over the ancestors, nearest first. *)
Lemma get_physics_root_loop_fold (node : BlObject) :
  forall acc, get_physics_root_loop acc node = fold_left overwrite (ancestors node) acc.
Proof.
  remember (ancestors node) as chain eqn:Hchain.
  revert node Hchain.
  induction chain as [|p chain IH]; intros node Hchain acc;
    rewrite get_physics_root_loop_parent; rewrite ancestors_parent in Hchain;
    destruct (parent node) as [q|]; try discriminate; [reflexivity|].
  injection Hchain as -> Hrest. simpl. apply IH. exact Hrest.
Qed.

Lemma fold_overwrite_no_physics (chain : list BlObject) (acc : option BlObject) :
  Forall (fun a => has_physics a = false) chain ->
  fold_left overwrite chain acc = acc.
Proof.
  intros Hall; revert acc.
  induction Hall as [|a chain Ha _ IH]; intros acc; simpl; [reflexivity|].
  rewrite IH. unfold overwrite. rewrite Ha. reflexivity.
Qed.

Lemma fold_overwrite_Some (chain : list BlObject) :
  forall acc r,
    fold_left overwrite chain acc = Some r <->
    (exists below above,
        chain = below ++ r :: above /\ has_physics r = true /\
        Forall (fun a => has_physics a = false) above)
    \/ (Forall (fun a => has_physics a = false) chain /\ acc = Some r).
Proof.
  induction chain as [|a chain IH]; intros acc r; simpl.
  - split.
    + intros ->. right. split; [constructor | reflexivity].
    + intros [(below & above & Habs & _) | [_ ->]]; [|reflexivity].
      destruct below; discriminate.
  - rewrite IH. unfold overwrite at 1. split.
    + intros [(below & above & -> & Hr & Habove) | [Hall Hacc]].
      * left. exists (a :: below), above. auto.
      * destruct (has_physics a) eqn:Ha.
        -- injection Hacc as ->. left. exists [], chain. auto.
        -- right. split; [constructor; assumption | assumption].
    + intros [(below & above & Heq & Hr & Habove) | [Hall ->]].
      * destruct below as [|b below]; simpl in Heq; injection Heq as -> ->.
        -- right. rewrite Hr. auto.
        -- left. exists below, above. auto.
      * inversion Hall as [|? ? Ha Hrest]; subst. right. rewrite Ha. auto.
Qed.

Lemma fold_overwrite_None (chain : list BlObject) :
  fold_left overwrite chain None = None <->
  Forall (fun a => has_physics a = false) chain.
Proof.
  split.
  - induction chain as [|a chain IH] using rev_ind; [constructor|].
    rewrite fold_left_app. simpl. unfold overwrite at 1.
    destruct (has_physics a) eqn:Ha; [discriminate|].
    intros H. apply Forall_app. split; [apply IH, H | repeat constructor; exact Ha].
  - apply fold_overwrite_no_physics.
Qed.


(** C1: for every node, [get_physics_root] walks the ancestors from the
    immediate parent to the top and overwrites its candidate at each one
    that carries physics.  It so returns the upper-most ancestor that
    carries a physics descriptor: an ancestor [r] with physics above which,
    up to the top of the hierarchy, no ancestor carries physics.  It returns
    [None] exactly when no ancestor carries physics.  The result is not the
    nearest physics ancestor: under a chain of two physics-carrying
    ancestors the two differ. *)
Theorem get_physics_root_upper_most :
  (forall node : BlObject,
      get_physics_root node = fold_left overwrite (ancestors node) None /\
      (forall r,
          get_physics_root node = Some r <->
          exists below above,
            ancestors node = below ++ r :: above /\ has_physics r = true /\
            Forall (fun a => has_physics a = false) above)
      /\ (get_physics_root node = None <->
          Forall (fun a => has_physics a = false) (ancestors node)))
  /\ (exists (node r : BlObject),
        get_physics_root node = Some r /\ nearest_physics_ancestor node <> Some r).
Proof.
  split.
  - intros node. unfold get_physics_root. rewrite get_physics_root_loop_fold.
    split; [reflexivity|]. split.
    + intros r. rewrite fold_overwrite_Some. split.
      * intros [H | [_ H]]; [exact H | discriminate].
      * intros H. left. exact H.
    + apply fold_overwrite_None.
  - set (top := object_at_origin "Top" None (Some (default_rigid_body 1 "BOX"))).
    set (a := object_at_origin "A" (Some top) (Some (default_rigid_body 2 "BOX"))).
    set (b := object_at_origin "B" (Some a) (Some (default_rigid_body 3 "BOX"))).
    exists b, top. split; [reflexivity|].
    unfold nearest_physics_ancestor. simpl. intros H. discriminate H.
Qed.

(** X1: [is_physics_root] holds exactly when no ancestor carries physics,
    as its docstring says. *)
Lemma is_physics_root_no_ancestor (node : BlObject) :
  is_physics_root node = true <->
  Forall (fun a => has_physics a = false) (ancestors node).
Proof.
  unfold is_physics_root, get_physics_root.
  rewrite get_physics_root_loop_fold, <- fold_overwrite_None.
  destruct (fold_left overwrite (ancestors node) None);
    split; intros H; (reflexivity || discriminate H).
Qed.

End HierarchyResolver.

(** ** Equality of Python floats *)

Lemma SFeqb_same (x y : spec_float) : SFeqb x y = true <-> SFsame x y.
Proof.
  unfold SFeqb, SFcompare, SFsame.
  destruct x as [sx|sx| |sx mx ex], y as [sy|sy| |sy my ey];
    try (destruct sx); try (destruct sy); simpl;
    try (split; [discriminate | (contradiction || discriminate)]);
    try (split; [intros _; (exact I || reflexivity) | reflexivity]);
    try (split; [discriminate | intros [H _]; discriminate H]).
  all: change (Pos.compare_cont Eq mx my) with (Pos.compare mx my);
    destruct (Z.compare_spec ex ey) as [He|He|He];
    destruct (Pos.compare_spec mx my) as [Hm|Hm|Hm]; simpl;
    (split; [try discriminate; intros _; subst; auto
            | intros (_ & Hm' & He'); subst; first [reflexivity | lia]]).
Qed.

Lemma SFsame_sym (x y : spec_float) : SFsame x y -> SFsame y x.
Proof. destruct x, y; simpl; intuition congruence. Qed.

Lemma SFsame_trans (x y z : spec_float) : SFsame x y -> SFsame y z -> SFsame x z.
Proof. destruct x, y, z; simpl; intuition congruence. Qed.

Lemma float_eqb_sym (x y : float) : PrimFloat.eqb x y = PrimFloat.eqb y x.
Proof.
  rewrite !FloatAxioms.eqb_spec.
  destruct (SFeqb (Prim2SF x) (Prim2SF y)) eqn:H1,
           (SFeqb (Prim2SF y) (Prim2SF x)) eqn:H2; try reflexivity.
  - apply SFeqb_same, SFsame_sym, SFeqb_same in H1. congruence.
  - apply SFeqb_same, SFsame_sym, SFeqb_same in H2. congruence.
Qed.

Lemma float_eqb_trans (x y z : float) :
  PrimFloat.eqb x y = true -> PrimFloat.eqb y z = true ->
  PrimFloat.eqb x z = true.
Proof. rewrite !FloatAxioms.eqb_spec, !SFeqb_same. apply SFsame_trans. Qed.

(** ** Equality of keys *)

Lemma MeshResourceKey_eq_iff (a b : MeshResourceKey) :
  MeshResourceKey_eq a b = true <-> a = b.
Proof.
  unfold MeshResourceKey_eq. destruct a as [ta ga], b as [tb gb]. simpl.
  rewrite andb_true_iff, String.eqb_eq, Pos.eqb_eq.
  split; [intros [-> ->]; reflexivity | intros [= -> ->]; auto].
Qed.

Lemma Hashable_eq_sym (a b : Hashable) : Hashable_eq a b = Hashable_eq b a.
Proof.
  destruct a as [ka|ra], b as [kb|rb]; simpl; try reflexivity.
  - unfold MeshCollisionShapeKey_eq. rewrite float_eqb_sym. f_equal.
    destruct (MeshResourceKey_eq (snd (_data ka)) (snd (_data kb))) eqn:H1,
             (MeshResourceKey_eq (snd (_data kb)) (snd (_data ka))) eqn:H2;
      try reflexivity.
    + apply MeshResourceKey_eq_iff in H1. symmetry in H1.
      apply MeshResourceKey_eq_iff in H1. congruence.
    + apply MeshResourceKey_eq_iff in H2. symmetry in H2.
      apply MeshResourceKey_eq_iff in H2. congruence.
  - apply N.eqb_sym.
Qed.

Lemma Hashable_eq_trans (a b c : Hashable) :
  Hashable_eq a b = true -> Hashable_eq b c = true -> Hashable_eq a c = true.
Proof.
  destruct a as [ka|ra], b as [kb|rb], c as [kc|rc]; simpl; try discriminate.
  - unfold MeshCollisionShapeKey_eq. rewrite !andb_true_iff, !MeshResourceKey_eq_iff.
    intros [Hm1 Hk1] [Hm2 Hk2]. split; [eapply float_eqb_trans; eassumption | congruence].
  - rewrite !N.eqb_eq. congruence.
Qed.

(** Equal keys are equal to the same keys. *)
Lemma Hashable_eq_compat (a b c : Hashable) :
  Hashable_eq a b = true -> Hashable_eq c a = Hashable_eq c b.
Proof.
  intros Hab.
  destruct (Hashable_eq c a) eqn:Hca, (Hashable_eq c b) eqn:Hcb; try reflexivity.
  - rewrite (Hashable_eq_trans c a b Hca Hab) in Hcb. discriminate.
  - rewrite Hashable_eq_sym in Hab.
    rewrite (Hashable_eq_trans c b a Hcb Hab) in Hca. discriminate.
Qed.

(** ** The resource table *)

Section ResourceTable.
Context `{MU : Mathutils}.


Lemma ESCNFile_init_wf : ESCNFile_wf ESCNFile_init.
Proof. repeat split; constructor. Qed.

Lemma find_snoc {A : Type} (f : A -> bool) (l : list A) (a : A) :
  List.find f (l ++ [a]) =
  match List.find f l with
  | Some b => Some b
  | None => if f a then Some a else None
  end.
Proof.
  induction l as [|b l IH]; simpl.
  - reflexivity.
  - destruct (f b); [reflexivity | exact IH].
Qed.

Lemma find_app_Some {A : Type} (f : A -> bool) (l more : list A) (a : A) :
  List.find f l = Some a -> List.find f (l ++ more) = Some a.
Proof.
  induction l as [|b l IH]; simpl; [discriminate|].
  destruct (f b); [auto | exact IH].
Qed.

Lemma get_internal_resource_In (escn : ESCNFile) (key : Hashable) (index : nat) :
  get_internal_resource escn key = Some index ->
  exists stored,
    In (stored, index) (_internal_hashes escn) /\ Hashable_eq stored key = true.
Proof.
  unfold get_internal_resource.
  destruct (List.find _ _) as [[stored i]|] eqn:Hfind; [|discriminate].
  intros [= <-]. apply find_some in Hfind as [Hin Heq]. exists stored. auto.
Qed.

Lemma get_internal_resource_None (escn : ESCNFile) (key : Hashable) :
  get_internal_resource escn key = None ->
  Forall (fun entry => Hashable_eq (fst entry) key = false) (_internal_hashes escn).
Proof.
  unfold get_internal_resource.
  destruct (List.find _ _) as [entry|] eqn:Hfind; [discriminate|].
  intros _. apply List.Forall_forall. intros entry Hin.
  exact (find_none _ _ Hfind entry Hin).
Qed.

Lemma get_internal_resource_bound (escn : ESCNFile) (key : Hashable) (index : nat) :
  ESCNFile_wf escn ->
  get_internal_resource escn key = Some index ->
  1 <= index <= length (internal_resources escn).
Proof.
  intros (_ & _ & Hbound) Hget.
  apply get_internal_resource_In in Hget as (stored & Hin & _).
  rewrite List.Forall_forall in Hbound. exact (Hbound _ Hin).
Qed.

Lemma find_ext {A : Type} (f g : A -> bool) (l : list A) :
  (forall a, f a = g a) -> List.find f l = List.find g l.
Proof.
  intros Hfg. induction l as [|a l IH]; simpl; [reflexivity|].
  rewrite Hfg, IH. reflexivity.
Qed.

(** Equal keys find the same resource. *)
Lemma get_internal_resource_compat (escn : ESCNFile) (a b : Hashable) :
  Hashable_eq a b = true ->
  get_internal_resource escn a = get_internal_resource escn b.
Proof.
  intros Hab. unfold get_internal_resource.
  rewrite (find_ext _ (fun entry => Hashable_eq (fst entry) b)); [reflexivity|].
  intros entry. apply Hashable_eq_compat. exact Hab.
Qed.

Lemma NoDup_map_snd_inj {A B : Type} (l : list (A * B)) (a a' : A) (b : B) :
  NoDup (map snd l) -> In (a, b) l -> In (a', b) l -> a = a'.
Proof.
  induction l as [|[x y] l IH]; simpl; [intros _ []|].
  intros Hnodup. apply NoDup_cons in Hnodup as [Hy Hnodup].
  assert (Hnot : forall c, In (c, y) l -> False).
  { intros c Hin. apply Hy. apply list_elem_of_In.
    apply List.in_map_iff. exists (c, y). auto. }
  intros [Heq|Hin] [Heq'|Hin'].
  - congruence.
  - injection Heq as _ <-. destruct (Hnot _ Hin').
  - injection Heq' as _ <-. destruct (Hnot _ Hin).
  - exact (IH Hnodup Hin Hin').
Qed.

(** In a well-formed table an id belongs to one entry only. *)
Lemma ESCNFile_wf_one_entry (escn : ESCNFile) (a b : Hashable) (index : nat) :
  ESCNFile_wf escn ->
  In (a, index) (_internal_hashes escn) ->
  In (b, index) (_internal_hashes escn) ->
  a = b.
Proof. intros (_ & Hnodup & _). apply NoDup_map_snd_inj. exact Hnodup. Qed.

Lemma distinct_keys_snoc (entries : list (Hashable * nat)) (key : Hashable)
    (index : nat) :
  distinct_keys entries ->
  Forall (fun entry => Hashable_eq (fst entry) key = false) entries ->
  distinct_keys (entries ++ [(key, index)]).
Proof.
  induction entries as [|entry rest IH]; simpl.
  - intros _ _. split; constructor.
  - intros [Hlater Hrest] Hkey.
    apply List.Forall_cons_iff in Hkey as [Hentry Hkey]. split.
    + apply Forall_app. split; [exact Hlater|]. constructor; [exact Hentry|constructor].
    + apply IH; assumption.
Qed.

(** In a table with distinct keys, the entry that matches a key is the
    only one that does. *)
Lemma distinct_keys_one_match (entries : list (Hashable * nat))
    (stored key : Hashable) (index : nat) :
  distinct_keys entries ->
  In (stored, index) entries ->
  Hashable_eq stored key = true ->
  List.filter (fun entry => Hashable_eq (fst entry) key) entries = [(stored, index)].
Proof.
  intros Hdistinct Hin Hstored.
  assert (Hother : forall other,
             Hashable_eq stored other = false -> Hashable_eq other key = false).
  { intros other Hno. destruct (Hashable_eq other key) eqn:Hyes; [|reflexivity].
    rewrite Hashable_eq_sym in Hyes.
    rewrite (Hashable_eq_trans _ _ _ Hstored Hyes) in Hno. discriminate. }
  induction entries as [|entry rest IH]; simpl in *; [destruct Hin|].
  destruct Hdistinct as [Hlater Hrest]. destruct Hin as [->|Hin]; simpl.
  - rewrite Hstored. f_equal.
    clear IH Hrest. induction Hlater as [|later rest Hl _ IHl]; simpl; [reflexivity|].
    simpl in Hl. rewrite (Hother _ Hl). exact IHl.
  - assert (Hentry : Hashable_eq (fst entry) key = false).
    { rewrite List.Forall_forall in Hlater. specialize (Hlater _ Hin). simpl in Hlater.
      destruct (Hashable_eq (fst entry) key) eqn:Hyes; [|reflexivity].
      rewrite Hashable_eq_sym in Hstored.
      rewrite (Hashable_eq_trans _ _ _ Hyes Hstored) in Hlater. discriminate. }
    rewrite Hentry. apply IH; assumption.
Qed.

Lemma add_internal_resource_hit (escn : ESCNFile) (item : InternalResource)
    (key : Hashable) (index : nat) :
  get_internal_resource escn key = Some index ->
  add_internal_resource escn item key = (index, escn).
Proof. intros H. unfold add_internal_resource. rewrite H. reflexivity. Qed.

Lemma add_internal_resource_miss (escn : ESCNFile) (item : InternalResource)
    (key : Hashable) :
  get_internal_resource escn key = None ->
  add_internal_resource escn item key =
  (S (length (internal_resources escn)),
   {| nodes := nodes escn;
      internal_resources := internal_resources escn ++ [item];
      _internal_hashes :=
        _internal_hashes escn ++ [(key, S (length (internal_resources escn)))] |}).
Proof.
  intros H. unfold add_internal_resource. rewrite H.
  rewrite length_app. simpl. rewrite Nat.add_1_r. reflexivity.
Qed.

Lemma add_internal_resource_wf (escn : ESCNFile) (item : InternalResource)
    (key : Hashable) :
  ESCNFile_wf escn -> ESCNFile_wf (snd (add_internal_resource escn item key)).
Proof.
  intros Hwf.
  destruct (get_internal_resource escn key) as [index|] eqn:Hkey.
  - rewrite (add_internal_resource_hit _ _ _ _ Hkey). exact Hwf.
  - rewrite (add_internal_resource_miss _ _ _ Hkey).
    destruct Hwf as (Hdistinct & Hnodup & Hbound). repeat split; simpl.
    + apply distinct_keys_snoc; [exact Hdistinct|].
      apply get_internal_resource_None. exact Hkey.
    + rewrite map_app. simpl. apply NoDup_app. split; [exact Hnodup|]. split.
      * intros index Hin Hnew. apply list_elem_of_In in Hin, Hnew.
        destruct Hnew as [Heq|[]]. subst index.
        apply List.in_map_iff in Hin as (entry & Hsnd & Hin).
        rewrite List.Forall_forall in Hbound. specialize (Hbound _ Hin). lia.
      * apply NoDup_singleton.
    + apply Forall_app. split.
      * eapply List.Forall_impl; [|exact Hbound]. simpl. intros entry H.
        rewrite length_app. simpl. lia.
      * constructor; [|constructor]. simpl. rewrite length_app. simpl. lia.
Qed.

Lemma force_add_internal_resource_wf (escn : ESCNFile) (item : InternalResource) :
  ESCNFile_wf escn -> ESCNFile_wf (snd (force_add_internal_resource escn item)).
Proof.
  intros (Hdistinct & Hnodup & Hbound). repeat split; simpl; try assumption.
  eapply List.Forall_impl; [|exact Hbound]. simpl. intros entry H.
  rewrite length_app. simpl. lia.
Qed.

Lemma add_node_wf (escn : ESCNFile) (item : NodeTemplate) :
  ESCNFile_wf escn -> ESCNFile_wf (add_node escn item).
Proof. intros Hwf. exact Hwf. Qed.

Lemma registered_setitem_wf (escn : ESCNFile) (rid : nat) (key : string)
    (value : Value) :
  ESCNFile_wf escn -> ESCNFile_wf (registered_setitem escn rid key value).
Proof.
  intros (Hdistinct & Hnodup & Hbound). repeat split; simpl; try assumption.
  destruct rid as [|i]; [exact Hbound|].
  eapply List.Forall_impl; [|exact Hbound]. simpl. intros entry H.
  rewrite length_alter. exact H.
Qed.

End ResourceTable.

(** ** The exporters *)

Section Exporters.
Context {MU : Mathutils} {CO : Collaborators}.

Local Open Scope export_scope.

Lemma bind_Ok {S A B : Type} (c : Export S A) (k : A -> Export S B) (s : S)
    (r : B * S) :
  bind c k s = Ok r -> exists a s1, c s = Ok (a, s1) /\ k a s1 = Ok r.
Proof.
  unfold bind. destruct (c s) as [[a s1]|e]; [|discriminate].
  intros H. exists a, s1. auto.
Qed.

Lemma bind_eq {S A B : Type} (c : Export S A) (k : A -> Export S B) (s s1 : S)
    (a : A) :
  c s = Ok (a, s1) -> bind c k s = k a s1.
Proof. intros H. unfold bind. rewrite H. reflexivity. Qed.

Lemma attr_Some {S A : Type} (o : option A) (a : A) (s : S) :
  o = Some a -> attr o s = Ok (a, s).
Proof. intros ->. reflexivity. Qed.


Lemma collision_groups_from (flags : list bool) :
  forall (start acc : Z),
    (0 <= start)%Z ->
    fold_left
      (fun col_groups entry =>
         let '(offset, flag) := entry in
         col_groups + Z.shiftl (if flag : bool then 1 else 0) offset)%Z
      (enumerate_from start flags) acc
    = (acc + 2 ^ start * bits_value flags)%Z.
Proof.
  induction flags as [|flag rest IH]; intros start acc Hstart; simpl.
  - lia.
  - rewrite IH by lia. rewrite Z.shiftl_mul_pow2 by lia.
    replace (2 ^ (start + 1))%Z with (2 ^ start * 2)%Z
      by (rewrite Z.pow_add_r by lia; reflexivity).
    destruct flag; simpl Z.b2z; lia.
Qed.

Lemma collision_groups_bits (flags : list bool) :
  collision_groups flags = bits_value flags.
Proof.
  unfold collision_groups, enumerate.
  rewrite collision_groups_from by lia. simpl. lia.
Qed.

Lemma bits_value_testbit (flags : list bool) :
  forall i : nat, Z.testbit (bits_value flags) (Z.of_nat i) = nth i flags false.
Proof.
  induction flags as [|flag rest IH]; intros i; simpl.
  - rewrite Z.testbit_0_l. destruct i; reflexivity.
  - destruct i as [|i].
    + apply Z.testbit_0_r.
    + rewrite Nat2Z.inj_succ. rewrite Z.testbit_succ_r by lia. apply IH.
Qed.

Lemma call_eq {A : Type} (method : ESCNFile -> A * ESCNFile) (s : Session) :
  call method s =
  Ok (fst (method (escn_file s)),
      {| escn_file := snd (method (escn_file s)); warnings := warnings s |}).
Proof. unfold call. destruct (method (escn_file s)). reflexivity. Qed.

Lemma call__eq (method : ESCNFile -> ESCNFile) (s : Session) :
  call_ method s =
  Ok (tt, {| escn_file := method (escn_file s); warnings := warnings s |}).
Proof. reflexivity. Qed.

(** *** Relations that every step of an export keeps *)

Section Preserves.
Context (R : Session -> Session -> Prop) `{FR : !Frame R}.

Lemma preserves_ret {A : Type} (a : A) : preserves R (ret a).
Proof. intros s b s' [= _ <-]. apply frame_refl. Qed.

Lemma preserves_lift {A : Type} (r : Result A) : preserves R (lift r).
Proof.
  intros s b s'. destruct r; simpl; [|discriminate].
  intros [= _ <-]. apply frame_refl.
Qed.

Lemma preserves_attr {A : Type} (o : option A) : preserves R (attr o).
Proof. apply preserves_lift. Qed.

Lemma preserves_bind {A B : Type} (c : Export Session A)
    (k : A -> Export Session B) :
  preserves R c -> (forall a, preserves R (k a)) -> preserves R (bind c k).
Proof.
  intros Hc Hk s b s' H. apply bind_Ok in H as (a & s1 & H1 & H2).
  eapply frame_trans; [eapply Hc, H1 | eapply Hk, H2].
Qed.

Lemma preserves_call {A : Type} (method : ESCNFile -> A * ESCNFile) :
  (forall escn log,
      R {| escn_file := escn; warnings := log |}
        {| escn_file := snd (method escn); warnings := log |}) ->
  preserves R (call method).
Proof.
  intros H s a s'. rewrite call_eq. intros [= _ <-]. destruct s. apply H.
Qed.

Lemma preserves_logging_warning (msg : string) :
  (forall escn log,
      R {| escn_file := escn; warnings := log |}
        {| escn_file := escn; warnings := log ++ [msg] |}) ->
  preserves R (logging_warning msg).
Proof. intros H s a s' [= _ <-]. destruct s. apply H. Qed.

End Preserves.

(** Splits a computation into its steps, leaving what the methods of the
    document must satisfy; [known] closes the steps that have a lemma. *)
Ltac frame_steps_with known :=
  repeat (intros;
          first
            [ match goal with |- Frame _ => exact _ end
            | solve [known]
            | apply preserves_ret
            | apply preserves_lift
            | apply preserves_attr
            | apply preserves_bind
            | apply preserves_call
            | apply preserves_logging_warning
            | match goal with
              | |- preserves _ (match ?x with _ => _ end) => destruct x
              | |- preserves _ (if ?x then _ else _) => destruct x
              end
            | progress cbv zeta ]).

Ltac frame_steps := frame_steps_with fail.

(** Every method of the document keeps the table well formed. *)
Ltac wf_methods :=
  unfold keeps_wf; intros; cbv beta;
  first
    [ apply add_internal_resource_wf
    | apply force_add_internal_resource_wf
    | apply registered_setitem_wf
    | apply add_node_wf
    | idtac ];
  simpl; auto.

#[local] Instance same_nodes_frame : Frame same_nodes.
Proof. split; unfold same_nodes; [reflexivity | intros; congruence]. Qed.

#[local] Instance keeps_wf_frame : Frame keeps_wf.
Proof. split; unfold keeps_wf; auto. Qed.

Lemma add_internal_resource_nodes (escn : ESCNFile) (item : InternalResource)
    (key : Hashable) :
  nodes (snd (add_internal_resource escn item key)) = nodes escn.
Proof.
  unfold add_internal_resource.
  destruct (get_internal_resource escn key); reflexivity.
Qed.

(** The shape generators leave the nodes of the document alone. *)
Lemma generate_convex_shape_nodes (export_settings : ExportSettings)
    (bl_object : BlObject) :
  preserves same_nodes (generate_convex_shape export_settings bl_object).
Proof.
  unfold generate_convex_shape. frame_steps; unfold same_nodes; simpl;
    auto using add_internal_resource_nodes.
Qed.

Lemma generate_concave_shape_nodes (export_settings : ExportSettings)
    (bl_object : BlObject) :
  preserves same_nodes (generate_concave_shape export_settings bl_object).
Proof.
  unfold generate_concave_shape. frame_steps; unfold same_nodes; simpl;
    auto using add_internal_resource_nodes.
Qed.

Lemma primitive_shape_nodes (node : BlObject) (rbd : RigidBodyObject)
    (col_name : string) (bounds : Vector.t) :
  preserves same_nodes (primitive_shape node rbd col_name bounds).
Proof.
  unfold primitive_shape. frame_steps; unfold same_nodes; simpl;
    auto using add_internal_resource_nodes.
Qed.

(** Every exporter keeps the resource table well formed. *)
Lemma generate_convex_shape_wf (export_settings : ExportSettings)
    (bl_object : BlObject) :
  preserves keeps_wf (generate_convex_shape export_settings bl_object).
Proof.
  unfold generate_convex_shape. frame_steps; wf_methods.
Qed.

Lemma generate_concave_shape_wf (export_settings : ExportSettings)
    (bl_object : BlObject) :
  preserves keeps_wf (generate_concave_shape export_settings bl_object).
Proof.
  unfold generate_concave_shape. frame_steps; wf_methods.
Qed.

Lemma primitive_shape_wf (node : BlObject) (rbd : RigidBodyObject)
    (col_name : string) (bounds : Vector.t) :
  preserves keeps_wf (primitive_shape node rbd col_name bounds).
Proof.
  unfold primitive_shape. frame_steps; wf_methods.
Qed.

Lemma export_collision_shape_wf (export_settings : ExportSettings)
    (node : BlObject) (parent_gd_node : NodeTemplate)
    (parent_override : option BlObject) :
  preserves keeps_wf
    (export_collision_shape export_settings node parent_gd_node parent_override).
Proof.
  unfold export_collision_shape.
  frame_steps_with
    ltac:(first [ apply generate_convex_shape_wf
                | apply generate_concave_shape_wf
                | apply primitive_shape_wf ]);
    wf_methods.
Qed.

Lemma export_physics_controller_wf (export_settings : ExportSettings)
    (node : BlObject) (parent_gd_node : NodeTemplate) :
  preserves keeps_wf (export_physics_controller export_settings node parent_gd_node).
Proof.
  unfold export_physics_controller. frame_steps; wf_methods.
Qed.

Lemma export_physics_properties_wf (export_settings : ExportSettings)
    (node : BlObject) (parent_gd_node : NodeTemplate) :
  preserves keeps_wf (export_physics_properties export_settings node parent_gd_node).
Proof.
  unfold export_physics_properties.
  frame_steps_with
    ltac:(first [ apply export_physics_controller_wf
                | apply export_collision_shape_wf ]).
Qed.


(** What [export_physics_controller] returns and registers for an object
    with a rigid body. *)
Lemma export_physics_controller_spec (export_settings : ExportSettings)
    (node : BlObject) (parent_gd_node : NodeTemplate) (rbd : RigidBodyObject)
    (s : Session) :
  rigid_body node = Some rbd ->
  exists phys_obj s',
    export_physics_controller export_settings node parent_gd_node s
      = Ok (phys_obj, s') /\
    get_type phys_obj =
      (if String.eqb (type rbd) "ACTIVE"
       then (if kinematic rbd then "KinematicBody" else "RigidBody")
       else "StaticBody") /\
    get_parent phys_obj = Some parent_gd_node /\
    node_getitem phys_obj "transform" = Some (VMatrix (matrix_local node)) /\
    node_getitem phys_obj "collision_layer"
      = Some (VInt (collision_groups (collision_collections rbd))) /\
    node_getitem phys_obj "collision_mask"
      = Some (VInt (collision_groups (collision_collections rbd))) /\
    nodes (escn_file s') = nodes (escn_file s) ++ [phys_obj] /\
    _internal_hashes (escn_file s') = _internal_hashes (escn_file s) /\
    warnings s' = warnings s.
Proof.
  intros Hrbd. unfold export_physics_controller.
  rewrite (bind_eq _ _ _ _ _ (attr_Some _ _ s Hrbd)).
  destruct (String.eqb (type rbd) "ACTIVE"), (kinematic rbd); cbn;
    eexists _, _; (split; [reflexivity|]);
    unfold node_getitem; cbn; repeat split; try reflexivity;
    repeat (rewrite lookup_insert_ne by discriminate); apply lookup_insert_eq.
Qed.

(** C5: for every physics root object the body node is registered with
    the variant chosen from the descriptor: active and kinematic gives a
    [KinematicBody], active and not kinematic a [RigidBody], passive a
    [StaticBody]. *)
Theorem physics_controller_variant (export_settings : ExportSettings)
    (node : BlObject) (parent_gd_node : NodeTemplate) (rbd : RigidBodyObject)
    (s : Session) :
  rigid_body node = Some rbd ->
  exists phys_obj s',
    export_physics_controller export_settings node parent_gd_node s
      = Ok (phys_obj, s') /\
    nodes (escn_file s') = nodes (escn_file s) ++ [phys_obj] /\
    (type rbd = "ACTIVE" -> kinematic rbd = true ->
     get_type phys_obj = "KinematicBody") /\
    (type rbd = "ACTIVE" -> kinematic rbd = false ->
     get_type phys_obj = "RigidBody") /\
    (type rbd = "PASSIVE" -> get_type phys_obj = "StaticBody").
Proof.
  intros Hrbd.
  destruct (export_physics_controller_spec export_settings node parent_gd_node
              rbd s Hrbd)
    as (phys_obj & s' & Hrun & Htype & _ & _ & _ & _ & Hnodes & _).
  exists phys_obj, s'. split; [exact Hrun|]. split; [exact Hnodes|].
  rewrite Htype. repeat split.
  - intros -> ->. reflexivity.
  - intros -> ->. reflexivity.
  - intros ->. reflexivity.
Qed.

(** C6: for every physics root object the body node's [collision_layer]
    and [collision_mask] hold the same integer, whose bit [i] is the [i]-th
    flag of the collision collections, bit 0 being the least significant;
    the flags [true, false, true] give 5. *)
Theorem physics_controller_collision_bits (export_settings : ExportSettings)
    (node : BlObject) (parent_gd_node : NodeTemplate) (rbd : RigidBodyObject)
    (s : Session) :
  rigid_body node = Some rbd ->
  exists phys_obj s' col_groups,
    export_physics_controller export_settings node parent_gd_node s
      = Ok (phys_obj, s') /\
    node_getitem phys_obj "collision_layer" = Some (VInt col_groups) /\
    node_getitem phys_obj "collision_mask" = Some (VInt col_groups) /\
    (forall i : nat,
        Z.testbit col_groups (Z.of_nat i)
        = nth i (collision_collections rbd) false) /\
    (collision_collections rbd = [true; false; true] -> col_groups = 5%Z).
Proof.
  intros Hrbd.
  destruct (export_physics_controller_spec export_settings node parent_gd_node
              rbd s Hrbd)
    as (phys_obj & s' & Hrun & _ & _ & _ & Hlayer & Hmask & _).
  exists phys_obj, s', (collision_groups (collision_collections rbd)).
  repeat split; try assumption.
  - intros i. rewrite collision_groups_bits. apply bits_value_testbit.
  - intros ->. reflexivity.
Qed.

(** The node that [export_collision_shape] returns: its name, type, parent
    and transform, and its registration as the last node of the document. *)
Lemma export_collision_shape_node (export_settings : ExportSettings)
    (node : BlObject) (parent_gd_node : NodeTemplate)
    (parent_override : option BlObject) (s s' : Session)
    (col_node : NodeTemplate) :
  export_collision_shape export_settings node parent_gd_node parent_override s
    = Ok (col_node, s') ->
  get_name col_node = name node +:+ "Collision" /\
  get_type col_node = "CollisionShape" /\
  get_parent col_node = Some parent_gd_node /\
  node_getitem col_node "transform" =
    Some (VMatrix
            (matmul
               match parent_override with
               | None => Matrix_Identity 4
               | Some root =>
                   matmul (inverted_safe (matrix_world root)) (matrix_world node)
               end
               _AXIS_CORRECT)) /\
  nodes (escn_file s') = nodes (escn_file s) ++ [col_node].
Proof.
  unfold export_collision_shape. intros H.
  apply bind_Ok in H as (rbd & s1 & Hrbd & H).
  apply bind_Ok in H as (shaped & s2 & Hshape & H).
  apply bind_Ok in H as ([] & s3 & Hadd & H).
  injection H as <- <-. rewrite call__eq in Hadd. injection Hadd as <-.
  apply (preserves_attr same_nodes) in Hrbd. simpl.
  set (col_node :=
         node_setitem
           (node_setitem
              (NodeTemplate_init (name node +:+ "Collision") "CollisionShape"
                 (Some parent_gd_node)) "transform" _) "transform" _) in Hshape.
  assert (Hnode : (shaped = col_node \/
                   exists shape, shaped = node_setitem col_node "shape" shape)
                  /\ same_nodes s1 s2).
  { destruct (str_in (collision_shape rbd) ["CONVEX_HULL"; "MESH"]).
    - apply bind_Ok in Hshape as (shape_id & s4 & Hgen & Hret). split.
      + destruct shape_id; injection Hret as <- _; eauto.
      + assert (same_nodes s1 s4) as Hs4.
        { destruct (String.eqb (collision_shape rbd) "CONVEX_HULL");
            [eapply generate_convex_shape_nodes | eapply generate_concave_shape_nodes];
            exact Hgen. }
        destruct shape_id; injection Hret as _ <-; exact Hs4.
    - apply bind_Ok in Hshape as (bounds & s4 & Hbounds & Hshape).
      apply (preserves_lift same_nodes) in Hbounds.
      apply bind_Ok in Hshape as ([col_shape shape_id] & s5 & Hprim & Hret).
      apply primitive_shape_nodes in Hprim.
      assert (shaped = node_setitem col_node "shape"
                         (VStr (format_SubResource shape_id))
              /\ same_nodes s5 s2) as [-> Hs5].
      { destruct col_shape, shape_id; try (injection Hret as <- <-; split; reflexivity).
        apply bind_Ok in Hret as ([] & s6 & Hmargin & Hret).
        injection Hret as <- <-. split; [reflexivity|].
        destruct (use_margin rbd).
        - rewrite call__eq in Hmargin. injection Hmargin as <-. reflexivity.
        - injection Hmargin as <-. reflexivity. }
      split; [eauto|]. unfold same_nodes in *. congruence. }
  destruct Hnode as [Hshaped Hnodes]. unfold same_nodes in *.
  assert (Hlast : nodes (escn_file s2) ++ [shaped] = nodes (escn_file s) ++ [shaped])
    by congruence.
  destruct Hshaped as [-> | [shape ->]]; repeat split; try exact Hlast;
    unfold node_getitem; simpl;
    repeat (rewrite lookup_insert_ne by discriminate); apply lookup_insert_eq.
Qed.

Lemma closest_physics_node_unfold (gd_node_ptr : NodeTemplate) :
  closest_physics_node gd_node_ptr =
  if str_in (get_type gd_node_ptr) PHYSICS_TYPES then Ok gd_node_ptr
  else
    match get_parent gd_node_ptr with
    | Some up => closest_physics_node up
    | None => Raise AttributeError
    end.
Proof. destruct gd_node_ptr; reflexivity. Qed.

(** C3: the transform of every exported collision-shape node.  Without a
    root override it is the identity composed with the axis correction;
    with one it is the inverse of the override's world matrix times the
    object's world matrix, composed with the axis correction.  The override
    that [export_physics_properties] passes is the physics root of the
    object, so the first case is that of an object that is its own root. *)
Theorem collision_shape_transform (export_settings : ExportSettings)
    (node : BlObject) (parent_gd_node : NodeTemplate) (s s' : Session)
    (col_node : NodeTemplate) :
  (forall parent_override : option BlObject,
      export_collision_shape export_settings node parent_gd_node
        parent_override s = Ok (col_node, s') ->
      In col_node (nodes (escn_file s')) /\
      node_getitem col_node "transform" =
        Some (VMatrix
                match parent_override with
                | None => matmul (Matrix_Identity 4) _AXIS_CORRECT
                | Some root =>
                    matmul
                      (matmul (inverted_safe (matrix_world root))
                         (matrix_world node))
                      _AXIS_CORRECT
                end))
  /\ (export_physics_properties export_settings node parent_gd_node s
        = Ok (col_node, s') ->
      In col_node (nodes (escn_file s')) /\
      node_getitem col_node "transform" =
        Some (VMatrix
                match get_physics_root node with
                | None => matmul (Matrix_Identity 4) _AXIS_CORRECT
                | Some root =>
                    matmul
                      (matmul (inverted_safe (matrix_world root))
                         (matrix_world node))
                      _AXIS_CORRECT
                end)).
Proof.
  assert (Hshape : forall parent_gd_node s parent_override,
             export_collision_shape export_settings node parent_gd_node
               parent_override s = Ok (col_node, s') ->
             In col_node (nodes (escn_file s')) /\
             node_getitem col_node "transform" =
               Some (VMatrix
                       match parent_override with
                       | None => matmul (Matrix_Identity 4) _AXIS_CORRECT
                       | Some root =>
                           matmul
                             (matmul (inverted_safe (matrix_world root))
                                (matrix_world node))
                             _AXIS_CORRECT
                       end)).
  { intros gd s0 parent_override H.
    apply export_collision_shape_node in H as (_ & _ & _ & Htransform & Hnodes).
    split.
    - rewrite Hnodes. apply List.in_or_app. right. left. reflexivity.
    - rewrite Htransform. destruct parent_override; reflexivity. }
  split.
  - apply Hshape.
  - unfold export_physics_properties. intros H.
    apply bind_Ok in H as (gd & s1 & _ & H).
    apply bind_Ok in H as (physics_gd_node & s2 & _ & H).
    exact (Hshape _ _ _ H).
Qed.

(** C7: for every object with a capsule shape and bounding-box extents
    [(x, y, z)], the shape registered for it has radius [max(x, y) / 2] and
    height [z - radius * 2]; nothing clamps the height, which is negative
    for a flat box such as [(2, 2, 0)]; the extents [(2, 2, 4)] give radius
    1 and height 2. *)
Theorem capsule_shape_dimensions (export_settings : ExportSettings)
    (node : BlObject) (parent_gd_node : NodeTemplate)
    (parent_override : option BlObject) (s : Session) (rbd : RigidBodyObject)
    (bounds : Vector.t) :
  rigid_body node = Some rbd ->
  collision_shape rbd = "CAPSULE" ->
  get_extents node = Ok bounds ->
  get_internal_resource (escn_file s) (KeyRigidBody rbd) = None ->
  exists col_node s' rid col_shape radius height,
    export_collision_shape export_settings node parent_gd_node parent_override s
      = Ok (col_node, s') /\
    node_getitem col_node "shape" = Some (VStr (format_SubResource (Some rid))) /\
    resource_at (escn_file s') rid = Some col_shape /\
    resource_type col_shape = "CapsuleShape" /\
    resource_getitem col_shape "radius" = Some (VFloat radius) /\
    resource_getitem col_shape "height" = Some (VFloat height) /\
    radius = (py_max (Vector.x bounds) (Vector.y bounds) / 2)%float /\
    height = (Vector.z bounds - radius * 2)%float /\
    (bounds = Vector.mk 2 2 4 -> radius = 1%float /\ height = 2%float) /\
    (bounds = Vector.mk 2 2 0 ->
     height = (-2)%float /\ PrimFloat.ltb height 0 = true).
Proof.
  intros Hrbd Hkind Hbounds Hfresh.
  unfold export_collision_shape.
  rewrite (bind_eq _ _ _ _ _ (attr_Some _ _ s Hrbd)).
  rewrite Hkind. cbn [str_in existsb String.eqb Ascii.eqb Bool.eqb orb].
  unfold bind at 1. unfold bind at 1. unfold lift at 1. rewrite Hbounds.
  unfold primitive_shape. rewrite Hkind.
  cbn [String.eqb Ascii.eqb Bool.eqb].
  unfold bind at 1. unfold bind at 1. rewrite call_eq.
  rewrite (add_internal_resource_miss _ _ _ Hfresh).
  cbn [fst snd ret].
  set (radius := (py_max (Vector.x bounds) (Vector.y bounds) / 2)%float).
  set (height := (Vector.z bounds - radius * 2)%float).
  assert (Hlast : forall (l : list InternalResource) x, (l ++ [x]) !! length l = Some x).
  { intros l x. apply list_lookup_middle. reflexivity. }
  destruct (use_margin rbd); cbn;
    eexists _, _, _, _, radius, height; (split; [reflexivity|]);
    (split; [unfold node_getitem; cbn; apply lookup_insert_eq|]);
    (split; [cbn; first [ rewrite list_lookup_alter_eq, Hlast; reflexivity
                        | apply Hlast ]|]);
    (split; [reflexivity|]);
    (split; [unfold resource_getitem; cbn;
             repeat (rewrite lookup_insert_ne by discriminate);
             apply lookup_insert_eq|]);
    (split; [unfold resource_getitem; cbn;
             repeat (rewrite lookup_insert_ne by discriminate);
             apply lookup_insert_eq|]);
    (split; [reflexivity|]); (split; [reflexivity|]);
    (split; intros Heq; subst radius height; rewrite Heq; split; reflexivity).
Qed.

Lemma get_extents_Ok (node : BlObject) :
  bound_box node <> [] -> exists bounds, get_extents node = Ok bounds.
Proof.
  unfold get_extents. destruct (bound_box node) as [|v0 rest]; [congruence|].
  intros _. destruct (fold_left _ _ _) as [mins maxs]. eauto.
Qed.

(** C8: for every object whose shape kind is none of the supported ones,
    the export of its collision shape returns: a warning is logged, the
    resource table stays as it was, and the collision-shape node is
    registered into the document with the reference to no shape,
    [SubResource(None)], attached. *)
Theorem unsupported_shape_kind (export_settings : ExportSettings)
    (node : BlObject) (parent_gd_node : NodeTemplate)
    (parent_override : option BlObject) (s : Session) (rbd : RigidBodyObject) :
  rigid_body node = Some rbd ->
  ~ In (collision_shape rbd) ["BOX"; "SPHERE"; "CAPSULE"; "CONVEX_HULL"; "MESH"] ->
  bound_box node <> [] ->
  exists col_node s',
    export_collision_shape export_settings node parent_gd_node parent_override s
      = Ok (col_node, s') /\
    warnings s' =
      warnings s ++ ["Unable to export physics shape for " +:+ name node] /\
    internal_resources (escn_file s') = internal_resources (escn_file s) /\
    _internal_hashes (escn_file s') = _internal_hashes (escn_file s) /\
    node_getitem col_node "shape" = Some (VStr "SubResource(None)") /\
    nodes (escn_file s') = nodes (escn_file s) ++ [col_node].
Proof.
  intros Hrbd Hkind Hbox.
  destruct (get_extents_Ok node Hbox) as [bounds Hbounds].
  assert (Hneq : forall kind,
             In kind ["BOX"; "SPHERE"; "CAPSULE"; "CONVEX_HULL"; "MESH"] ->
             String.eqb (collision_shape rbd) kind = false).
  { intros kind Hin. apply String.eqb_neq. intros Heq. apply Hkind. rewrite Heq. exact Hin. }
  unfold export_collision_shape.
  rewrite (bind_eq _ _ _ _ _ (attr_Some _ _ s Hrbd)).
  unfold str_in, existsb.
  rewrite (Hneq "CONVEX_HULL"), (Hneq "MESH") by (simpl; tauto).
  cbn [orb].
  unfold bind at 1. unfold bind at 1. unfold lift at 1. rewrite Hbounds.
  unfold primitive_shape.
  rewrite (Hneq "BOX"), (Hneq "SPHERE"), (Hneq "CAPSULE") by (simpl; tauto).
  cbn. eexists _, _. split; [reflexivity|].
  repeat split.
Qed.

Lemma gd_chain_unfold (gd_node : NodeTemplate) :
  gd_chain gd_node =
  gd_node :: match get_parent gd_node with Some up => gd_chain up | None => [] end.
Proof. destruct gd_node; reflexivity. Qed.

(** The walk returns the first physics node of the chain, and raises when
    the chain has none. *)
Lemma closest_physics_node_find (gd_node : NodeTemplate) :
  closest_physics_node gd_node =
  match List.find is_physics_node (gd_chain gd_node) with
  | Some body => Ok body
  | None => Raise AttributeError
  end.
Proof.
  remember (gd_chain gd_node) as chain eqn:Hchain.
  revert gd_node Hchain.
  induction chain as [|g chain IH]; intros gd_node Hchain;
    rewrite gd_chain_unfold in Hchain; [discriminate|].
  injection Hchain as -> Hrest.
  rewrite closest_physics_node_unfold. cbn [List.find].
  unfold is_physics_node at 1.
  destruct (str_in (get_type gd_node) PHYSICS_TYPES); [reflexivity|].
  destruct (get_parent gd_node) as [up|].
  - apply IH. exact Hrest.
  - subst chain. reflexivity.
Qed.

Lemma find_first {A : Type} (f : A -> bool) (l : list A) (a : A) :
  List.find f l = Some a ->
  exists below above,
    l = below ++ a :: above /\ Forall (fun b => f b = false) below /\ f a = true.
Proof.
  induction l as [|b l IH]; simpl; [discriminate|].
  destruct (f b) eqn:Hb.
  - intros [= ->]. exists [], l. auto.
  - intros H. destruct (IH H) as (below & above & -> & Hbelow & Ha).
    exists (b :: below), above. auto.
Qed.

(** C10: the walk of [export_physics_properties] up the output nodes.  When
    the chain of parents that starts at the attachment context has a node
    of a physics type, the walk returns the nearest one; when it has none,
    the walk reaches the absent parent of the top node and reading its type
    raises, and so does the export of an object below a physics root. *)
Theorem closest_physics_node_walk (export_settings : ExportSettings)
    (parent_gd_node : NodeTemplate) :
  (Exists (fun g => is_physics_node g = true) (gd_chain parent_gd_node) ->
   exists below body above,
     gd_chain parent_gd_node = below ++ body :: above /\
     Forall (fun g => is_physics_node g = false) below /\
     is_physics_node body = true /\
     closest_physics_node parent_gd_node = Ok body)
  /\ (~ Exists (fun g => is_physics_node g = true) (gd_chain parent_gd_node) ->
      closest_physics_node parent_gd_node = Raise AttributeError /\
      forall (node root : BlObject) (s : Session),
        get_physics_root node = Some root ->
        export_physics_properties export_settings node parent_gd_node s
          = Raise AttributeError).
Proof.
  pose proof (closest_physics_node_find parent_gd_node) as Hwalk.
  destruct (List.find is_physics_node (gd_chain parent_gd_node)) as [body|] eqn:Hfind.
  - split.
    + intros _. destruct (find_first _ _ _ Hfind) as (below & above & Hsplit & Hbelow & Hbody).
      exists below, body, above. auto.
    + intros Hnone. exfalso. apply Hnone. apply List.Exists_exists.
      apply find_some in Hfind as [Hin Hbody]. eauto.
  - split.
    + intros Hsome. exfalso. apply List.Exists_exists in Hsome as (g & Hin & Hg).
      rewrite (find_none _ _ Hfind g Hin) in Hg. discriminate.
    + intros _. split; [exact Hwalk|].
      intros node root s Hroot. unfold export_physics_properties.
      rewrite Hroot. unfold bind, ret, lift. rewrite Hwalk. reflexivity.
Qed.

(** *** The growth of the resource table *)

#[local] Instance table_grows_frame : Frame table_grows.
Proof.
  split.
  - intros s. split; [exists []; symmetry; apply app_nil_r | lia].
  - intros s1 s2 s3 [[more1 H1] Hlen1] [[more2 H2] Hlen2]. split.
    + exists (more1 ++ more2). rewrite H2, H1. symmetry. apply app_assoc.
    + lia.
Qed.

Lemma table_grows_get (s s' : Session) (key : Hashable) (index : nat) :
  table_grows s s' ->
  get_internal_resource (escn_file s) key = Some index ->
  get_internal_resource (escn_file s') key = Some index.
Proof.
  intros [[more Hmore] _]. unfold get_internal_resource. rewrite Hmore.
  destruct (List.find _ (_internal_hashes (escn_file s))) as [entry|] eqn:Hfind;
    [|discriminate].
  rewrite (find_app_Some _ _ more _ Hfind). auto.
Qed.

Lemma table_grows_In (s s' : Session) (entry : Hashable * nat) :
  table_grows s s' ->
  In entry (_internal_hashes (escn_file s)) ->
  In entry (_internal_hashes (escn_file s')).
Proof.
  intros [[more Hmore] _] Hin. rewrite Hmore. apply List.in_or_app. auto.
Qed.

Lemma add_internal_resource_grows (escn : ESCNFile) (item : InternalResource)
    (key : Hashable) (log : list string) :
  table_grows {| escn_file := escn; warnings := log |}
    {| escn_file := snd (add_internal_resource escn item key); warnings := log |}.
Proof.
  unfold add_internal_resource.
  destruct (get_internal_resource escn key); simpl.
  - apply frame_refl.
  - split; simpl; [eauto | rewrite length_app; lia].
Qed.

(** Every method of the document lets the table grow. *)
Ltac grows_methods :=
  intros; cbv beta;
  first
    [ apply add_internal_resource_grows
    | split; simpl;
      [ exists []; symmetry; apply app_nil_r
      | first [ lia
              | rewrite length_app; lia
              | match goal with
                | |- context [match ?rid with O => _ | S _ => _ end] =>
                    destruct rid; [lia | rewrite length_alter; lia]
                end ] ] ].

Lemma generate_convex_shape_grows (export_settings : ExportSettings)
    (bl_object : BlObject) :
  preserves table_grows (generate_convex_shape export_settings bl_object).
Proof. unfold generate_convex_shape. frame_steps; grows_methods. Qed.

Lemma generate_concave_shape_grows (export_settings : ExportSettings)
    (bl_object : BlObject) :
  preserves table_grows (generate_concave_shape export_settings bl_object).
Proof. unfold generate_concave_shape. frame_steps; grows_methods. Qed.

Lemma primitive_shape_grows (node : BlObject) (rbd : RigidBodyObject)
    (col_name : string) (bounds : Vector.t) :
  preserves table_grows (primitive_shape node rbd col_name bounds).
Proof. unfold primitive_shape. frame_steps; grows_methods. Qed.

Lemma export_collision_shape_grows (export_settings : ExportSettings)
    (node : BlObject) (parent_gd_node : NodeTemplate)
    (parent_override : option BlObject) :
  preserves table_grows
    (export_collision_shape export_settings node parent_gd_node parent_override).
Proof.
  unfold export_collision_shape.
  frame_steps_with
    ltac:(first [ apply generate_convex_shape_grows
                | apply generate_concave_shape_grows
                | apply primitive_shape_grows ]);
    grows_methods.
Qed.

Lemma export_physics_controller_grows (export_settings : ExportSettings)
    (node : BlObject) (parent_gd_node : NodeTemplate) :
  preserves table_grows
    (export_physics_controller export_settings node parent_gd_node).
Proof. unfold export_physics_controller. frame_steps; grows_methods. Qed.

Lemma export_physics_properties_grows (export_settings : ExportSettings)
    (node : BlObject) (parent_gd_node : NodeTemplate) :
  preserves table_grows
    (export_physics_properties export_settings node parent_gd_node).
Proof.
  unfold export_physics_properties.
  frame_steps_with
    ltac:(first [ apply export_physics_controller_grows
                | apply export_collision_shape_grows ]).
Qed.

(** *** Get or create *)

Lemma add_internal_resource_served (escn : ESCNFile) (item : InternalResource)
    (key : Hashable) (log : list string) :
  served key (fst (add_internal_resource escn item key))
    {| escn_file := escn; warnings := log |}
    {| escn_file := snd (add_internal_resource escn item key); warnings := log |}.
Proof.
  destruct (get_internal_resource escn key) as [index|] eqn:Hkey.
  - rewrite (add_internal_resource_hit _ _ _ _ Hkey). left. simpl. auto.
  - rewrite (add_internal_resource_miss _ _ _ Hkey). right. simpl.
    repeat split; try assumption. rewrite length_app. simpl. lia.
Qed.

Lemma served_In (key : Hashable) (index : nat) (s s' : Session) :
  served key index s s' ->
  exists stored,
    In (stored, index) (_internal_hashes (escn_file s')) /\
    (stored = key \/ Hashable_eq stored key = true).
Proof.
  intros [(Hget & Hhashes & _) | (_ & _ & Hhashes & _)]; rewrite Hhashes.
  - apply get_internal_resource_In in Hget as (stored & Hin & Heq). eauto.
  - exists key. split; [apply List.in_or_app; simpl; auto | auto].
Qed.

Lemma served_get (key : Hashable) (index : nat) (s s' : Session) :
  served key index s s' ->
  Hashable_eq key key = true ->
  get_internal_resource (escn_file s') key = Some index.
Proof.
  intros [(Hget & Hhashes & _) | (Hget & _ & Hhashes & _)] Hrefl;
    unfold get_internal_resource in *; rewrite Hhashes.
  - exact Hget.
  - rewrite find_snoc. destruct (List.find _ _); [discriminate|].
    simpl. rewrite Hrefl. reflexivity.
Qed.

Lemma MeshCollisionShapeKey_init_Ok (shape_type : string) (bl_object : BlObject)
    (export_settings : ExportSettings) (rbd : RigidBodyObject) :
  rigid_body bl_object = Some rbd ->
  str_in shape_type ["ConvexPolygonShape"; "ConcavePolygonShape"] = true ->
  lift (S := Session)
    (MeshCollisionShapeKey_init shape_type bl_object export_settings)
  = ret {| _data := (key_margin rbd,
                     MeshResourceKey_init shape_type bl_object export_settings) |}.
Proof.
  intros Hrbd Htype. unfold MeshCollisionShapeKey_init.
  rewrite Htype, Hrbd. reflexivity.
Qed.

(** A cache hit: the generators return the id found and leave the session
    as it is. *)
Lemma generate_convex_shape_hit (export_settings : ExportSettings)
    (bl_object : BlObject) (rbd : RigidBodyObject) (s : Session) (index : nat) :
  rigid_body bl_object = Some rbd ->
  get_internal_resource (escn_file s)
    (shape_key "ConvexPolygonShape" bl_object export_settings rbd) = Some index ->
  generate_convex_shape export_settings bl_object s = Ok (Some index, s).
Proof.
  intros Hrbd Hget. unfold generate_convex_shape.
  rewrite (MeshCollisionShapeKey_init_Ok "ConvexPolygonShape" _ _ _ Hrbd eq_refl).
  unfold bind at 1. unfold ret at 1. unfold bind at 1. rewrite call_eq.
  cbn [fst snd]. unfold shape_key in Hget. rewrite Hget.
  destruct s. reflexivity.
Qed.

Lemma generate_concave_shape_hit (export_settings : ExportSettings)
    (bl_object : BlObject) (rbd : RigidBodyObject) (s : Session) (index : nat) :
  rigid_body bl_object = Some rbd ->
  get_internal_resource (escn_file s)
    (shape_key "ConcavePolygonShape" bl_object export_settings rbd) = Some index ->
  generate_concave_shape export_settings bl_object s = Ok (Some index, s).
Proof.
  intros Hrbd Hget. unfold generate_concave_shape.
  rewrite (MeshCollisionShapeKey_init_Ok "ConcavePolygonShape" _ _ _ Hrbd eq_refl).
  unfold bind at 1. unfold ret at 1. unfold bind at 1. rewrite call_eq.
  cbn [fst snd]. unfold shape_key in Hget. rewrite Hget.
  destruct s. reflexivity.
Qed.

(** Whenever a generator returns an id, it served it for the key of the
    object. *)
Lemma generate_convex_shape_served (export_settings : ExportSettings)
    (bl_object : BlObject) (rbd : RigidBodyObject) (s s' : Session)
    (index : nat) :
  rigid_body bl_object = Some rbd ->
  generate_convex_shape export_settings bl_object s = Ok (Some index, s') ->
  served (shape_key "ConvexPolygonShape" bl_object export_settings rbd) index s s'.
Proof.
  intros Hrbd. unfold generate_convex_shape.
  rewrite (MeshCollisionShapeKey_init_Ok "ConvexPolygonShape" _ _ _ Hrbd eq_refl).
  unfold bind at 1. unfold ret at 1. unfold bind at 1. rewrite call_eq.
  cbn [fst snd]. fold (shape_key "ConvexPolygonShape" bl_object export_settings rbd).
  destruct s as [escn log]. cbn [escn_file warnings].
  destruct (get_internal_resource escn _) as [found|] eqn:Hget.
  - intros [= -> <-]. left. simpl. auto.
  - destruct (to_mesh bl_object export_settings false false) as [mesh|];
      [|discriminate].
    rewrite (bind_eq _ _ _ _ _ (attr_Some _ _ _ Hrbd)).
    unfold bind. rewrite call_eq. cbn [fst snd escn_file warnings].
    intros [= <- <-]. apply add_internal_resource_served.
Qed.

Lemma generate_concave_shape_served (export_settings : ExportSettings)
    (bl_object : BlObject) (rbd : RigidBodyObject) (s s' : Session)
    (index : nat) :
  rigid_body bl_object = Some rbd ->
  generate_concave_shape export_settings bl_object s = Ok (Some index, s') ->
  served (shape_key "ConcavePolygonShape" bl_object export_settings rbd) index s s'.
Proof.
  intros Hrbd. unfold generate_concave_shape.
  rewrite (MeshCollisionShapeKey_init_Ok "ConcavePolygonShape" _ _ _ Hrbd eq_refl).
  unfold bind at 1. unfold ret at 1. unfold bind at 1. rewrite call_eq.
  cbn [fst snd]. fold (shape_key "ConcavePolygonShape" bl_object export_settings rbd).
  destruct s as [escn log]. cbn [escn_file warnings].
  destruct (get_internal_resource escn _) as [found|] eqn:Hget.
  - intros [= -> <-]. left. simpl. auto.
  - destruct (to_mesh bl_object export_settings false false) as [mesh|];
      [|discriminate].
    destruct (polygons mesh); [discriminate|].
    unfold bind at 1. unfold lift at 1.
    destruct (concave_vert_array mesh (loop_triangles mesh)); [|discriminate].
    rewrite (bind_eq _ _ _ _ _ (attr_Some _ _ _ Hrbd)).
    unfold bind. rewrite call_eq. cbn [fst snd escn_file warnings].
    intros [= <- <-]. apply add_internal_resource_served.
Qed.

Lemma resource_at_is_Some (escn : ESCNFile) (index : nat) :
  1 <= index <= length (internal_resources escn) ->
  is_Some (resource_at escn index).
Proof.
  intros Hbound. destruct index as [|i]; [lia|]. simpl.
  apply lookup_lt_is_Some. lia.
Qed.

(** The keys of two objects with the same geometry identity, requested
    with the same shape type, are equal exactly when their margins are. *)
Lemma shape_key_eq (shape_type : string) (export_settings : ExportSettings)
    (a b : BlObject) (ra rb : RigidBodyObject) :
  geometry_identity a export_settings = geometry_identity b export_settings ->
  Hashable_eq (shape_key shape_type a export_settings ra)
              (shape_key shape_type b export_settings rb)
  = PrimFloat.eqb (key_margin ra) (key_margin rb).
Proof.
  intros Hgeometry. unfold shape_key, MeshResourceKey_init. simpl.
  unfold MeshCollisionShapeKey_eq, MeshResourceKey_eq. simpl.
  rewrite Hgeometry, String.eqb_refl, Pos.eqb_refl. apply andb_true_r.
Qed.

(** C2: the generation of mesh-derived shapes, convex and concave, is get
    or create under the key (margin, geometry identity).  Take two requests
    of the same kind for objects with the same geometry identity, the
    first of which returned a shape id, whatever else the session exported
    in between.  With equal margins the second request returns the id of
    the first and registers nothing, exactly one entry of the table stands
    under the key and its id is that of a registered resource, and a first
    request that did not find the key added exactly one resource.  With
    margins that differ, a second request that returns an id returns
    another one. *)
Theorem mesh_shape_get_or_create (export_settings : ExportSettings)
    (generate : ExportSettings -> BlObject -> Export Session (option nat))
    (shape_type : string) (a b : BlObject) (ra rb : RigidBodyObject)
    (s0 s1 s1' : Session) (i : nat) :
  (generate = generate_convex_shape /\ shape_type = "ConvexPolygonShape") \/
  (generate = generate_concave_shape /\ shape_type = "ConcavePolygonShape") ->
  rigid_body a = Some ra ->
  rigid_body b = Some rb ->
  geometry_identity a export_settings = geometry_identity b export_settings ->
  ESCNFile_wf (escn_file s0) ->
  generate export_settings a s0 = Ok (Some i, s1) ->
  table_grows s1 s1' ->
  ESCNFile_wf (escn_file s1') ->
  (PrimFloat.eqb (key_margin ra) (key_margin rb) = true ->
   generate export_settings b s1' = Ok (Some i, s1') /\
   (exists stored,
       List.filter
         (fun entry =>
            Hashable_eq (fst entry) (shape_key shape_type b export_settings rb))
         (_internal_hashes (escn_file s1')) = [(stored, i)]) /\
   is_Some (resource_at (escn_file s1') i) /\
   (get_internal_resource (escn_file s0)
      (shape_key shape_type a export_settings ra) = None ->
    length (internal_resources (escn_file s1))
    = S (length (internal_resources (escn_file s0)))))
  /\ (PrimFloat.eqb (key_margin ra) (key_margin rb) = false ->
      forall (j : nat) (s2 : Session),
        generate export_settings b s1' = Ok (Some j, s2) -> j <> i).
Proof.
  intros Hkind Hra Hrb Hgeometry Hwf0 Hfirst Hgrows Hwf1.
  set (ka := shape_key shape_type a export_settings ra).
  set (kb := shape_key shape_type b export_settings rb).
  assert (Hserved_a : served ka i s0 s1).
  { destruct Hkind as [[-> ->]|[-> ->]];
      [eapply generate_convex_shape_served | eapply generate_concave_shape_served];
      eassumption. }
  assert (Hhit : forall j,
             get_internal_resource (escn_file s1') kb = Some j ->
             generate export_settings b s1' = Ok (Some j, s1')).
  { intros j Hj. destruct Hkind as [[-> ->]|[-> ->]];
      [eapply generate_convex_shape_hit | eapply generate_concave_shape_hit];
      eassumption. }
  assert (Hserved_b : forall j s2,
             generate export_settings b s1' = Ok (Some j, s2) -> served kb j s1' s2).
  { intros j s2 Hj. destruct Hkind as [[-> ->]|[-> ->]];
      [eapply generate_convex_shape_served | eapply generate_concave_shape_served];
      eassumption. }
  pose proof (shape_key_eq shape_type export_settings a b ra rb Hgeometry) as Hkeys.
  fold ka kb in Hkeys.
  destruct (served_In _ _ _ _ Hserved_a) as (x & Hx & Hxa).
  apply (table_grows_In _ _ _ Hgrows) in Hx.
  split.
  - intros Hmargin. rewrite Hmargin in Hkeys.
    assert (Hrefl : Hashable_eq ka ka = true).
    { apply (Hashable_eq_trans ka kb ka); [exact Hkeys|].
      rewrite Hashable_eq_sym. exact Hkeys. }
    assert (Hget : get_internal_resource (escn_file s1') kb = Some i).
    { rewrite <- (get_internal_resource_compat _ ka kb Hkeys).
      apply (table_grows_get _ _ _ _ Hgrows).
      exact (served_get _ _ _ _ Hserved_a Hrefl). }
    split; [exact (Hhit _ Hget)|]. split; [|split].
    + destruct (get_internal_resource_In _ _ _ Hget) as (stored & Hin & Hstored).
      exists stored. apply distinct_keys_one_match; try assumption.
      exact (proj1 Hwf1).
    + apply resource_at_is_Some.
      exact (get_internal_resource_bound _ _ _ Hwf1 Hget).
    + intros Hfresh.
      destruct Hserved_a as [(Hfound & _) | (_ & -> & _ & Hlen)];
        [congruence | exact Hlen].
  - intros Hmargin j s2 Hsecond ->. rewrite Hmargin in Hkeys.
    destruct (Hserved_b _ _ Hsecond) as [(Hget & _) | (_ & Hnew & _)].
    + destruct (get_internal_resource_In _ _ _ Hget) as (stored & Hin & Hstored).
      assert (x = stored) as -> by (eapply ESCNFile_wf_one_entry; eassumption).
      destruct Hxa as [-> | Hxa]; [congruence|].
      rewrite Hashable_eq_sym in Hxa.
      rewrite (Hashable_eq_trans _ _ _ Hxa Hstored) in Hkeys. discriminate.
    + destruct Hwf1 as (_ & _ & Hbound). rewrite List.Forall_forall in Hbound.
      specialize (Hbound _ Hx). simpl in Hbound. lia.
Qed.

(** The export of a primitive shape serves an id for the descriptor of the
    object and attaches it to the node. *)
Lemma export_collision_shape_primitive_served (export_settings : ExportSettings)
    (node : BlObject) (parent_gd_node : NodeTemplate)
    (parent_override : option BlObject) (s s' : Session)
    (col_node : NodeTemplate) (rbd : RigidBodyObject) :
  rigid_body node = Some rbd ->
  In (collision_shape rbd) ["BOX"; "SPHERE"; "CAPSULE"] ->
  export_collision_shape export_settings node parent_gd_node parent_override s
    = Ok (col_node, s') ->
  exists index,
    node_getitem col_node "shape"
      = Some (VStr (format_SubResource (Some index))) /\
    served (KeyRigidBody rbd) index s s'.
Proof.
  intros Hrbd Hkind. unfold export_collision_shape.
  rewrite (bind_eq _ _ _ _ _ (attr_Some _ _ s Hrbd)).
  unfold primitive_shape.
  destruct s as [escn log].
  destruct Hkind as [<-|[<-|[<-|[]]]];
    cbn [str_in existsb String.eqb Ascii.eqb Bool.eqb orb];
    unfold bind at 1; unfold bind at 1; unfold lift at 1;
    (destruct (get_extents node) as [bounds|]; [|discriminate]);
    repeat (unfold bind at 1); cbn [Vector.to_list py_max_list lift];
    rewrite call_eq; cbn [fst snd escn_file warnings];
    match goal with
    | |- context [add_internal_resource escn ?item ?key] =>
        pose proof (add_internal_resource_served escn item key log) as Hserved;
        destruct (add_internal_resource escn item key) as [index escn1]
    end;
    cbn [fst snd] in Hserved; cbn [ret];
    intros Hrun; exists index;
    assert (Hkeep : forall escn2,
               _internal_hashes escn2 = _internal_hashes escn1 ->
               length (internal_resources escn2) = length (internal_resources escn1) ->
               served (KeyRigidBody rbd) index
                 {| escn_file := escn; warnings := log |}
                 {| escn_file := escn2; warnings := log |})
      by (intros escn2 Hh Hl;
          destruct Hserved as [(? & ? & ?)|(? & ? & ? & ?)]; [left|right];
          cbn [escn_file] in *; rewrite ?Hh, ?Hl; auto);
    destruct (use_margin rbd); cbn in Hrun; injection Hrun as <- <-;
    (split; [unfold node_getitem; cbn; apply lookup_insert_eq|]);
    apply Hkeep; cbn; try reflexivity;
    destruct index; cbn; try reflexivity; apply length_alter.
Qed.

(** C4: primitive shapes are registered under the identity of the rigid
    body descriptor.  For two objects with distinct descriptors and shapes
    among box, sphere and capsule, whatever their bounding boxes and
    whatever the session exported in between, the two keys differ, and the
    two collision nodes refer to two different registered resources, each
    found in the table under the descriptor of its own object. *)
Theorem primitive_shapes_not_shared (export_settings : ExportSettings)
    (node1 node2 : BlObject) (rbd1 rbd2 : RigidBodyObject)
    (parent1 parent2 : NodeTemplate) (override1 override2 : option BlObject)
    (s0 s1 s1' s2 : Session) (col_node1 col_node2 : NodeTemplate) :
  rigid_body node1 = Some rbd1 ->
  rigid_body node2 = Some rbd2 ->
  In (collision_shape rbd1) ["BOX"; "SPHERE"; "CAPSULE"] ->
  In (collision_shape rbd2) ["BOX"; "SPHERE"; "CAPSULE"] ->
  as_pointer rbd1 <> as_pointer rbd2 ->
  export_collision_shape export_settings node1 parent1 override1 s0
    = Ok (col_node1, s1) ->
  table_grows s1 s1' ->
  ESCNFile_wf (escn_file s1') ->
  export_collision_shape export_settings node2 parent2 override2 s1'
    = Ok (col_node2, s2) ->
  Hashable_eq (KeyRigidBody rbd1) (KeyRigidBody rbd2) = false /\
  exists index1 index2,
    index1 <> index2 /\
    node_getitem col_node1 "shape"
      = Some (VStr (format_SubResource (Some index1))) /\
    node_getitem col_node2 "shape"
      = Some (VStr (format_SubResource (Some index2))) /\
    get_internal_resource (escn_file s2) (KeyRigidBody rbd1) = Some index1 /\
    get_internal_resource (escn_file s2) (KeyRigidBody rbd2) = Some index2 /\
    is_Some (resource_at (escn_file s2) index1) /\
    is_Some (resource_at (escn_file s2) index2).
Proof.
  intros Hrbd1 Hrbd2 Hkind1 Hkind2 Hdistinct Hrun1 Hgrows Hwf1 Hrun2.
  assert (Hkeys : Hashable_eq (KeyRigidBody rbd1) (KeyRigidBody rbd2) = false).
  { simpl. apply N.eqb_neq. exact Hdistinct. }
  destruct (export_collision_shape_primitive_served _ _ _ _ _ _ _ _
              Hrbd1 Hkind1 Hrun1) as (index1 & Hshape1 & Hserved1).
  destruct (export_collision_shape_primitive_served _ _ _ _ _ _ _ _
              Hrbd2 Hkind2 Hrun2) as (index2 & Hshape2 & Hserved2).
  assert (Hwf2 : ESCNFile_wf (escn_file s2))
    by exact (export_collision_shape_wf _ _ _ _ _ _ _ Hrun2 Hwf1).
  assert (Hget1 : get_internal_resource (escn_file s2) (KeyRigidBody rbd1)
                  = Some index1).
  { apply (table_grows_get s1' s2);
      [exact (export_collision_shape_grows _ _ _ _ _ _ _ Hrun2)|].
    apply (table_grows_get s1 s1' _ _ Hgrows).
    apply (served_get _ _ _ _ Hserved1). simpl. apply N.eqb_refl. }
  assert (Hget2 : get_internal_resource (escn_file s2) (KeyRigidBody rbd2)
                  = Some index2).
  { apply (served_get _ _ _ _ Hserved2). simpl. apply N.eqb_refl. }
  split; [exact Hkeys|]. exists index1, index2.
  repeat split; try assumption.
  - intros ->.
    destruct (get_internal_resource_In _ _ _ Hget1) as (stored1 & Hin1 & Hs1).
    destruct (get_internal_resource_In _ _ _ Hget2) as (stored2 & Hin2 & Hs2).
    assert (stored1 = stored2) as -> by (eapply ESCNFile_wf_one_entry; eassumption).
    rewrite Hashable_eq_sym in Hs1.
    rewrite (Hashable_eq_trans _ _ _ Hs1 Hs2) in Hkeys. discriminate.
  - apply resource_at_is_Some.
    exact (get_internal_resource_bound _ _ _ Hwf2 Hget1).
  - apply resource_at_is_Some.
    exact (get_internal_resource_bound _ _ _ Hwf2 Hget2).
Qed.

(** A generator that returns no id leaves the node without a shape. *)
Lemma export_collision_shape_no_shape (export_settings : ExportSettings)
    (node : BlObject) (parent_gd_node : NodeTemplate)
    (parent_override : option BlObject) (s : Session) (rbd : RigidBodyObject) :
  rigid_body node = Some rbd ->
  str_in (collision_shape rbd) ["CONVEX_HULL"; "MESH"] = true ->
  (if String.eqb (collision_shape rbd) "CONVEX_HULL"
   then generate_convex_shape export_settings node
   else generate_concave_shape export_settings node) s = Ok (None, s) ->
  exists col_node s',
    export_collision_shape export_settings node parent_gd_node parent_override s
      = Ok (col_node, s') /\
    internal_resources (escn_file s') = internal_resources (escn_file s) /\
    _internal_hashes (escn_file s') = _internal_hashes (escn_file s) /\
    warnings s' = warnings s /\
    node_getitem col_node "shape" = None /\
    nodes (escn_file s') = nodes (escn_file s) ++ [col_node].
Proof.
  intros Hrbd Hmesh Hgen. unfold export_collision_shape.
  rewrite (bind_eq _ _ _ _ _ (attr_Some _ _ s Hrbd)). rewrite Hmesh.
  unfold bind at 1. unfold bind at 1. rewrite Hgen.
  cbn. eexists _, _. split; [reflexivity|]. repeat split.
Qed.

(** C9, as the code has it: a convex-hull request that reaches the mesh
    converter and gets no mesh, and a concave-mesh request that reaches it
    and gets no mesh or a mesh without polygons, produce and register no
    resource; the collision-shape node is registered all the same, without
    a shape reference, and nothing is logged. *)
Theorem missing_mesh_geometry (export_settings : ExportSettings)
    (node : BlObject) (parent_gd_node : NodeTemplate)
    (parent_override : option BlObject) (s : Session) (rbd : RigidBodyObject) :
  rigid_body node = Some rbd ->
  (collision_shape rbd = "CONVEX_HULL" /\
   get_internal_resource (escn_file s)
     (shape_key "ConvexPolygonShape" node export_settings rbd) = None /\
   to_mesh node export_settings false false = None)
  \/
  (collision_shape rbd = "MESH" /\
   get_internal_resource (escn_file s)
     (shape_key "ConcavePolygonShape" node export_settings rbd) = None /\
   (to_mesh node export_settings false false = None \/
    exists mesh,
      to_mesh node export_settings false false = Some mesh /\
      polygons mesh = [])) ->
  exists col_node s',
    export_collision_shape export_settings node parent_gd_node parent_override s
      = Ok (col_node, s') /\
    internal_resources (escn_file s') = internal_resources (escn_file s) /\
    _internal_hashes (escn_file s') = _internal_hashes (escn_file s) /\
    warnings s' = warnings s /\
    node_getitem col_node "shape" = None /\
    nodes (escn_file s') = nodes (escn_file s) ++ [col_node].
Proof.
  intros Hrbd Hcase.
  apply (export_collision_shape_no_shape _ _ _ _ _ rbd Hrbd);
    destruct Hcase as [(Hkind & Hmiss & Hmesh) | (Hkind & Hmiss & Hmesh)];
    rewrite Hkind; try reflexivity;
    cbn [String.eqb Ascii.eqb Bool.eqb].
  - unfold generate_convex_shape.
    rewrite (MeshCollisionShapeKey_init_Ok "ConvexPolygonShape" _ _ _ Hrbd eq_refl).
    unfold bind at 1. unfold ret at 1. unfold bind at 1. rewrite call_eq.
    cbn [fst snd]. unfold shape_key in Hmiss. rewrite Hmiss, Hmesh.
    destruct s. reflexivity.
  - unfold generate_concave_shape.
    rewrite (MeshCollisionShapeKey_init_Ok "ConcavePolygonShape" _ _ _ Hrbd eq_refl).
    unfold bind at 1. unfold ret at 1. unfold bind at 1. rewrite call_eq.
    cbn [fst snd]. unfold shape_key in Hmiss. rewrite Hmiss.
    destruct Hmesh as [Hmesh | (mesh & Hmesh & Hpolygons)]; rewrite Hmesh;
      [|rewrite Hpolygons]; destruct s; reflexivity.
Qed.

(** ** Further properties of the converter *)

(** *** The hierarchy *)

Lemma ancestors_above (node r : BlObject) (below above : list BlObject) :
  ancestors node = below ++ r :: above -> above = ancestors r.
Proof.
  revert node. induction below as [|b below IH]; intros node Hsplit;
    rewrite ancestors_parent in Hsplit;
    destruct (parent node) as [p|]; try discriminate Hsplit;
    simpl in Hsplit; injection Hsplit as -> Hrest.
  - symmetry. exact Hrest.
  - exact (IH _ Hrest).
Qed.

Lemma fold_overwrite_default (chain : list BlObject) (acc : option BlObject) :
  fold_left overwrite chain acc =
  match fold_left overwrite chain None with
  | Some r => Some r
  | None => acc
  end.
Proof.
  revert acc. induction chain as [|a chain IH]; intros acc; simpl; [reflexivity|].
  rewrite (IH (overwrite acc a)), (IH (overwrite None a)).
  destruct (fold_left overwrite chain None); [reflexivity|].
  unfold overwrite. destruct (has_physics a); reflexivity.
Qed.

(** X2: the object that [get_physics_root] returns is an ancestor of the
    node, carries physics, and is itself a physics root. *)
Theorem physics_root_is_root (node r : BlObject) :
  get_physics_root node = Some r ->
  In r (ancestors node) /\ has_physics r = true /\ is_physics_root r = true /\
  get_physics_root r = None.
Proof.
  unfold get_physics_root at 1. rewrite get_physics_root_loop_fold.
  intros H. apply fold_overwrite_Some in H as [H | [_ H]]; [|discriminate H].
  destruct H as (below & above & Hsplit & Hr & Habove).
  assert (Hroot : get_physics_root r = None).
  { unfold get_physics_root. rewrite get_physics_root_loop_fold.
    rewrite <- (ancestors_above _ _ _ _ Hsplit).
    apply fold_overwrite_no_physics. exact Habove. }
  repeat split.
  - rewrite Hsplit. apply List.in_or_app. right. left. reflexivity.
  - exact Hr.
  - unfold is_physics_root. rewrite Hroot. reflexivity.
  - exact Hroot.
Qed.

(** X3: the physics root of a child follows from that of its parent: it is
    the parent's root when the parent has one, else the parent itself when
    it carries physics, else none.  All the objects below a physics root
    so share it. *)
Theorem physics_root_of_child (child node : BlObject) :
  parent child = Some node ->
  get_physics_root child =
  match get_physics_root node with
  | Some r => Some r
  | None => if has_physics node then Some node else None
  end.
Proof.
  intros Hparent. unfold get_physics_root.
  rewrite !get_physics_root_loop_fold.
  rewrite (ancestors_parent child), Hparent. simpl.
  rewrite fold_overwrite_default. unfold overwrite at 2.
  destruct (fold_left overwrite (ancestors node) None); reflexivity.
Qed.

(** *** Objects without a rigid body *)

(** X4: an object without a rigid body cannot be exported: the shape
    generators, the export of the collision shape, of the body node and of
    the physics properties all raise [AttributeError], whatever the
    hierarchy and the output nodes. *)
Theorem no_rigid_body_raises (export_settings : ExportSettings)
    (node : BlObject) (parent_gd_node : NodeTemplate)
    (parent_override : option BlObject) (s : Session) :
  rigid_body node = None ->
  generate_convex_shape export_settings node s = Raise AttributeError /\
  generate_concave_shape export_settings node s = Raise AttributeError /\
  export_collision_shape export_settings node parent_gd_node parent_override s
    = Raise AttributeError /\
  export_physics_controller export_settings node parent_gd_node s
    = Raise AttributeError /\
  export_physics_properties export_settings node parent_gd_node s
    = Raise AttributeError.
Proof.
  intros Hnone.
  assert (Hshape : forall gd override s0,
             export_collision_shape export_settings node gd override s0
             = Raise AttributeError).
  { intros gd override s0. unfold export_collision_shape, bind, attr, lift.
    rewrite Hnone. reflexivity. }
  assert (Hbody : export_physics_controller export_settings node parent_gd_node s
                  = Raise AttributeError).
  { unfold export_physics_controller, bind, attr, lift. rewrite Hnone. reflexivity. }
  repeat split.
  - unfold generate_convex_shape, MeshCollisionShapeKey_init, bind, lift.
    rewrite Hnone. reflexivity.
  - unfold generate_concave_shape, MeshCollisionShapeKey_init, bind, lift.
    rewrite Hnone. reflexivity.
  - apply Hshape.
  - exact Hbody.
  - unfold export_physics_properties.
    destruct (get_physics_root node) as [root|].
    + unfold bind at 1. unfold ret at 1. unfold bind at 1. unfold lift.
      destruct (closest_physics_node parent_gd_node) as [body|e] eqn:Hwalk.
      * apply Hshape.
      * rewrite closest_physics_node_find in Hwalk.
        destruct (List.find _ _); [discriminate Hwalk|].
        injection Hwalk as <-. reflexivity.
    + unfold bind at 1. rewrite Hbody. reflexivity.
Qed.

(** *** The order of Python floats *)

Lemma SFltb_before (x y : spec_float) :
  SFltb x y = true <->
  SFnumber x = true /\ SFnumber y = true /\ before (SFplace x) (SFplace y).
Proof.
  unfold SFltb, SFcompare.
  destruct x as [sx|sx| |sx mx ex], y as [sy|sy| |sy my ey];
    try destruct sx; try destruct sy; simpl;
    try (split; [intros _; repeat split; lia
                | intros (_ & _ & H); first [reflexivity | lia]]);
    try (split; [discriminate | intros (H1 & H2 & H); first [discriminate | lia]]).
  all: change (Pos.compare_cont Eq mx my) with (Pos.compare mx my);
    destruct (Z.compare_spec ex ey) as [He|He|He];
    destruct (Pos.compare_spec mx my) as [Hm|Hm|Hm]; simpl;
    (split; [try discriminate; intros _; repeat split; subst; lia
            | intros (_ & _ & H); subst; first [reflexivity | lia]]).
Qed.

Lemma is_number_SFnumber (x : float) :
  is_number x = true <-> SFnumber (Prim2SF x) = true.
Proof.
  unfold is_number. rewrite FloatAxioms.eqb_spec. unfold SFeqb, SFcompare.
  destruct (Prim2SF x) as [s|s| |s m e]; try destruct s; simpl;
    try (split; reflexivity); try (split; discriminate).
  all: rewrite Z.compare_refl;
    change (Pos.compare_cont Eq m m) with (Pos.compare m m);
    rewrite Pos.compare_refl; split; reflexivity.
Qed.

Lemma float_ltb_irrefl (x : float) : PrimFloat.ltb x x = false.
Proof.
  destruct (PrimFloat.ltb x x) eqn:H; [|reflexivity].
  rewrite ltb_spec in H. apply SFltb_before in H as (_ & _ & H).
  destruct (SFplace (Prim2SF x)) as [[c a] b]. simpl in H. lia.
Qed.

Lemma float_ltb_asym (x y : float) :
  PrimFloat.ltb x y = true -> PrimFloat.ltb y x = false.
Proof.
  intros H. destruct (PrimFloat.ltb y x) eqn:H'; [|reflexivity].
  rewrite ltb_spec in H, H'.
  apply SFltb_before in H as (_ & _ & H). apply SFltb_before in H' as (_ & _ & H').
  destruct (SFplace (Prim2SF x)) as [[c a] b], (SFplace (Prim2SF y)) as [[c' a'] b'].
  simpl in *. lia.
Qed.

(** With a number in the middle, "not less than" is transitive. *)
Lemma float_ltb_between (w m v : float) :
  is_number m = true ->
  PrimFloat.ltb w m = false -> PrimFloat.ltb m v = false ->
  PrimFloat.ltb w v = false.
Proof.
  intros Hm Hwm Hmv. destruct (PrimFloat.ltb w v) eqn:Hwv; [|reflexivity].
  apply is_number_SFnumber in Hm.
  rewrite ltb_spec in Hwm, Hmv, Hwv.
  apply SFltb_before in Hwv as (Hw & Hv & Hwv).
  assert (Hwm' : ~ before (SFplace (Prim2SF w)) (SFplace (Prim2SF m))).
  { intros H. rewrite (proj2 (SFltb_before _ _)) in Hwm; [discriminate|auto]. }
  assert (Hmv' : ~ before (SFplace (Prim2SF m)) (SFplace (Prim2SF v))).
  { intros H. rewrite (proj2 (SFltb_before _ _)) in Hmv; [discriminate|auto]. }
  destruct (SFplace (Prim2SF w)) as [[c1 a1] b1],
           (SFplace (Prim2SF m)) as [[c2 a2] b2],
           (SFplace (Prim2SF v)) as [[c3 a3] b3].
  simpl in *. lia.
Qed.

(** The running minimum of numbers is one of them and none is below it. *)
Lemma fold_py_min_spec (l : list float) :
  forall (a : float) (seen : list float),
    is_number a = true ->
    Forall (fun v => is_number v = true) l ->
    In a seen ->
    Forall (fun v => PrimFloat.ltb v a = false) seen ->
    let m := fold_left (fun m v => py_min v m) l a in
    In m (seen ++ l) /\
    Forall (fun v => PrimFloat.ltb v m = false) (seen ++ l).
Proof.
  induction l as [|v l IH]; intros a seen Ha Hl Hin Hseen; simpl.
  - rewrite app_nil_r. auto.
  - apply List.Forall_cons_iff in Hl as [Hv Hl].
    replace (seen ++ v :: l) with ((seen ++ [v]) ++ l)
      by (rewrite <- app_assoc; reflexivity).
    change (py_min v a) with (if PrimFloat.ltb a v then a else v).
    destruct (PrimFloat.ltb a v) eqn:Hav.
    + apply IH; try assumption.
      * apply List.in_or_app. auto.
      * apply Forall_app. split; [exact Hseen|].
        constructor; [exact (float_ltb_asym _ _ Hav) | constructor].
    + apply IH; try assumption.
      * apply List.in_or_app. right. left. reflexivity.
      * apply Forall_app. split.
        -- eapply List.Forall_impl; [|exact Hseen]. simpl. intros w Hw.
           exact (float_ltb_between w a v Ha Hw Hav).
        -- constructor; [apply float_ltb_irrefl | constructor].
Qed.

(** The running maximum of numbers is one of them and none is above it. *)
Lemma fold_py_max_spec (l : list float) :
  forall (a : float) (seen : list float),
    is_number a = true ->
    Forall (fun v => is_number v = true) l ->
    In a seen ->
    Forall (fun v => PrimFloat.ltb a v = false) seen ->
    let m := fold_left (fun m v => py_max v m) l a in
    In m (seen ++ l) /\
    Forall (fun v => PrimFloat.ltb m v = false) (seen ++ l).
Proof.
  induction l as [|v l IH]; intros a seen Ha Hl Hin Hseen; simpl.
  - rewrite app_nil_r. auto.
  - apply List.Forall_cons_iff in Hl as [Hv Hl].
    replace (seen ++ v :: l) with ((seen ++ [v]) ++ l)
      by (rewrite <- app_assoc; reflexivity).
    change (py_max v a) with (if PrimFloat.ltb v a then a else v).
    destruct (PrimFloat.ltb v a) eqn:Hva.
    + apply IH; try assumption.
      * apply List.in_or_app. auto.
      * apply Forall_app. split; [exact Hseen|].
        constructor; [exact (float_ltb_asym _ _ Hva) | constructor].
    + apply IH; try assumption.
      * apply List.in_or_app. right. left. reflexivity.
      * apply Forall_app. split.
        -- eapply List.Forall_impl; [|exact Hseen]. simpl. intros w Hw.
           exact (float_ltb_between v a w Ha Hva Hw).
        -- constructor; [apply float_ltb_irrefl | constructor].
Qed.

(** *** The bounding box *)

(** The loop of [get_extents] runs the six minima and maxima side by
    side. *)
Lemma get_extents_loop (vecs : list Vector.t) :
  forall mins maxs : Vector.t,
    fold_left
      (fun (acc : Vector.t * Vector.t) (vec : Vector.t) =>
         let (mins, maxs) := acc in
         (Vector.mk (py_min (Vector.x vec) (Vector.x mins))
                    (py_min (Vector.y vec) (Vector.y mins))
                    (py_min (Vector.z vec) (Vector.z mins)),
          Vector.mk (py_max (Vector.x vec) (Vector.x maxs))
                    (py_max (Vector.y vec) (Vector.y maxs))
                    (py_max (Vector.z vec) (Vector.z maxs))))
      vecs (mins, maxs)
    = (Vector.mk
         (fold_left (fun m v => py_min v m) (map Vector.x vecs) (Vector.x mins))
         (fold_left (fun m v => py_min v m) (map Vector.y vecs) (Vector.y mins))
         (fold_left (fun m v => py_min v m) (map Vector.z vecs) (Vector.z mins)),
       Vector.mk
         (fold_left (fun m v => py_max v m) (map Vector.x vecs) (Vector.x maxs))
         (fold_left (fun m v => py_max v m) (map Vector.y vecs) (Vector.y maxs))
         (fold_left (fun m v => py_max v m) (map Vector.z vecs) (Vector.z maxs))).
Proof.
  induction vecs as [|vec vecs IH]; intros mins maxs; simpl.
  - destruct mins, maxs. reflexivity.
  - rewrite IH. reflexivity.
Qed.

Lemma axis_numbers (axis : Vector.t -> float) (vecs : list Vector.t) :
  (forall v, no_nan v = true -> is_number (axis v) = true) ->
  Forall (fun v => no_nan v = true) vecs ->
  Forall (fun c => is_number c = true) (map axis vecs).
Proof.
  intros Haxis Hvecs. apply List.Forall_forall. intros c Hc.
  apply List.in_map_iff in Hc as (v & <- & Hv).
  rewrite List.Forall_forall in Hvecs. auto.
Qed.

(** X5: [get_extents] raises [IndexError] on an empty bounding box.  On
    corners without a NaN it returns [maxs - mins], where every corner lies
    between [mins] and [maxs] on each axis and each component of [mins] and
    of [maxs] is that of a corner. *)
Theorem get_extents_bounds (node : BlObject) :
  Forall (fun v => no_nan v = true) (bound_box node) ->
  match bound_box node with
  | [] => get_extents node = Raise IndexError
  | _ :: _ =>
      exists mins maxs,
        get_extents node = Ok (Vector_sub maxs mins) /\
        Forall (within mins maxs) (bound_box node) /\
        In (Vector.x mins) (map Vector.x (bound_box node)) /\
        In (Vector.y mins) (map Vector.y (bound_box node)) /\
        In (Vector.z mins) (map Vector.z (bound_box node)) /\
        In (Vector.x maxs) (map Vector.x (bound_box node)) /\
        In (Vector.y maxs) (map Vector.y (bound_box node)) /\
        In (Vector.z maxs) (map Vector.z (bound_box node))
  end.
Proof.
  intros Hnumbers. unfold get_extents.
  destruct (bound_box node) as [|v0 rest] eqn:Hbox; [reflexivity|].
  rewrite get_extents_loop.
  set (vecs := v0 :: rest) in *.
  assert (Hx : forall v, no_nan v = true -> is_number (Vector.x v) = true).
  { intros v H. unfold no_nan in H. rewrite !andb_true_iff in H. tauto. }
  assert (Hy : forall v, no_nan v = true -> is_number (Vector.y v) = true).
  { intros v H. unfold no_nan in H. rewrite !andb_true_iff in H. tauto. }
  assert (Hz : forall v, no_nan v = true -> is_number (Vector.z v) = true).
  { intros v H. unfold no_nan in H. rewrite !andb_true_iff in H. tauto. }
  assert (Hv0 : no_nan v0 = true).
  { rewrite List.Forall_forall in Hnumbers. apply Hnumbers. left. reflexivity. }
  assert (Hmin : forall axis,
             (forall v, no_nan v = true -> is_number (axis v) = true) ->
             let m := fold_left (fun m v => py_min v m) (map axis vecs) (axis v0) in
             In m (map axis vecs) /\
             Forall (fun v => PrimFloat.ltb (axis v) m = false) vecs).
  { intros axis Haxis.
    destruct (fold_py_min_spec (map axis vecs) (axis v0) [axis v0] (Haxis _ Hv0)
                (axis_numbers axis vecs Haxis Hnumbers)
                (or_introl eq_refl)
                ltac:(constructor; [apply float_ltb_irrefl | constructor]))
      as [Hin Hall].
    split.
    - destruct Hin as [<-|Hin]; [left; reflexivity | exact Hin].
    - apply List.Forall_cons_iff in Hall as [_ Hall].
      apply List.Forall_map in Hall. exact Hall. }
  assert (Hmax : forall axis,
             (forall v, no_nan v = true -> is_number (axis v) = true) ->
             let m := fold_left (fun m v => py_max v m) (map axis vecs) (axis v0) in
             In m (map axis vecs) /\
             Forall (fun v => PrimFloat.ltb m (axis v) = false) vecs).
  { intros axis Haxis.
    destruct (fold_py_max_spec (map axis vecs) (axis v0) [axis v0] (Haxis _ Hv0)
                (axis_numbers axis vecs Haxis Hnumbers)
                (or_introl eq_refl)
                ltac:(constructor; [apply float_ltb_irrefl | constructor]))
      as [Hin Hall].
    split.
    - destruct Hin as [<-|Hin]; [left; reflexivity | exact Hin].
    - apply List.Forall_cons_iff in Hall as [_ Hall].
      apply List.Forall_map in Hall. exact Hall. }
  destruct (Hmin Vector.x Hx) as [Hinx Hminx].
  destruct (Hmin Vector.y Hy) as [Hiny Hminy].
  destruct (Hmin Vector.z Hz) as [Hinz Hminz].
  destruct (Hmax Vector.x Hx) as [Hinx' Hmaxx].
  destruct (Hmax Vector.y Hy) as [Hiny' Hmaxy].
  destruct (Hmax Vector.z Hz) as [Hinz' Hmaxz].
  eexists _, _. split; [reflexivity|].
  split; [|cbn [Vector.x Vector.y Vector.z]; repeat split; assumption].
  apply List.Forall_forall. intros v Hv.
  rewrite List.Forall_forall in Hminx, Hminy, Hminz, Hmaxx, Hmaxy, Hmaxz.
  unfold within. cbn [Vector.x Vector.y Vector.z]. repeat split; auto.
Qed.

(** *** Primitive shapes *)

Lemma alter_last {A : Type} (f : A -> A) (l : list A) (a : A) :
  alter f (length l) (l ++ [a]) = l ++ [f a].
Proof.
  rewrite (alter_app_r_alt f l [a] (length l)) by lia.
  rewrite Nat.sub_diag. reflexivity.
Qed.

Lemma lookup_last {A : Type} (l : list A) (a : A) : (l ++ [a]) !! length l = Some a.
Proof. apply list_lookup_middle. reflexivity. Qed.

(** The export of a primitive shape for a descriptor that has no resource
    yet: the resource it registers, by kind of shape. *)
Lemma export_collision_shape_primitive_fresh (export_settings : ExportSettings)
    (node : BlObject) (parent_gd_node : NodeTemplate)
    (parent_override : option BlObject) (s : Session) (rbd : RigidBodyObject)
    (bounds : Vector.t) :
  rigid_body node = Some rbd ->
  In (collision_shape rbd) ["BOX"; "SPHERE"; "CAPSULE"] ->
  get_extents node = Ok bounds ->
  get_internal_resource (escn_file s) (KeyRigidBody rbd) = None ->
  exists col_node s' col_shape,
    export_collision_shape export_settings node parent_gd_node parent_override s
      = Ok (col_node, s') /\
    internal_resources (escn_file s')
      = internal_resources (escn_file s) ++ [col_shape] /\
    node_getitem col_node "shape"
      = Some (VStr (format_SubResource
                      (Some (S (length (internal_resources (escn_file s))))))) /\
    get_internal_resource (escn_file s') (KeyRigidBody rbd)
      = Some (S (length (internal_resources (escn_file s)))) /\
    resource_name col_shape = name node +:+ "Collision" /\
    resource_getitem col_shape "margin"
      = (if use_margin rbd then Some (VFloat (collision_margin rbd)) else None) /\
    (collision_shape rbd = "BOX" ->
     resource_type col_shape = "BoxShape" /\
     resource_getitem col_shape "extents"
       = Some (VVector (Vector_div bounds 2%float))) /\
    (collision_shape rbd = "SPHERE" ->
     resource_type col_shape = "SphereShape" /\
     resource_getitem col_shape "radius"
       = Some (VFloat (py_max (py_max (Vector.x bounds) (Vector.y bounds))
                         (Vector.z bounds) / 2)%float)).
Proof.
  intros Hrbd Hkind Hbounds Hfresh.
  assert (Hfound : forall escn',
             _internal_hashes escn'
             = _internal_hashes (escn_file s)
               ++ [(KeyRigidBody rbd, S (length (internal_resources (escn_file s))))] ->
             get_internal_resource escn' (KeyRigidBody rbd)
             = Some (S (length (internal_resources (escn_file s))))).
  { intros escn' Hhashes. unfold get_internal_resource in *. rewrite Hhashes.
    rewrite find_snoc. destruct (List.find _ _); [discriminate Hfresh|].
    cbn. rewrite N.eqb_refl. reflexivity. }
  unfold export_collision_shape.
  rewrite (bind_eq _ _ _ _ _ (attr_Some _ _ s Hrbd)).
  unfold primitive_shape.
  destruct Hkind as [Hkind|[Hkind|[Hkind|[]]]]; rewrite <- Hkind;
    cbn [str_in existsb String.eqb Ascii.eqb Bool.eqb orb];
    unfold bind at 1; unfold bind at 1; unfold lift at 1; rewrite Hbounds;
    repeat (unfold bind at 1); cbn [Vector.to_list py_max_list lift];
    rewrite call_eq; rewrite (add_internal_resource_miss _ _ _ Hfresh);
    cbn [fst snd ret];
    destruct (use_margin rbd); cbn -[alter app length];
    eexists _, _, _; (split; [reflexivity|]);
    (split; [cbn -[alter app length]; rewrite ?alter_last; reflexivity|]);
    (split; [unfold node_getitem; cbn; apply lookup_insert_eq|]);
    (split; [apply Hfound; reflexivity|]);
    (split; [reflexivity|]);
    (split; [unfold resource_getitem; cbn; reflexivity|]);
    split; intros Habs; try discriminate Habs;
    (split; [reflexivity|]);
    unfold resource_getitem; cbn;
    repeat (rewrite lookup_insert_ne by discriminate); apply lookup_insert_eq.
Qed.

(** X6: a box shape.  For an object with a box shape and no resource
    registered for its descriptor yet, the export registers one new
    [BoxShape], named after the collision node, whose extents are half the
    extents of the bounding box, and attaches it to the node. *)
Theorem box_shape_extents (export_settings : ExportSettings)
    (node : BlObject) (parent_gd_node : NodeTemplate)
    (parent_override : option BlObject) (s : Session) (rbd : RigidBodyObject)
    (bounds : Vector.t) :
  rigid_body node = Some rbd ->
  collision_shape rbd = "BOX" ->
  get_extents node = Ok bounds ->
  get_internal_resource (escn_file s) (KeyRigidBody rbd) = None ->
  exists col_node s' col_shape,
    export_collision_shape export_settings node parent_gd_node parent_override s
      = Ok (col_node, s') /\
    internal_resources (escn_file s')
      = internal_resources (escn_file s) ++ [col_shape] /\
    node_getitem col_node "shape"
      = Some (VStr (format_SubResource
                      (Some (length (internal_resources (escn_file s'))))))  /\
    resource_type col_shape = "BoxShape" /\
    resource_name col_shape = name node +:+ "Collision" /\
    resource_getitem col_shape "extents"
      = Some (VVector (Vector_div bounds 2%float)).
Proof.
  intros Hrbd Hkind Hbounds Hfresh.
  destruct (export_collision_shape_primitive_fresh export_settings node
              parent_gd_node parent_override s rbd bounds Hrbd
              ltac:(rewrite Hkind; simpl; auto) Hbounds Hfresh)
    as (col_node & s' & col_shape & Hrun & Hres & Hshape & _ & Hname & _ & Hbox & _).
  destruct (Hbox Hkind) as [Htype Hextents].
  exists col_node, s', col_shape. repeat split; try assumption.
  rewrite Hres, length_app. simpl. rewrite Nat.add_1_r. exact Hshape.
Qed.

(** X7: a sphere shape.  Its radius is half the largest of the three
    extents of the bounding box, the largest as Python's [max] finds it. *)
Theorem sphere_shape_radius (export_settings : ExportSettings)
    (node : BlObject) (parent_gd_node : NodeTemplate)
    (parent_override : option BlObject) (s : Session) (rbd : RigidBodyObject)
    (bounds : Vector.t) :
  rigid_body node = Some rbd ->
  collision_shape rbd = "SPHERE" ->
  get_extents node = Ok bounds ->
  get_internal_resource (escn_file s) (KeyRigidBody rbd) = None ->
  exists col_node s' col_shape,
    export_collision_shape export_settings node parent_gd_node parent_override s
      = Ok (col_node, s') /\
    internal_resources (escn_file s')
      = internal_resources (escn_file s) ++ [col_shape] /\
    node_getitem col_node "shape"
      = Some (VStr (format_SubResource
                      (Some (length (internal_resources (escn_file s'))))))  /\
    resource_type col_shape = "SphereShape" /\
    resource_getitem col_shape "radius"
      = Some (VFloat (py_max (py_max (Vector.x bounds) (Vector.y bounds))
                        (Vector.z bounds) / 2)%float).
Proof.
  intros Hrbd Hkind Hbounds Hfresh.
  destruct (export_collision_shape_primitive_fresh export_settings node
              parent_gd_node parent_override s rbd bounds Hrbd
              ltac:(rewrite Hkind; simpl; auto) Hbounds Hfresh)
    as (col_node & s' & col_shape & Hrun & Hres & Hshape & _ & _ & _ & _ & Hsphere).
  destruct (Hsphere Hkind) as [Htype Hradius].
  exists col_node, s', col_shape. repeat split; try assumption.
  rewrite Hres, length_app. simpl. rewrite Nat.add_1_r. exact Hshape.
Qed.

(** X8: the margin of a primitive shape.  The margin is assigned after the
    resource has been registered, and the registered resource has it: the
    resource of a box, sphere or capsule carries the collision margin of
    the descriptor when the descriptor uses its margin, and no margin
    otherwise. *)
Theorem primitive_shape_margin (export_settings : ExportSettings)
    (node : BlObject) (parent_gd_node : NodeTemplate)
    (parent_override : option BlObject) (s : Session) (rbd : RigidBodyObject) :
  rigid_body node = Some rbd ->
  In (collision_shape rbd) ["BOX"; "SPHERE"; "CAPSULE"] ->
  bound_box node <> [] ->
  get_internal_resource (escn_file s) (KeyRigidBody rbd) = None ->
  exists col_node s' rid col_shape,
    export_collision_shape export_settings node parent_gd_node parent_override s
      = Ok (col_node, s') /\
    get_internal_resource (escn_file s') (KeyRigidBody rbd) = Some rid /\
    resource_at (escn_file s') rid = Some col_shape /\
    resource_getitem col_shape "margin"
      = (if use_margin rbd then Some (VFloat (collision_margin rbd)) else None).
Proof.
  intros Hrbd Hkind Hbox Hfresh.
  destruct (get_extents_Ok node Hbox) as [bounds Hbounds].
  destruct (export_collision_shape_primitive_fresh export_settings node
              parent_gd_node parent_override s rbd bounds Hrbd Hkind Hbounds Hfresh)
    as (col_node & s' & col_shape & Hrun & Hres & _ & Hget & _ & Hmargin & _).
  exists col_node, s', (S (length (internal_resources (escn_file s)))), col_shape.
  repeat split; try assumption.
  simpl. rewrite Hres. apply lookup_last.
Qed.

(** *** Mesh-derived shapes *)

Lemma concave_vert_array_Ok (mesh : Mesh) (triangles : list (nat * nat * nat)) :
  forall vert_array,
    concave_vert_array mesh triangles = Ok vert_array ->
    map Some vert_array = flat_map (reversed_corners mesh) triangles.
Proof.
  induction triangles as [|[[a b] c] rest IH]; intros vert_array; simpl.
  - intros [= <-]. reflexivity.
  - destruct (vertices mesh !! c) as [vc|]; [|discriminate].
    destruct (vertices mesh !! b) as [vb|]; [|discriminate].
    destruct (vertices mesh !! a) as [va|]; [|discriminate].
    destruct (concave_vert_array mesh rest) as [l|]; [|discriminate].
    intros [= <-]. simpl. rewrite (IH l eq_refl). reflexivity.
Qed.

Lemma concave_vert_array_in_range (mesh : Mesh)
    (triangles : list (nat * nat * nat)) :
  Forall (triangle_in_range (length (vertices mesh))) triangles ->
  exists vert_array,
    concave_vert_array mesh triangles = Ok vert_array /\
    length vert_array = 3 * length triangles.
Proof.
  induction 1 as [|[[a b] c] rest (Ha & Hb & Hc) _ (l & Hl & Hlen)]; simpl.
  - exists []. auto.
  - destruct (lookup_lt_is_Some_2 (vertices mesh) c Hc) as [vc ->].
    destruct (lookup_lt_is_Some_2 (vertices mesh) b Hb) as [vb ->].
    destruct (lookup_lt_is_Some_2 (vertices mesh) a Ha) as [va ->].
    rewrite Hl. eexists. split; [reflexivity|]. simpl. lia.
Qed.

Lemma concave_vert_array_out_of_range (mesh : Mesh)
    (triangles : list (nat * nat * nat)) :
  Exists (fun tri => ~ triangle_in_range (length (vertices mesh)) tri) triangles ->
  concave_vert_array mesh triangles = Raise IndexError.
Proof.
  induction triangles as [|[[a b] c] rest IH]; intros Hbad;
    [inversion Hbad|].
  simpl.
  destruct (vertices mesh !! c) as [vc|] eqn:Hc; [|reflexivity].
  destruct (vertices mesh !! b) as [vb|] eqn:Hb; [|reflexivity].
  destruct (vertices mesh !! a) as [va|] eqn:Ha; [|reflexivity].
  apply List.Exists_cons in Hbad as [Hbad|Hbad].
  - exfalso. apply Hbad. simpl.
    apply lookup_lt_Some in Ha, Hb, Hc. auto.
  - rewrite (IH Hbad). reflexivity.
Qed.

(** X9: a convex shape built anew.  When the key of the object is not in
    the table and the converter has a mesh, [generate_convex_shape]
    registers one [ConvexPolygonShape] under the key: it is named after the
    mesh, its points are the positions of all the vertices of the mesh in
    their order, and it carries the margin exactly when the descriptor uses
    its margin.  The id returned is that of the new resource; nodes and log
    stay as they are. *)
Theorem convex_shape_content (export_settings : ExportSettings)
    (bl_object : BlObject) (rbd : RigidBodyObject) (s : Session) (mesh : Mesh) :
  rigid_body bl_object = Some rbd ->
  get_internal_resource (escn_file s)
    (shape_key "ConvexPolygonShape" bl_object export_settings rbd) = None ->
  to_mesh bl_object export_settings false false = Some mesh ->
  exists col_shape s',
    generate_convex_shape export_settings bl_object s
      = Ok (Some (S (length (internal_resources (escn_file s)))), s') /\
    internal_resources (escn_file s')
      = internal_resources (escn_file s) ++ [col_shape] /\
    _internal_hashes (escn_file s')
      = _internal_hashes (escn_file s)
        ++ [(shape_key "ConvexPolygonShape" bl_object export_settings rbd,
             S (length (internal_resources (escn_file s))))] /\
    nodes (escn_file s') = nodes (escn_file s) /\
    warnings s' = warnings s /\
    resource_type col_shape = "ConvexPolygonShape" /\
    resource_name col_shape = mesh_name mesh /\
    resource_getitem col_shape "points"
      = Some (VArray {| array_prefix := "PoolVector3Array(";
                        array_values := vertices mesh |}) /\
    resource_getitem col_shape "margin"
      = (if use_margin rbd then Some (VFloat (collision_margin rbd)) else None).
Proof.
  intros Hrbd Hmiss Hmesh. unfold generate_convex_shape.
  rewrite (MeshCollisionShapeKey_init_Ok "ConvexPolygonShape" _ _ _ Hrbd eq_refl).
  unfold bind at 1. unfold ret at 1. unfold bind at 1. rewrite call_eq.
  cbn [fst snd]. unfold shape_key in *. rewrite Hmiss, Hmesh.
  rewrite (bind_eq _ _ _ _ _ (attr_Some _ _ _ Hrbd)).
  unfold bind. rewrite call_eq. cbn [escn_file warnings].
  rewrite (add_internal_resource_miss _ _ _ Hmiss). cbn [fst snd ret].
  destruct (use_margin rbd); eexists _, _; (split; [reflexivity|]);
    repeat split.
Qed.

(** X10: a concave shape built anew.  When the key is not in the table,
    the mesh has polygons and the indices of its triangles are in range,
    [generate_concave_shape] registers one [ConcavePolygonShape] under the
    key.  Its data hold three positions for each triangle, in the order of
    the triangles, each triangle with its corners reversed. *)
Theorem concave_shape_content (export_settings : ExportSettings)
    (bl_object : BlObject) (rbd : RigidBodyObject) (s : Session) (mesh : Mesh) :
  rigid_body bl_object = Some rbd ->
  get_internal_resource (escn_file s)
    (shape_key "ConcavePolygonShape" bl_object export_settings rbd) = None ->
  to_mesh bl_object export_settings false false = Some mesh ->
  polygons mesh <> [] ->
  Forall (triangle_in_range (length (vertices mesh))) (loop_triangles mesh) ->
  exists col_shape s' vert_array,
    generate_concave_shape export_settings bl_object s
      = Ok (Some (S (length (internal_resources (escn_file s)))), s') /\
    internal_resources (escn_file s')
      = internal_resources (escn_file s) ++ [col_shape] /\
    _internal_hashes (escn_file s')
      = _internal_hashes (escn_file s)
        ++ [(shape_key "ConcavePolygonShape" bl_object export_settings rbd,
             S (length (internal_resources (escn_file s))))] /\
    resource_type col_shape = "ConcavePolygonShape" /\
    resource_name col_shape = mesh_name mesh /\
    resource_getitem col_shape "data"
      = Some (VArray {| array_prefix := "PoolVector3Array(";
                        array_values := vert_array |}) /\
    map Some vert_array
      = flat_map (reversed_corners mesh) (loop_triangles mesh) /\
    length vert_array = 3 * length (loop_triangles mesh) /\
    resource_getitem col_shape "margin"
      = (if use_margin rbd then Some (VFloat (collision_margin rbd)) else None).
Proof.
  intros Hrbd Hmiss Hmesh Hpolygons Hrange.
  destruct (concave_vert_array_in_range mesh _ Hrange) as (vert_array & Harray & Hlen).
  pose proof (concave_vert_array_Ok mesh _ _ Harray) as Hcorners.
  unfold generate_concave_shape.
  rewrite (MeshCollisionShapeKey_init_Ok "ConcavePolygonShape" _ _ _ Hrbd eq_refl).
  unfold bind at 1. unfold ret at 1. unfold bind at 1. rewrite call_eq.
  cbn [fst snd]. unfold shape_key in *. rewrite Hmiss, Hmesh.
  destruct (polygons mesh) as [|polygon rest]; [congruence|].
  unfold bind at 1. unfold lift at 1. rewrite Harray.
  rewrite (bind_eq _ _ _ _ _ (attr_Some _ _ _ Hrbd)).
  unfold bind. rewrite call_eq. cbn [escn_file warnings].
  rewrite (add_internal_resource_miss _ _ _ Hmiss). cbn [fst snd ret].
  destruct (use_margin rbd); eexists _, _, vert_array; (split; [reflexivity|]);
    repeat split; assumption.
Qed.

(** X11: a triangle that names a vertex the mesh does not have.  When the
    key is not in the table and the mesh has polygons,
    [generate_concave_shape] raises [IndexError] as soon as one index of
    one triangle is out of range. *)
Theorem concave_shape_index_error (export_settings : ExportSettings)
    (bl_object : BlObject) (rbd : RigidBodyObject) (s : Session) (mesh : Mesh) :
  rigid_body bl_object = Some rbd ->
  get_internal_resource (escn_file s)
    (shape_key "ConcavePolygonShape" bl_object export_settings rbd) = None ->
  to_mesh bl_object export_settings false false = Some mesh ->
  polygons mesh <> [] ->
  Exists (fun tri => ~ triangle_in_range (length (vertices mesh)) tri)
    (loop_triangles mesh) ->
  generate_concave_shape export_settings bl_object s = Raise IndexError.
Proof.
  intros Hrbd Hmiss Hmesh Hpolygons Hbad.
  unfold generate_concave_shape.
  rewrite (MeshCollisionShapeKey_init_Ok "ConcavePolygonShape" _ _ _ Hrbd eq_refl).
  unfold bind at 1. unfold ret at 1. unfold bind at 1. rewrite call_eq.
  cbn [fst snd]. unfold shape_key in *. rewrite Hmiss, Hmesh.
  destruct (polygons mesh) as [|polygon rest]; [congruence|].
  unfold bind at 1. unfold lift at 1.
  rewrite (concave_vert_array_out_of_range mesh _ Hbad). reflexivity.
Qed.

(** *** The body node *)

(** X12: the physics material of a body.  A body that is not kinematic gets
    a new [PhysicsMaterial] with the friction and the restitution of the
    descriptor, registered under no key and referred to by the node; a
    kinematic body gets none and registers no resource.  The table of keys
    is never touched. *)
Theorem physics_controller_material (export_settings : ExportSettings)
    (node : BlObject) (parent_gd_node : NodeTemplate) (rbd : RigidBodyObject)
    (s : Session) :
  rigid_body node = Some rbd ->
  exists phys_obj s',
    export_physics_controller export_settings node parent_gd_node s
      = Ok (phys_obj, s') /\
    _internal_hashes (escn_file s') = _internal_hashes (escn_file s) /\
    (get_type phys_obj = "KinematicBody" ->
     internal_resources (escn_file s') = internal_resources (escn_file s) /\
     node_getitem phys_obj "physics_material_override" = None) /\
    (get_type phys_obj <> "KinematicBody" ->
     exists physics_mat,
       internal_resources (escn_file s')
         = internal_resources (escn_file s) ++ [physics_mat] /\
       resource_type physics_mat = "PhysicsMaterial" /\
       resource_name physics_mat = name node +:+ "PhysicsMaterial" /\
       resource_getitem physics_mat "friction" = Some (VFloat (friction rbd)) /\
       resource_getitem physics_mat "bounce" = Some (VFloat (restitution rbd)) /\
       node_getitem phys_obj "physics_material_override"
         = Some (VStr (format_SubResource
                         (Some (length (internal_resources (escn_file s'))))))).
Proof.
  intros Hrbd. unfold export_physics_controller.
  rewrite (bind_eq _ _ _ _ _ (attr_Some _ _ s Hrbd)).
  destruct (String.eqb (type rbd) "ACTIVE"), (kinematic rbd);
    cbn -[app length format_SubResource];
    eexists _, _; (split; [reflexivity|]); (split; [reflexivity|]);
    cbn -[app length format_SubResource];
    (split; [intros Hkin; try discriminate Hkin; split; reflexivity|]);
    intros Hkin; try (exfalso; apply Hkin; reflexivity);
    eexists; (split; [reflexivity|]); repeat (split; [reflexivity|]);
    unfold node_getitem; cbn -[app length format_SubResource];
    rewrite length_app, Nat.add_1_r;
    repeat (rewrite lookup_insert_ne by discriminate); apply lookup_insert_eq.
Qed.

(** X13: sleep and damping.  Only a [RigidBody] node carries [can_sleep],
    [linear_damp], [angular_damp] and [sleeping], copied from the
    descriptor; a static or kinematic body has none of the four. *)
Theorem physics_controller_rigid_body_only (export_settings : ExportSettings)
    (node : BlObject) (parent_gd_node : NodeTemplate) (rbd : RigidBodyObject)
    (s : Session) :
  rigid_body node = Some rbd ->
  exists phys_obj s',
    export_physics_controller export_settings node parent_gd_node s
      = Ok (phys_obj, s') /\
    (get_type phys_obj = "RigidBody" ->
     node_getitem phys_obj "can_sleep" = Some (VBool (use_deactivation rbd)) /\
     node_getitem phys_obj "linear_damp" = Some (VFloat (linear_damping rbd)) /\
     node_getitem phys_obj "angular_damp" = Some (VFloat (angular_damping rbd)) /\
     node_getitem phys_obj "sleeping" = Some (VBool (use_start_deactivated rbd))) /\
    (get_type phys_obj <> "RigidBody" ->
     node_getitem phys_obj "can_sleep" = None /\
     node_getitem phys_obj "linear_damp" = None /\
     node_getitem phys_obj "angular_damp" = None /\
     node_getitem phys_obj "sleeping" = None).
Proof.
  intros Hrbd. unfold export_physics_controller.
  rewrite (bind_eq _ _ _ _ _ (attr_Some _ _ s Hrbd)).
  destruct (String.eqb (type rbd) "ACTIVE"), (kinematic rbd); cbn;
    eexists _, _; (split; [reflexivity|]); cbn;
    (split; [intros Hrigid; try discriminate Hrigid
            |intros Hrigid; try (exfalso; apply Hrigid; reflexivity)]);
    unfold node_getitem; cbn; repeat split.
Qed.

Lemma bits_value_bound (flags : list bool) :
  (0 <= bits_value flags < 2 ^ Z.of_nat (length flags))%Z.
Proof.
  induction flags as [|flag rest IH]; simpl bits_value.
  - simpl. lia.
  - rewrite length_cons, Nat2Z.inj_succ, Z.pow_succ_r by lia.
    destruct flag; simpl Z.b2z; lia.
Qed.

Lemma bits_value_zero (flags : list bool) :
  bits_value flags = 0%Z <-> Forall (fun flag => flag = false) flags.
Proof.
  induction flags as [|flag rest IH]; simpl bits_value.
  - split; [constructor | reflexivity].
  - pose proof (bits_value_bound rest) as Hbound.
    rewrite List.Forall_cons_iff, <- IH.
    destruct flag; simpl Z.b2z; split; intros H;
      first [ lia
            | destruct H as [H _]; discriminate H
            | split; [reflexivity | lia] ].
Qed.

(** X14: the range of the collision layers.  The mask of [n] collision
    collections is at least 0 and less than [2 ^ n]; it is 0 exactly when
    no collection is enabled. *)
Theorem collision_groups_range (flags : list bool) :
  (0 <= collision_groups flags < 2 ^ Z.of_nat (length flags))%Z /\
  (collision_groups flags = 0%Z <-> Forall (fun flag => flag = false) flags).
Proof.
  rewrite collision_groups_bits. split.
  - apply bits_value_bound.
  - apply bits_value_zero.
Qed.

(** *** Keys *)

(** X15: the equality of the keys of mesh-derived shapes is symmetric and
    transitive, and a key whose margin is not a NaN is equal to itself: on
    such keys it is an equivalence, as a table of keys needs. *)
Theorem MeshCollisionShapeKey_eq_equivalence :
  (forall a b, MeshCollisionShapeKey_eq a b = MeshCollisionShapeKey_eq b a) /\
  (forall a b c,
      MeshCollisionShapeKey_eq a b = true ->
      MeshCollisionShapeKey_eq b c = true ->
      MeshCollisionShapeKey_eq a c = true) /\
  (forall a, is_number (fst (_data a)) = true ->
             MeshCollisionShapeKey_eq a a = true).
Proof.
  repeat split.
  - intros a b.
    exact (Hashable_eq_sym (KeyMeshCollisionShape a) (KeyMeshCollisionShape b)).
  - intros a b c.
    exact (Hashable_eq_trans (KeyMeshCollisionShape a) (KeyMeshCollisionShape b)
             (KeyMeshCollisionShape c)).
  - intros a Hnumber. unfold MeshCollisionShapeKey_eq. unfold is_number in Hnumber.
    rewrite Hnumber. exact (proj2 (MeshResourceKey_eq_iff _ _) eq_refl).
Qed.

(** *** The orchestrator *)

Lemma export_physics_controller_returns (export_settings : ExportSettings)
    (node : BlObject) (parent_gd_node : NodeTemplate) (s s' : Session)
    (phys_obj : NodeTemplate) :
  export_physics_controller export_settings node parent_gd_node s
    = Ok (phys_obj, s') ->
  exists rbd,
    rigid_body node = Some rbd /\
    is_physics_node phys_obj = true /\
    get_parent phys_obj = Some parent_gd_node /\
    node_getitem phys_obj "transform" = Some (VMatrix (matrix_local node)) /\
    nodes (escn_file s') = nodes (escn_file s) ++ [phys_obj] /\
    warnings s' = warnings s.
Proof.
  intros Hrun. destruct (rigid_body node) as [rbd|] eqn:Hrbd.
  - exists rbd. split; [reflexivity|].
    destruct (export_physics_controller_spec export_settings node parent_gd_node
                rbd s Hrbd)
      as (obj & s1 & Hspec & Htype & Hparent & Htransform & _ & _ & Hnodes & _ & Hlog).
    rewrite Hspec in Hrun. injection Hrun as <- <-.
    repeat split; try assumption.
    unfold is_physics_node. rewrite Htype.
    destruct (String.eqb (type rbd) "ACTIVE"), (kinematic rbd); reflexivity.
  - unfold export_physics_controller, bind, attr, lift in Hrun.
    rewrite Hrbd in Hrun. discriminate Hrun.
Qed.

(** X16: the export of a physics root.  For an object that is its own
    physics root, a run of [export_physics_properties] that returns has
    registered two nodes, the body and then the collision shape; the body
    hangs below the given parent with the local matrix of the object as
    transform, and the collision shape hangs directly below the body. *)
Theorem export_of_physics_root (export_settings : ExportSettings)
    (node : BlObject) (parent_gd_node : NodeTemplate) (s s' : Session)
    (col_node : NodeTemplate) :
  get_physics_root node = None ->
  export_physics_properties export_settings node parent_gd_node s
    = Ok (col_node, s') ->
  exists phys_obj,
    nodes (escn_file s') = nodes (escn_file s) ++ [phys_obj; col_node] /\
    get_parent col_node = Some phys_obj /\
    is_physics_node phys_obj = true /\
    get_parent phys_obj = Some parent_gd_node /\
    node_getitem phys_obj "transform" = Some (VMatrix (matrix_local node)).
Proof.
  intros Hroot. unfold export_physics_properties. rewrite Hroot. intros H.
  apply bind_Ok in H as (phys_obj & s1 & Hbody & H).
  apply bind_Ok in H as (body & s2 & Hwalk & H).
  apply export_physics_controller_returns in Hbody
    as (rbd & _ & Hphysics & Hparent & Htransform & Hnodes & _).
  rewrite closest_physics_node_unfold in Hwalk.
  unfold is_physics_node in Hphysics. rewrite Hphysics in Hwalk.
  injection Hwalk as <- <-.
  apply export_collision_shape_node in H as (_ & _ & Hcol & _ & Hnodes').
  exists phys_obj. repeat split; try assumption.
  rewrite Hnodes', Hnodes, <- app_assoc. reflexivity.
Qed.

(** X17: the export of an object below a physics root.  A run that returns
    has registered the collision shape and nothing else; the shape hangs
    below the nearest node of a physics type on the way up from the given
    parent, that parent included. *)
Theorem export_below_physics_root (export_settings : ExportSettings)
    (node root : BlObject) (parent_gd_node : NodeTemplate) (s s' : Session)
    (col_node : NodeTemplate) :
  get_physics_root node = Some root ->
  export_physics_properties export_settings node parent_gd_node s
    = Ok (col_node, s') ->
  exists below body above,
    gd_chain parent_gd_node = below ++ body :: above /\
    Forall (fun g => is_physics_node g = false) below /\
    is_physics_node body = true /\
    get_parent col_node = Some body /\
    nodes (escn_file s') = nodes (escn_file s) ++ [col_node].
Proof.
  intros Hroot. unfold export_physics_properties. rewrite Hroot. intros H.
  apply bind_Ok in H as (gd & s1 & Hret & H). injection Hret as <- <-.
  apply bind_Ok in H as (body & s2 & Hwalk & H).
  unfold lift in Hwalk. rewrite closest_physics_node_find in Hwalk.
  destruct (List.find is_physics_node (gd_chain parent_gd_node)) as [found|] eqn:Hfind;
    [|discriminate Hwalk].
  injection Hwalk as <- <-.
  destruct (find_first _ _ _ Hfind) as (below & above & Hsplit & Hbelow & Hbody).
  apply export_collision_shape_node in H as (_ & _ & Hcol & _ & Hnodes).
  exists below, found, above. auto.
Qed.

(** *** What an export logs *)

#[local] Instance same_log_frame : Frame same_log.
Proof. split; unfold same_log; [reflexivity | intros; congruence]. Qed.

Lemma generate_convex_shape_log (export_settings : ExportSettings)
    (bl_object : BlObject) :
  preserves same_log (generate_convex_shape export_settings bl_object).
Proof. unfold generate_convex_shape. frame_steps; reflexivity. Qed.

Lemma generate_concave_shape_log (export_settings : ExportSettings)
    (bl_object : BlObject) :
  preserves same_log (generate_concave_shape export_settings bl_object).
Proof. unfold generate_concave_shape. frame_steps; reflexivity. Qed.

Lemma primitive_shape_log (node : BlObject) (rbd : RigidBodyObject)
    (col_name : string) (bounds : Vector.t) :
  In (collision_shape rbd) ["BOX"; "SPHERE"; "CAPSULE"] ->
  preserves same_log (primitive_shape node rbd col_name bounds).
Proof.
  intros Hkind. unfold primitive_shape.
  destruct Hkind as [<-|[<-|[<-|[]]]];
    cbn [String.eqb Ascii.eqb Bool.eqb]; frame_steps; reflexivity.
Qed.

Lemma primitive_shape_unsupported (node : BlObject) (rbd : RigidBodyObject)
    (col_name : string) (bounds : Vector.t) (s : Session) :
  ~ In (collision_shape rbd) ["BOX"; "SPHERE"; "CAPSULE"] ->
  primitive_shape node rbd col_name bounds s
  = Ok ((None, None),
        {| escn_file := escn_file s;
           warnings :=
             warnings s ++ ["Unable to export physics shape for " +:+ name node] |}).
Proof.
  intros Hkind.
  assert (Hneq : forall kind,
             In kind ["BOX"; "SPHERE"; "CAPSULE"] ->
             String.eqb (collision_shape rbd) kind = false).
  { intros kind Hin. apply String.eqb_neq. intros Heq. apply Hkind.
    rewrite Heq. exact Hin. }
  unfold primitive_shape.
  rewrite (Hneq "BOX"), (Hneq "SPHERE"), (Hneq "CAPSULE") by (simpl; tauto).
  reflexivity.
Qed.

Lemma primitive_kind_dec (kind : string) :
  {In kind ["BOX"; "SPHERE"; "CAPSULE"] } + {~ In kind ["BOX"; "SPHERE"; "CAPSULE"] }.
Proof. apply List.in_dec. apply String.string_dec. Qed.

Lemma mesh_kind_supported (kind : string) :
  str_in kind ["CONVEX_HULL"; "MESH"] = true -> str_in kind SUPPORTED_SHAPES = true.
Proof.
  unfold str_in, SUPPORTED_SHAPES. simpl.
  destruct (String.eqb kind "CONVEX_HULL"), (String.eqb kind "MESH");
    rewrite ?orb_true_r; try reflexivity. discriminate.
Qed.

Lemma primitive_kind_supported (kind : string) :
  str_in kind ["CONVEX_HULL"; "MESH"] = false ->
  str_in kind SUPPORTED_SHAPES = true <-> In kind ["BOX"; "SPHERE"; "CAPSULE"].
Proof.
  unfold str_in, SUPPORTED_SHAPES. simpl. intros Hmesh.
  apply orb_false_elim in Hmesh as [Hconvex Hmesh].
  apply orb_false_elim in Hmesh as [Hmesh _].
  rewrite Hconvex, Hmesh. rewrite !orb_false_r.
  rewrite !orb_true_iff, !String.eqb_eq. intuition congruence.
Qed.

(** The steps of [export_collision_shape] once the rigid body is read. *)
Lemma export_collision_shape_steps (export_settings : ExportSettings)
    (node : BlObject) (parent_gd_node : NodeTemplate)
    (parent_override : option BlObject) (s s' : Session)
    (col_node : NodeTemplate) :
  export_collision_shape export_settings node parent_gd_node parent_override s
    = Ok (col_node, s') ->
  exists rbd s1,
    rigid_body node = Some rbd /\
    s' = {| escn_file := add_node (escn_file s1) col_node; warnings := warnings s1 |} /\
    ((str_in (collision_shape rbd) ["CONVEX_HULL"; "MESH"] = true /\
      exists shape_id,
        (if String.eqb (collision_shape rbd) "CONVEX_HULL"
         then generate_convex_shape export_settings node
         else generate_concave_shape export_settings node) s = Ok (shape_id, s1) /\
        node_getitem col_node "shape"
        = match shape_id with
          | Some _ => Some (VStr (format_SubResource shape_id))
          | None => None
          end)
     \/
     (str_in (collision_shape rbd) ["CONVEX_HULL"; "MESH"] = false /\
      exists bounds col_shape shape_id s2,
        get_extents node = Ok bounds /\
        primitive_shape node rbd (name node +:+ "Collision") bounds s
          = Ok ((col_shape, shape_id), s2) /\
        warnings s1 = warnings s2 /\
        _internal_hashes (escn_file s1) = _internal_hashes (escn_file s2) /\
        length (internal_resources (escn_file s1))
          = length (internal_resources (escn_file s2)) /\
        node_getitem col_node "shape"
          = Some (VStr (format_SubResource shape_id)))).
Proof.
  unfold export_collision_shape. intros H.
  apply bind_Ok in H as (rbd & s0 & Hrbd & H).
  unfold attr, lift in Hrbd.
  destruct (rigid_body node) as [found|]; [|discriminate Hrbd].
  injection Hrbd as -> <-.
  apply bind_Ok in H as (shaped & s1 & Hshape & H).
  apply bind_Ok in H as ([] & s3 & Hadd & H).
  injection H as <- <-. rewrite call__eq in Hadd. injection Hadd as <-.
  exists rbd, s1. split; [reflexivity|]. split; [reflexivity|].
  set (base :=
         node_setitem
           (node_setitem
              (NodeTemplate_init (name node +:+ "Collision") "CollisionShape"
                 (Some parent_gd_node)) "transform" _) "transform" _) in Hshape.
  destruct (str_in (collision_shape rbd) ["CONVEX_HULL"; "MESH"]).
  - left. split; [reflexivity|].
    apply bind_Ok in Hshape as (shape_id & s4 & Hgen & Hret).
    exists shape_id.
    destruct shape_id; injection Hret as <- <-; (split; [exact Hgen|]);
      unfold node_getitem; cbn.
    + apply lookup_insert_eq.
    + reflexivity.
  - right. split; [reflexivity|].
    apply bind_Ok in Hshape as (bounds & s4 & Hbounds & Hshape).
    unfold lift in Hbounds.
    destruct (get_extents node) as [found|]; [|discriminate Hbounds].
    injection Hbounds as -> <-.
    apply bind_Ok in Hshape as ([col_shape shape_id] & s5 & Hprim & Hret).
    exists bounds, col_shape, shape_id, s5.
    split; [reflexivity|]. split; [exact Hprim|].
    assert (Hend : shaped
                   = node_setitem base "shape" (VStr (format_SubResource shape_id))
                   /\ warnings s1 = warnings s5
                   /\ _internal_hashes (escn_file s1) = _internal_hashes (escn_file s5)
                   /\ length (internal_resources (escn_file s1))
                      = length (internal_resources (escn_file s5))).
    { destruct col_shape, shape_id;
        try (injection Hret as <- <-; repeat split; reflexivity).
      apply bind_Ok in Hret as ([] & s6 & Hmargin & Hret).
      injection Hret as <- <-. split; [reflexivity|].
      destruct (use_margin rbd).
      - rewrite call__eq in Hmargin. injection Hmargin as <-. cbn.
        repeat split. destruct n; [reflexivity | apply length_alter].
      - injection Hmargin as <-. repeat split. }
    destruct Hend as (-> & Hlog & Hhashes & Hlen).
    repeat split; assumption.
Qed.

Lemma export_collision_shape_log (export_settings : ExportSettings)
    (node : BlObject) (parent_gd_node : NodeTemplate)
    (parent_override : option BlObject) (s s' : Session)
    (col_node : NodeTemplate) (rbd : RigidBodyObject) :
  rigid_body node = Some rbd ->
  export_collision_shape export_settings node parent_gd_node parent_override s
    = Ok (col_node, s') ->
  warnings s' =
  warnings s
  ++ (if str_in (collision_shape rbd) SUPPORTED_SHAPES then []
      else ["Unable to export physics shape for " +:+ name node]).
Proof.
  intros Hrbd Hrun.
  apply export_collision_shape_steps in Hrun
    as (found & s1 & Hfound & -> & Hcases).
  rewrite Hrbd in Hfound. injection Hfound as <-. cbn [warnings].
  destruct Hcases as
    [(Hmesh & shape_id & Hgen & _)
    |(Hmesh & bounds & col_shape & shape_id & s2 & _ & Hprim & Hlog & _)].
  - rewrite (mesh_kind_supported _ Hmesh), app_nil_r.
    destruct (String.eqb (collision_shape rbd) "CONVEX_HULL").
    + exact (generate_convex_shape_log _ _ _ _ _ Hgen).
    + exact (generate_concave_shape_log _ _ _ _ _ Hgen).
  - rewrite Hlog. destruct (primitive_kind_dec (collision_shape rbd)) as [Hin|Hout].
    + rewrite (proj2 (primitive_kind_supported _ Hmesh) Hin), app_nil_r.
      exact (primitive_shape_log _ _ _ _ Hin _ _ _ Hprim).
    + rewrite (primitive_shape_unsupported _ _ _ _ _ Hout) in Hprim.
      injection Hprim as _ _ <-. cbn [warnings].
      destruct (str_in (collision_shape rbd) SUPPORTED_SHAPES) eqn:Hsupported;
        [|reflexivity].
      destruct (Hout (proj1 (primitive_kind_supported _ Hmesh) Hsupported)).
Qed.

(** X18: the log of an export.  A run of [export_physics_properties] that
    returns has logged nothing when the shape of the object is one of the
    five exported kinds, and exactly the warning that names the object
    otherwise. *)
Theorem export_logs_only_unsupported (export_settings : ExportSettings)
    (node : BlObject) (parent_gd_node : NodeTemplate) (s s' : Session)
    (col_node : NodeTemplate) (rbd : RigidBodyObject) :
  rigid_body node = Some rbd ->
  export_physics_properties export_settings node parent_gd_node s
    = Ok (col_node, s') ->
  warnings s' =
  warnings s
  ++ (if str_in (collision_shape rbd) SUPPORTED_SHAPES then []
      else ["Unable to export physics shape for " +:+ name node]).
Proof.
  intros Hrbd. unfold export_physics_properties. intros H.
  apply bind_Ok in H as (gd & s1 & Hfirst & H).
  apply bind_Ok in H as (body & s2 & Hwalk & H).
  apply (preserves_lift same_log) in Hwalk.
  rewrite (export_collision_shape_log _ _ _ _ _ _ _ _ Hrbd H).
  f_equal. rewrite Hwalk.
  destruct (get_physics_root node).
  - injection Hfirst as _ <-. reflexivity.
  - apply export_physics_controller_returns in Hfirst as (_ & _ & _ & _ & _ & _ & Hlog).
    exact Hlog.
Qed.

(** *** References to shapes *)

Lemma export_collision_shape_registered (export_settings : ExportSettings)
    (node : BlObject) (parent_gd_node : NodeTemplate)
    (parent_override : option BlObject) (s s' : Session)
    (col_node : NodeTemplate) :
  ESCNFile_wf (escn_file s) ->
  export_collision_shape export_settings node parent_gd_node parent_override s
    = Ok (col_node, s') ->
  node_getitem col_node "shape" = None \/
  node_getitem col_node "shape" = Some (VStr "SubResource(None)") \/
  exists rid,
    node_getitem col_node "shape" = Some (VStr (format_SubResource (Some rid))) /\
    is_Some (resource_at (escn_file s') rid).
Proof.
  intros Hwf Hrun.
  pose proof (export_collision_shape_wf _ _ _ _ _ _ _ Hrun Hwf) as Hwf'.
  assert (Hserved : forall key rid,
             served key rid s s' -> is_Some (resource_at (escn_file s') rid)).
  { intros key rid Hs. apply resource_at_is_Some.
    destruct (served_In _ _ _ _ Hs) as (stored & Hin & _).
    destruct Hwf' as (_ & _ & Hbound). rewrite List.Forall_forall in Hbound.
    exact (Hbound _ Hin). }
  pose proof Hrun as Hsteps.
  apply export_collision_shape_steps in Hsteps
    as (rbd & s1 & Hrbd & Hs' & Hcases).
  destruct Hcases as
    [(Hmesh & shape_id & Hgen & Hshape)
    |(Hmesh & bounds & col_shape & shape_id & s2 & _ & Hprim & _ & _ & _ & Hshape)].
  - destruct shape_id as [rid|]; [|left; exact Hshape].
    right. right. exists rid. split; [exact Hshape|].
    assert (exists key, served key rid s s1) as [key Hkey].
    { destruct (String.eqb (collision_shape rbd) "CONVEX_HULL"); eexists.
      - exact (generate_convex_shape_served _ _ _ _ _ _ Hrbd Hgen).
      - exact (generate_concave_shape_served _ _ _ _ _ _ Hrbd Hgen). }
    apply (Hserved key). subst s'.
    destruct Hkey as [(? & ? & ?)|(? & ? & ? & ?)]; [left|right]; cbn; auto.
  - destruct (primitive_kind_dec (collision_shape rbd)) as [Hin|Hout].
    + destruct (export_collision_shape_primitive_served _ _ _ _ _ _ _ _
                  Hrbd Hin Hrun) as (rid & Hrid & Hkey).
      right. right. exists rid. split; [exact Hrid|]. exact (Hserved _ _ Hkey).
    + rewrite (primitive_shape_unsupported _ _ _ _ _ Hout) in Hprim.
      injection Hprim as _ <- _. right. left. exact Hshape.
Qed.

(** X19: no reference to a missing shape.  In a document whose table is
    well formed, a run of [export_physics_properties] that returns leaves
    the table well formed, and the collision node it returns either has no
    shape, or the reference [SubResource(None)] of an unsupported kind, or
    a reference to a resource that is registered in the document. *)
Theorem exported_shape_is_registered (export_settings : ExportSettings)
    (node : BlObject) (parent_gd_node : NodeTemplate) (s s' : Session)
    (col_node : NodeTemplate) :
  ESCNFile_wf (escn_file s) ->
  export_physics_properties export_settings node parent_gd_node s
    = Ok (col_node, s') ->
  ESCNFile_wf (escn_file s') /\
  (node_getitem col_node "shape" = None \/
   node_getitem col_node "shape" = Some (VStr "SubResource(None)") \/
   exists rid,
     node_getitem col_node "shape" = Some (VStr (format_SubResource (Some rid))) /\
     is_Some (resource_at (escn_file s') rid)).
Proof.
  intros Hwf Hrun.
  split; [exact (export_physics_properties_wf _ _ _ _ _ _ Hrun Hwf)|].
  unfold export_physics_properties in Hrun.
  apply bind_Ok in Hrun as (gd & s1 & Hfirst & H).
  apply bind_Ok in H as (body & s2 & Hwalk & H).
  apply (export_collision_shape_registered _ _ _ _ _ _ _ ) in H; [exact H|].
  apply (preserves_lift keeps_wf) in Hwalk. apply Hwalk.
  destruct (get_physics_root node).
  - injection Hfirst as _ <-. exact Hwf.
  - exact (export_physics_controller_wf _ _ _ _ _ _ Hfirst Hwf).
Qed.

(** *** What an export leaves in place *)

#[local] Instance output_grows_frame : Frame output_grows.
Proof.
  split.
  - intros s. split; exists []; symmetry; apply app_nil_r.
  - intros s1 s2 s3 [[n1 Hn1] [l1 Hl1]] [[n2 Hn2] [l2 Hl2]]. split.
    + exists (n1 ++ n2). rewrite Hn2, Hn1. symmetry. apply app_assoc.
    + exists (l1 ++ l2). rewrite Hl2, Hl1. symmetry. apply app_assoc.
Qed.

(** Every method of the document only adds to the nodes and to the log. *)
Ltac output_methods :=
  intros; cbv beta; split; cbn [escn_file warnings];
  [ first [ exists []; rewrite add_internal_resource_nodes; symmetry; apply app_nil_r
          | exists []; cbn; symmetry; apply app_nil_r
          | eexists; cbn; reflexivity ]
  | first [ exists []; symmetry; apply app_nil_r
          | eexists; reflexivity ] ].

Lemma generate_convex_shape_output (export_settings : ExportSettings)
    (bl_object : BlObject) :
  preserves output_grows (generate_convex_shape export_settings bl_object).
Proof. unfold generate_convex_shape. frame_steps; output_methods. Qed.

Lemma generate_concave_shape_output (export_settings : ExportSettings)
    (bl_object : BlObject) :
  preserves output_grows (generate_concave_shape export_settings bl_object).
Proof. unfold generate_concave_shape. frame_steps; output_methods. Qed.

Lemma primitive_shape_output (node : BlObject) (rbd : RigidBodyObject)
    (col_name : string) (bounds : Vector.t) :
  preserves output_grows (primitive_shape node rbd col_name bounds).
Proof. unfold primitive_shape. frame_steps; output_methods. Qed.

Lemma export_collision_shape_output (export_settings : ExportSettings)
    (node : BlObject) (parent_gd_node : NodeTemplate)
    (parent_override : option BlObject) :
  preserves output_grows
    (export_collision_shape export_settings node parent_gd_node parent_override).
Proof.
  unfold export_collision_shape.
  frame_steps_with
    ltac:(first [ apply generate_convex_shape_output
                | apply generate_concave_shape_output
                | apply primitive_shape_output ]);
    output_methods.
Qed.

Lemma export_physics_controller_output (export_settings : ExportSettings)
    (node : BlObject) (parent_gd_node : NodeTemplate) :
  preserves output_grows
    (export_physics_controller export_settings node parent_gd_node).
Proof. unfold export_physics_controller. frame_steps; output_methods. Qed.

Lemma export_physics_properties_output (export_settings : ExportSettings)
    (node : BlObject) (parent_gd_node : NodeTemplate) :
  preserves output_grows
    (export_physics_properties export_settings node parent_gd_node).
Proof.
  unfold export_physics_properties.
  frame_steps_with
    ltac:(first [ apply export_physics_controller_output
                | apply export_collision_shape_output ]).
Qed.

(** X20: an export only adds.  A run of [export_physics_properties] that
    returns keeps every key of the table under the id it had, removes no
    resource, and leaves the nodes and the warnings that were there in
    place, before those it adds. *)
Theorem export_only_adds (export_settings : ExportSettings)
    (node : BlObject) (parent_gd_node : NodeTemplate) (s s' : Session)
    (col_node : NodeTemplate) :
  export_physics_properties export_settings node parent_gd_node s
    = Ok (col_node, s') ->
  (forall key index,
      get_internal_resource (escn_file s) key = Some index ->
      get_internal_resource (escn_file s') key = Some index) /\
  length (internal_resources (escn_file s))
    <= length (internal_resources (escn_file s')) /\
  (exists added, nodes (escn_file s') = nodes (escn_file s) ++ added) /\
  (exists logged, warnings s' = warnings s ++ logged).
Proof.
  intros Hrun.
  pose proof (export_physics_properties_grows _ _ _ _ _ _ Hrun) as Hgrows.
  pose proof (export_physics_properties_output _ _ _ _ _ _ Hrun) as [Hnodes Hlog].
  repeat split; try assumption.
  - intros key index. apply table_grows_get. exact Hgrows.
  - exact (proj2 Hgrows).
Qed.

End Exporters.

(** * The properties on the sample scene *)

Import Sample.

(** The physics root of the grandchild is the cube at the top, not the child
    next to it; an object below a parent without physics is its own root,
    and the root of the objects below it. *)
Example get_physics_root_sample :
  get_physics_root grandchild = Some cube /\
  nearest_physics_ancestor grandchild = Some child /\
  get_physics_root child = Some cube /\
  get_physics_root orphan = None /\
  get_physics_root orphan_child = Some orphan /\
  is_physics_root cube = true.
Proof. repeat split. Qed.

Example get_extents_sample : get_extents pill = Ok (Vector.mk 2 2 4).
Proof. reflexivity. Qed.

Example collision_groups_sample :
  collision_groups [true; false; true] = 5%Z /\
  collision_groups [false; true; true; false; true] = 22%Z.
Proof. split; reflexivity. Qed.

(** A root with a box and a child below it: one rigid body, two collision
    shapes attached to it, the root's at the identity and the child's
    relative to the root, both with the axis correction. *)
Example export_root_and_child :
  let root_run := export_physics_properties settings cube scene_root Session_init in
  let root_shape := returned scene_root root_run in
  let cube_node := NodeTemplate_init "Cube" "MeshInstance" (Some root_shape) in
  let child_run :=
    export_physics_properties settings child cube_node (session_after root_run) in
  let child_shape := returned scene_root child_run in
  map get_type (nodes (escn_file (session_after child_run)))
    = ["RigidBody"; "CollisionShape"; "CollisionShape"] /\
  get_parent child_shape = get_parent root_shape /\
  option_map get_type (get_parent root_shape) = Some "RigidBody" /\
  node_getitem root_shape "transform"
    = Some (VMatrix (Matmul (Identity 4) AxisCorrect)) /\
  node_getitem child_shape "transform"
    = Some (VMatrix
              (Matmul (Matmul (InvertedSafe (World "Cube")) (World "Child"))
                 AxisCorrect)) /\
  node_getitem root_shape "shape" = Some (VStr "SubResource(2)") /\
  node_getitem child_shape "shape" = Some (VStr "SubResource(3)").
Proof. vm_compute. repeat split. Qed.

Lemma physics_controller_variant_sample :
  exists phys_obj s',
    export_physics_controller settings cube scene_root Session_init
      = Ok (phys_obj, s') /\
    nodes (escn_file s') = nodes (escn_file Session_init) ++ [phys_obj] /\
    (type (default_rigid_body 1 "BOX") = "ACTIVE" ->
     kinematic (default_rigid_body 1 "BOX") = true ->
     get_type phys_obj = "KinematicBody") /\
    (type (default_rigid_body 1 "BOX") = "ACTIVE" ->
     kinematic (default_rigid_body 1 "BOX") = false ->
     get_type phys_obj = "RigidBody") /\
    (type (default_rigid_body 1 "BOX") = "PASSIVE" ->
     get_type phys_obj = "StaticBody").
Proof.
  apply (physics_controller_variant settings cube scene_root
           (default_rigid_body 1 "BOX") Session_init).
  reflexivity.
Defined.

Lemma physics_controller_collision_bits_sample :
  exists phys_obj s' col_groups,
    export_physics_controller settings cube scene_root Session_init
      = Ok (phys_obj, s') /\
    node_getitem phys_obj "collision_layer" = Some (VInt col_groups) /\
    node_getitem phys_obj "collision_mask" = Some (VInt col_groups) /\
    (forall i : nat,
        Z.testbit col_groups (Z.of_nat i)
        = nth i (collision_collections (default_rigid_body 1 "BOX")) false) /\
    (collision_collections (default_rigid_body 1 "BOX") = [true; false; true] ->
     col_groups = 5%Z).
Proof.
  apply (physics_controller_collision_bits settings cube scene_root
           (default_rigid_body 1 "BOX") Session_init).
  reflexivity.
Defined.

Lemma collision_shape_transform_sample :
  In (returned scene_root cube_properties)
     (nodes (escn_file (session_after cube_properties))) /\
  node_getitem (returned scene_root cube_properties) "transform"
    = Some (VMatrix (Matmul (Identity 4) AxisCorrect)).
Proof.
  apply (proj2 (collision_shape_transform settings cube scene_root Session_init
                  (session_after cube_properties)
                  (returned scene_root cube_properties))).
  vm_compute. reflexivity.
Defined.

Lemma capsule_shape_dimensions_sample :
  exists col_node s' rid col_shape,
    export_collision_shape settings pill body None Session_init
      = Ok (col_node, s') /\
    resource_at (escn_file s') rid = Some col_shape /\
    resource_getitem col_shape "radius" = Some (VFloat 1) /\
    resource_getitem col_shape "height" = Some (VFloat 2).
Proof.
  destruct (capsule_shape_dimensions settings pill body None Session_init
              (default_rigid_body 2 "CAPSULE") (Vector.mk 2 2 4)
              eq_refl eq_refl eq_refl eq_refl)
    as (col_node & s' & rid & col_shape & radius & height
        & Hrun & _ & Hat & _ & Hradius & Hheight & _ & _ & Hbounds & _).
  destruct (Hbounds eq_refl) as [Hr Hh]. rewrite Hr in Hradius. rewrite Hh in Hheight.
  exists col_node, s', rid, col_shape. auto.
Defined.

Lemma unsupported_shape_kind_sample :
  exists col_node s',
    export_collision_shape settings cone body None Session_init
      = Ok (col_node, s') /\
    warnings s' =
      warnings Session_init ++ ["Unable to export physics shape for " +:+ name cone] /\
    internal_resources (escn_file s') = internal_resources (escn_file Session_init) /\
    _internal_hashes (escn_file s') = _internal_hashes (escn_file Session_init) /\
    node_getitem col_node "shape" = Some (VStr "SubResource(None)") /\
    nodes (escn_file s') = nodes (escn_file Session_init) ++ [col_node].
Proof.
  apply (unsupported_shape_kind settings cone body None Session_init
           (default_rigid_body 3 "CONE")).
  - reflexivity.
  - simpl. intros [H|[H|[H|[H|[H|[]]]]]]; discriminate H.
  - discriminate.
Defined.

Lemma missing_mesh_geometry_sample :
  exists col_node s',
    export_collision_shape settings lamp body None Session_init
      = Ok (col_node, s') /\
    internal_resources (escn_file s') = internal_resources (escn_file Session_init) /\
    _internal_hashes (escn_file s') = _internal_hashes (escn_file Session_init) /\
    warnings s' = warnings Session_init /\
    node_getitem col_node "shape" = None /\
    nodes (escn_file s') = nodes (escn_file Session_init) ++ [col_node].
Proof.
  apply (missing_mesh_geometry settings lamp body None Session_init
           (default_rigid_body 6 "MESH")).
  - reflexivity.
  - right. split; [reflexivity|]. split; [reflexivity|]. left. reflexivity.
Defined.

(** C9 as the specification states it fails for a convex hull: the
    converter answers with a mesh that has no vertex and no polygon, and yet
    a shape is registered and attached to the node. *)
Lemma empty_convex_mesh_is_exported :
  collision_shape (default_rigid_body 7 "CONVEX_HULL") = "CONVEX_HULL" /\
  to_mesh empty_hull settings false false = Some no_geometry /\
  vertices no_geometry = [] /\
  polygons no_geometry = [] /\
  empty_hull_shape
    = Ok (returned scene_root empty_hull_shape, session_after empty_hull_shape) /\
  map resource_type (internal_resources (escn_file (session_after empty_hull_shape)))
    = ["ConvexPolygonShape"] /\
  node_getitem (returned scene_root empty_hull_shape) "shape"
    = Some (VStr "SubResource(1)") /\
  ~ (exists col_node s',
        export_collision_shape settings empty_hull body None Session_init
          = Ok (col_node, s') /\
        internal_resources (escn_file s')
          = internal_resources (escn_file Session_init) /\
        node_getitem col_node "shape" = None).
Proof.
  assert (Hrun : empty_hull_shape
                 = Ok (returned scene_root empty_hull_shape,
                       session_after empty_hull_shape))
    by (vm_compute; reflexivity).
  repeat split; try exact Hrun.
  intros (col_node & s' & Hrun' & _ & Hshape).
  unfold empty_hull_shape in Hrun at 1. rewrite Hrun in Hrun'.
  injection Hrun' as <- _. vm_compute in Hshape. discriminate Hshape.
Qed.

Lemma closest_physics_node_walk_sample :
  exists below body' above,
    gd_chain holder = below ++ body' :: above /\
    Forall (fun g => is_physics_node g = false) below /\
    is_physics_node body' = true /\
    closest_physics_node holder = Ok body'.
Proof.
  apply (proj1 (closest_physics_node_walk settings holder)).
  apply List.Exists_cons_tl. apply List.Exists_cons_hd. reflexivity.
Defined.

Lemma primitive_shapes_not_shared_sample :
  exists index1 index2,
    index1 <> index2 /\
    node_getitem (returned scene_root cube_shape) "shape"
      = Some (VStr (format_SubResource (Some index1))) /\
    node_getitem (returned scene_root pill_shape) "shape"
      = Some (VStr (format_SubResource (Some index2))) /\
    get_internal_resource (escn_file (session_after pill_shape))
      (KeyRigidBody (default_rigid_body 1 "BOX")) = Some index1 /\
    get_internal_resource (escn_file (session_after pill_shape))
      (KeyRigidBody (default_rigid_body 2 "CAPSULE")) = Some index2 /\
    is_Some (resource_at (escn_file (session_after pill_shape)) index1) /\
    is_Some (resource_at (escn_file (session_after pill_shape)) index2).
Proof.
  apply (proj2 (primitive_shapes_not_shared settings cube pill
                  (default_rigid_body 1 "BOX") (default_rigid_body 2 "CAPSULE")
                  body body None None Session_init
                  (session_after cube_shape) (session_after cube_shape)
                  (session_after pill_shape)
                  (returned scene_root cube_shape)
                  (returned scene_root pill_shape)
                  eq_refl eq_refl
                  (or_introl eq_refl) (or_intror (or_intror (or_introl eq_refl)))
                  ltac:(discriminate)
                  ltac:(vm_compute; reflexivity)
                  (@frame_refl _ _ table_grows_frame _)
                  (export_collision_shape_wf settings cube body None Session_init
                     (returned scene_root cube_shape) (session_after cube_shape)
                     ltac:(vm_compute; reflexivity) ESCNFile_init_wf)
                  ltac:(vm_compute; reflexivity))).
Defined.

Lemma mesh_shape_get_or_create_sample :
  generate_convex_shape settings pebble (session_after rock_hull)
    = Ok (Some 1, session_after rock_hull) /\
  length (internal_resources (escn_file (session_after rock_hull))) = 1.
Proof.
  destruct (mesh_shape_get_or_create settings generate_convex_shape
              "ConvexPolygonShape" rock pebble
              (default_rigid_body 4 "CONVEX_HULL")
              (default_rigid_body 5 "CONVEX_HULL")
              Session_init (session_after rock_hull) (session_after rock_hull) 1
              (or_introl (conj eq_refl eq_refl)) eq_refl eq_refl eq_refl
              ESCNFile_init_wf ltac:(vm_compute; reflexivity)
              (@frame_refl _ _ table_grows_frame _)
              (generate_convex_shape_wf settings rock Session_init (Some 1)
                 (session_after rock_hull) ltac:(vm_compute; reflexivity)
                 ESCNFile_init_wf))
    as [Hsame _].
  destruct (Hsame eq_refl) as (Hrun & _ & _ & Hone).
  split; [exact Hrun | exact (Hone eq_refl)].
Defined.

(** * The further properties on the sample scene *)

Import Scene.

Lemma physics_root_is_root_sample :
  In cube (ancestors grandchild) /\ has_physics cube = true /\
  is_physics_root cube = true /\ get_physics_root cube = None.
Proof. apply (physics_root_is_root grandchild cube). reflexivity. Defined.

Lemma physics_root_of_child_sample :
  get_physics_root grandchild =
  match get_physics_root child with
  | Some r => Some r
  | None => if has_physics child then Some child else None
  end.
Proof. apply (physics_root_of_child grandchild child). reflexivity. Defined.

Lemma no_rigid_body_raises_sample :
  generate_convex_shape settings group Session_init = Raise AttributeError /\
  generate_concave_shape settings group Session_init = Raise AttributeError /\
  export_collision_shape settings group body None Session_init
    = Raise AttributeError /\
  export_physics_controller settings group body Session_init
    = Raise AttributeError /\
  export_physics_properties settings group body Session_init
    = Raise AttributeError.
Proof.
  apply (no_rigid_body_raises settings group body None Session_init).
  reflexivity.
Defined.

Lemma get_extents_bounds_sample :
  exists mins maxs,
    get_extents cube = Ok (Vector_sub maxs mins) /\
    Forall (within mins maxs) (bound_box cube) /\
    In (Vector.x mins) (map Vector.x (bound_box cube)) /\
    In (Vector.y mins) (map Vector.y (bound_box cube)) /\
    In (Vector.z mins) (map Vector.z (bound_box cube)) /\
    In (Vector.x maxs) (map Vector.x (bound_box cube)) /\
    In (Vector.y maxs) (map Vector.y (bound_box cube)) /\
    In (Vector.z maxs) (map Vector.z (bound_box cube)).
Proof.
  apply (get_extents_bounds cube).
  repeat (constructor; [reflexivity|]). constructor.
Defined.

Lemma box_shape_extents_sample :
  exists col_node s' col_shape,
    export_collision_shape settings cube body None Session_init
      = Ok (col_node, s') /\
    internal_resources (escn_file s')
      = internal_resources (escn_file Session_init) ++ [col_shape] /\
    node_getitem col_node "shape"
      = Some (VStr (format_SubResource
                      (Some (length (internal_resources (escn_file s')))))) /\
    resource_type col_shape = "BoxShape" /\
    resource_name col_shape = name cube +:+ "Collision" /\
    resource_getitem col_shape "extents"
      = Some (VVector (Vector_div (Vector.mk 2 2 4) 2%float)).
Proof.
  apply (box_shape_extents settings cube body None Session_init
           (default_rigid_body 1 "BOX") (Vector.mk 2 2 4));
    reflexivity.
Defined.

Lemma sphere_shape_radius_sample :
  exists col_node s' col_shape,
    export_collision_shape settings ball body None Session_init
      = Ok (col_node, s') /\
    internal_resources (escn_file s')
      = internal_resources (escn_file Session_init) ++ [col_shape] /\
    node_getitem col_node "shape"
      = Some (VStr (format_SubResource
                      (Some (length (internal_resources (escn_file s')))))) /\
    resource_type col_shape = "SphereShape" /\
    resource_getitem col_shape "radius"
      = Some (VFloat (py_max (py_max 2 2) 4 / 2)%float).
Proof.
  apply (sphere_shape_radius settings ball body None Session_init
           (default_rigid_body 12 "SPHERE") (Vector.mk 2 2 4));
    reflexivity.
Defined.

Lemma primitive_shape_margin_sample :
  exists col_node s' rid col_shape,
    export_collision_shape settings crate body None Session_init
      = Ok (col_node, s') /\
    get_internal_resource (escn_file s') (KeyRigidBody (padded_body 13 "BOX"))
      = Some rid /\
    resource_at (escn_file s') rid = Some col_shape /\
    resource_getitem col_shape "margin" = Some (VFloat 0.25).
Proof.
  apply (primitive_shape_margin settings crate body None Session_init
           (padded_body 13 "BOX")).
  - reflexivity.
  - left. reflexivity.
  - discriminate.
  - reflexivity.
Defined.

Lemma convex_shape_content_sample :
  exists col_shape s',
    generate_convex_shape settings rock Session_init = Ok (Some 1, s') /\
    internal_resources (escn_file s') = [col_shape] /\
    _internal_hashes (escn_file s')
      = [(shape_key "ConvexPolygonShape" rock settings
            (default_rigid_body 4 "CONVEX_HULL"), 1)] /\
    nodes (escn_file s') = [] /\
    warnings s' = [] /\
    resource_type col_shape = "ConvexPolygonShape" /\
    resource_name col_shape = "Triangle" /\
    resource_getitem col_shape "points"
      = Some (VArray {| array_prefix := "PoolVector3Array(";
                        array_values := vertices triangle |}) /\
    resource_getitem col_shape "margin" = None.
Proof.
  apply (convex_shape_content settings rock (default_rigid_body 4 "CONVEX_HULL")
           Session_init triangle);
    reflexivity.
Defined.

Lemma concave_shape_content_sample :
  exists col_shape s' vert_array,
    generate_concave_shape settings terrain Session_init = Ok (Some 1, s') /\
    internal_resources (escn_file s') = [col_shape] /\
    _internal_hashes (escn_file s')
      = [(shape_key "ConcavePolygonShape" terrain settings
            (default_rigid_body 15 "MESH"), 1)] /\
    resource_type col_shape = "ConcavePolygonShape" /\
    resource_name col_shape = "Triangle" /\
    resource_getitem col_shape "data"
      = Some (VArray {| array_prefix := "PoolVector3Array(";
                        array_values := vert_array |}) /\
    map Some vert_array
      = flat_map (reversed_corners triangle) (loop_triangles triangle) /\
    length vert_array = 3 /\
    resource_getitem col_shape "margin" = None.
Proof.
  apply (concave_shape_content settings terrain (default_rigid_body 15 "MESH")
           Session_init triangle).
  - reflexivity.
  - reflexivity.
  - reflexivity.
  - discriminate.
  - constructor; [|constructor]. simpl. lia.
Defined.

Lemma concave_shape_index_error_sample :
  @generate_concave_shape mathutils torn_converter tt terrain Session_init
    = Raise IndexError.
Proof.
  apply (@concave_shape_index_error mathutils torn_converter tt terrain
           (default_rigid_body 15 "MESH") Session_init torn_triangle).
  - reflexivity.
  - reflexivity.
  - reflexivity.
  - discriminate.
  - constructor. simpl. lia.
Defined.

Lemma physics_controller_material_sample :
  exists phys_obj s',
    export_physics_controller settings cube scene_root Session_init
      = Ok (phys_obj, s') /\
    _internal_hashes (escn_file s') = _internal_hashes (escn_file Session_init) /\
    (get_type phys_obj = "KinematicBody" ->
     internal_resources (escn_file s')
       = internal_resources (escn_file Session_init) /\
     node_getitem phys_obj "physics_material_override" = None) /\
    (get_type phys_obj <> "KinematicBody" ->
     exists physics_mat,
       internal_resources (escn_file s')
         = internal_resources (escn_file Session_init) ++ [physics_mat] /\
       resource_type physics_mat = "PhysicsMaterial" /\
       resource_name physics_mat = name cube +:+ "PhysicsMaterial" /\
       resource_getitem physics_mat "friction"
         = Some (VFloat (friction (default_rigid_body 1 "BOX"))) /\
       resource_getitem physics_mat "bounce"
         = Some (VFloat (restitution (default_rigid_body 1 "BOX"))) /\
       node_getitem phys_obj "physics_material_override"
         = Some (VStr (format_SubResource
                         (Some (length (internal_resources (escn_file s'))))))).
Proof.
  apply (physics_controller_material settings cube scene_root
           (default_rigid_body 1 "BOX") Session_init).
  reflexivity.
Defined.

Lemma physics_controller_rigid_body_only_sample :
  exists phys_obj s',
    export_physics_controller settings platform scene_root Session_init
      = Ok (phys_obj, s') /\
    (get_type phys_obj = "RigidBody" ->
     node_getitem phys_obj "can_sleep"
       = Some (VBool (use_deactivation (moving_body 14 "BOX"))) /\
     node_getitem phys_obj "linear_damp"
       = Some (VFloat (linear_damping (moving_body 14 "BOX"))) /\
     node_getitem phys_obj "angular_damp"
       = Some (VFloat (angular_damping (moving_body 14 "BOX"))) /\
     node_getitem phys_obj "sleeping"
       = Some (VBool (use_start_deactivated (moving_body 14 "BOX")))) /\
    (get_type phys_obj <> "RigidBody" ->
     node_getitem phys_obj "can_sleep" = None /\
     node_getitem phys_obj "linear_damp" = None /\
     node_getitem phys_obj "angular_damp" = None /\
     node_getitem phys_obj "sleeping" = None).
Proof.
  apply (physics_controller_rigid_body_only settings platform scene_root
           (moving_body 14 "BOX") Session_init).
  reflexivity.
Defined.

Lemma export_of_physics_root_sample :
  exists phys_obj,
    nodes (escn_file (session_after cube_properties))
      = nodes (escn_file Session_init)
        ++ [phys_obj; returned scene_root cube_properties] /\
    get_parent (returned scene_root cube_properties) = Some phys_obj /\
    is_physics_node phys_obj = true /\
    get_parent phys_obj = Some scene_root /\
    node_getitem phys_obj "transform" = Some (VMatrix (matrix_local cube)).
Proof.
  apply (export_of_physics_root settings cube scene_root Session_init
           (session_after cube_properties)
           (returned scene_root cube_properties)).
  - reflexivity.
  - vm_compute. reflexivity.
Defined.

Lemma export_below_physics_root_sample :
  exists below body' above,
    gd_chain holder = below ++ body' :: above /\
    Forall (fun g => is_physics_node g = false) below /\
    is_physics_node body' = true /\
    get_parent (returned scene_root child_properties) = Some body' /\
    nodes (escn_file (session_after child_properties))
      = nodes (escn_file Session_init) ++ [returned scene_root child_properties].
Proof.
  apply (export_below_physics_root settings child cube holder Session_init
           (session_after child_properties)
           (returned scene_root child_properties)).
  - reflexivity.
  - vm_compute. reflexivity.
Defined.

Lemma export_logs_only_unsupported_sample :
  warnings (session_after cone_properties) =
  warnings Session_init ++ ["Unable to export physics shape for " +:+ name cone].
Proof.
  apply (export_logs_only_unsupported settings cone scene_root Session_init
           (session_after cone_properties)
           (returned scene_root cone_properties)
           (default_rigid_body 3 "CONE")).
  - reflexivity.
  - vm_compute. reflexivity.
Defined.

Lemma exported_shape_is_registered_sample :
  ESCNFile_wf (escn_file (session_after cube_properties)) /\
  (node_getitem (returned scene_root cube_properties) "shape" = None \/
   node_getitem (returned scene_root cube_properties) "shape"
     = Some (VStr "SubResource(None)") \/
   exists rid,
     node_getitem (returned scene_root cube_properties) "shape"
       = Some (VStr (format_SubResource (Some rid))) /\
     is_Some (resource_at (escn_file (session_after cube_properties)) rid)).
Proof.
  apply (exported_shape_is_registered settings cube scene_root Session_init
           (session_after cube_properties)
           (returned scene_root cube_properties)).
  - exact ESCNFile_init_wf.
  - vm_compute. reflexivity.
Defined.

Lemma export_only_adds_sample :
  (forall key index,
      get_internal_resource (escn_file Session_init) key = Some index ->
      get_internal_resource (escn_file (session_after cube_properties)) key
        = Some index) /\
  length (internal_resources (escn_file Session_init))
    <= length (internal_resources (escn_file (session_after cube_properties))) /\
  (exists added,
      nodes (escn_file (session_after cube_properties))
        = nodes (escn_file Session_init) ++ added) /\
  (exists logged,
      warnings (session_after cube_properties)
        = warnings Session_init ++ logged).
Proof.
  apply (export_only_adds settings cube scene_root Session_init
           (session_after cube_properties)
           (returned scene_root cube_properties)).
  vm_compute. reflexivity.
Defined.
